(** * Planning engine: goal analysis, task decomposition and plan execution

    A shallow embedding of [backend_planning_engine.py] (class
    [PlanningEngine] and the data classes and tools it uses), followed by the
    properties of the goal classifier, of the task decomposer, of the cost
    estimate and of the dependency-driven execution loop.

    Conventions of the embedding:
    - Python [str] is [string]; a character is read as the code point of the
      same number (U+0000 to U+00FF), on which [str.lower], [str.isspace] and
      [str.split] are modelled exactly.
    - A Python [float] is kept as the rational it is written as or evaluates
      to ([Q]); the arithmetic on floats (the sum of the cost estimate, the
      products and quotients of the durations, the seconds of a difference of
      two times) is done in binary64, with the operations of [SpecFloat].
    - [datetime] values are integers (microseconds).
    - [uuid.uuid4], [datetime.now] and [Tool.execute] are the operations of a
      [Runtime]: they read and advance an abstract world. The [execute]
      methods of the five tools are embedded too, as the [SourceRuntime] built
      on a runtime for the identifiers and the clock and on an operation for
      the call to the remote model.
    - The logger is a list of structured records, oldest first.
    - Code that can raise runs in a state-and-exception monad [M]. Its
      exceptions are of classes below [Exception], and so are those of the
      tool of a [Runtime]. [execute_task_full] is [execute_task] on a tool
      that can also raise an exception that is not, with the duration taken
      through its float as in the source.
    - The tasks of a plan are distinct objects, mutated in place by the
      execution loop: a task object is its position in [plan.tasks], and
      [completed_tasks] maps a task id to such a position.
    - The [while] loop of [execute_plan] takes fuel; enough fuel is shown
      to exist for every plan. *)

From Stdlib Require Import ZArith QArith Ascii String DecimalString Lia.
From Stdlib Require SpecFloat.
From stdpp Require Import base list strings relations.

Close Scope Q_scope.
Open Scope string_scope.
Open Scope list_scope.

(** ** Python strings *)

Module PyStr.

(** [c.isspace()] for a code point below 256: the ASCII table used by
    [str.split] (TAB..CR, FS..US, space) plus NEL and NBSP. *)
Definition isspace (c : ascii) : bool :=
  let n := nat_of_ascii c in
  (((9 <=? n) && (n <=? 13)) || ((28 <=? n) && (n <=? 32))
   || (n =? 133) || (n =? 160))%nat.

(** [c.lower()] for a code point below 256: A..Z and the Latin-1 capitals
    (all of U+00C0..U+00DE but the multiplication sign) move up by 32. *)
Definition lower_char (c : ascii) : ascii :=
  let n := nat_of_ascii c in
  if (((65 <=? n) && (n <=? 90))
      || ((192 <=? n) && (n <=? 222) && negb (n =? 215)))%nat
  then ascii_of_nat (n + 32) else c.

Fixpoint lower (s : string) : string :=
  match s with
  | EmptyString => EmptyString
  | String c s' => String (lower_char c) (lower s')
  end.

Fixpoint startswith (w s : string) : bool :=
  match w, s with
  | EmptyString, _ => true
  | String _ _, EmptyString => false
  | String a w', String b s' => if Ascii.eqb a b then startswith w' s' else false
  end.

(** [w in s] on strings: [w] occurs in [s] as a contiguous substring. *)
Fixpoint contains (w s : string) : bool :=
  match s with
  | EmptyString => startswith w s
  | String _ s' => startswith w s || contains w s'
  end.

(** [s.split()]: the maximal runs of non-whitespace characters, in order.
    [cur] is the run being read. *)
Fixpoint split_from (cur s : string) : list string :=
  match s with
  | EmptyString => match cur with EmptyString => [] | _ => [cur] end
  | String c s' =>
      if isspace c
      then match cur with
           | EmptyString => split_from EmptyString s'
           | _ => cur :: split_from EmptyString s'
           end
      else split_from (cur +:+ String c EmptyString) s'
  end.

Definition split (s : string) : list string := split_from EmptyString s.

(** [str(n)] for a non-negative integer. *)
Definition str_of_nat (n : nat) : string :=
  NilZero.string_of_uint (Nat.to_uint n).

(** The string is empty or holds whitespace only. *)
Fixpoint all_space (s : string) : bool :=
  match s with
  | EmptyString => true
  | String c s' => isspace c && all_space s'
  end.

End PyStr.

(** ** Python values and dictionaries *)

Unset Elimination Schemes.
Inductive PyVal : Type :=
| VNone
| VBool (b : bool)
| VInt (z : Z)
| VFloat (q : Q)
| VStr (s : string)
| VList (l : list PyVal)
| VDict (d : list (string * PyVal)).
Set Elimination Schemes.

(** A [dict] with string keys keeps its keys in insertion order; assigning to
    a key that is present replaces the value where it stands. *)
Fixpoint dict_set {V : Type} (k : string) (v : V) (d : list (string * V))
  : list (string * V) :=
  match d with
  | [] => [(k, v)]
  | (k', v') :: d' =>
      if String.eqb k' k then (k, v) :: d' else (k', v') :: dict_set k v d'
  end.

Fixpoint dict_get {V : Type} (k : string) (d : list (string * V)) : option V :=
  match d with
  | [] => None
  | (k', v) :: d' => if String.eqb k' k then Some v else dict_get k d'
  end.

(** [k in d] *)
Definition dict_mem {V : Type} (k : string) (d : list (string * V)) : bool :=
  match dict_get k d with Some _ => true | None => false end.

Definition dict_keys {V : Type} (d : list (string * V)) : list string := map fst d.
Definition dict_values {V : Type} (d : list (string * V)) : list V := map snd d.

Abbreviation Dict := (list (string * PyVal)).

(** [d.get(k, dflt)]; [d.get(k)] is [py_get k VNone d]. *)
Definition py_get (k : string) (dflt : PyVal) (d : Dict) : PyVal :=
  match dict_get k d with Some v => v | None => dflt end.

(** ** Enums and data classes *)

Inductive TaskStatus := PENDING | IN_PROGRESS | COMPLETED | FAILED.

Inductive TaskType :=
| RESEARCH
| SCRIPT_GENERATION
| TTS_GENERATION
| THUMBNAIL_GENERATION
| SEO_OPTIMIZATION
| VIDEO_UPLOAD.

Definition TaskStatus_eqb (a b : TaskStatus) : bool :=
  match a, b with
  | PENDING, PENDING | IN_PROGRESS, IN_PROGRESS
  | COMPLETED, COMPLETED | FAILED, FAILED => true
  | _, _ => false
  end.

Definition TaskType_eqb (a b : TaskType) : bool :=
  match a, b with
  | RESEARCH, RESEARCH | SCRIPT_GENERATION, SCRIPT_GENERATION
  | TTS_GENERATION, TTS_GENERATION | THUMBNAIL_GENERATION, THUMBNAIL_GENERATION
  | SEO_OPTIMIZATION, SEO_OPTIMIZATION | VIDEO_UPLOAD, VIDEO_UPLOAD => true
  | _, _ => false
  end.

(** [task_type.value] *)
Definition TaskType_value (t : TaskType) : string :=
  match t with
  | RESEARCH => "research"
  | SCRIPT_GENERATION => "script_generation"
  | TTS_GENERATION => "tts_generation"
  | THUMBNAIL_GENERATION => "thumbnail_generation"
  | SEO_OPTIMIZATION => "seo_optimization"
  | VIDEO_UPLOAD => "video_upload"
  end.

(** [repr] of a member, which is what [str(KeyError(member))] shows. *)
Definition TaskType_repr (t : TaskType) : string :=
  match t with
  | RESEARCH => "<TaskType.RESEARCH: 'research'>"
  | SCRIPT_GENERATION => "<TaskType.SCRIPT_GENERATION: 'script_generation'>"
  | TTS_GENERATION => "<TaskType.TTS_GENERATION: 'tts_generation'>"
  | THUMBNAIL_GENERATION => "<TaskType.THUMBNAIL_GENERATION: 'thumbnail_generation'>"
  | SEO_OPTIMIZATION => "<TaskType.SEO_OPTIMIZATION: 'seo_optimization'>"
  | VIDEO_UPLOAD => "<TaskType.VIDEO_UPLOAD: 'video_upload'>"
  end.

(** The terminal statuses of the execution loop. *)
Definition is_terminal (s : TaskStatus) : bool :=
  match s with COMPLETED | FAILED => true | _ => false end.

Module Task.

Record t := mk {
  id : string;
  project_id : PyVal;
  task_type : TaskType;
  status : TaskStatus;
  input_data : Dict;
  output_data : option Dict;
  tool_used : option string;
  cost_usd : Q;
  execution_time_seconds : Z;
  created_at : option Z;
  completed_at : option Z;
  dependencies : option (list string);
  is_parallel : bool
}.

(** The constructor call of the source: the fields it passes, the others at
    their defaults. *)
Definition new (id : string) (project_id : PyVal) (task_type : TaskType)
    (status : TaskStatus) (input_data : Dict) (dependencies : list string)
    (is_parallel : bool) : t :=
  mk id project_id task_type status input_data None None 0%Q 0%Z None None
     (Some dependencies) is_parallel.

Definition set_status (v : TaskStatus) (x : t) : t :=
  mk (id x) (project_id x) (task_type x) v (input_data x) (output_data x)
     (tool_used x) (cost_usd x) (execution_time_seconds x) (created_at x)
     (completed_at x) (dependencies x) (is_parallel x).

Definition set_output_data (v : Dict) (x : t) : t :=
  mk (id x) (project_id x) (task_type x) (status x) (input_data x) (Some v)
     (tool_used x) (cost_usd x) (execution_time_seconds x) (created_at x)
     (completed_at x) (dependencies x) (is_parallel x).

Definition set_tool_used (v : string) (x : t) : t :=
  mk (id x) (project_id x) (task_type x) (status x) (input_data x) (output_data x)
     (Some v) (cost_usd x) (execution_time_seconds x) (created_at x)
     (completed_at x) (dependencies x) (is_parallel x).

Definition set_cost_usd (v : Q) (x : t) : t :=
  mk (id x) (project_id x) (task_type x) (status x) (input_data x) (output_data x)
     (tool_used x) v (execution_time_seconds x) (created_at x)
     (completed_at x) (dependencies x) (is_parallel x).

Definition set_completed_at (v : Z) (x : t) : t :=
  mk (id x) (project_id x) (task_type x) (status x) (input_data x) (output_data x)
     (tool_used x) (cost_usd x) (execution_time_seconds x) (created_at x)
     (Some v) (dependencies x) (is_parallel x).

Definition set_execution_time_seconds (v : Z) (x : t) : t :=
  mk (id x) (project_id x) (task_type x) (status x) (input_data x) (output_data x)
     (tool_used x) (cost_usd x) v (created_at x)
     (completed_at x) (dependencies x) (is_parallel x).

(** [task.dependencies or []] *)
Definition deps (x : t) : list string :=
  match dependencies x with Some l => l | None => [] end.

End Task.

Abbreviation Task := Task.t.

Module ExecutionPlan.

Record t := mk {
  project_id : PyVal;
  goal : string;
  tasks : list Task;
  estimated_cost : Q;
  estimated_duration_minutes : Z;
  tool_mapping : list (string * string);
  created_at : Z
}.

(** The tasks of a plan are shared objects that the execution loop mutates in
    place: the plan after a run is the plan with those tasks as they are
    then. *)
Definition with_tasks (ts : list Task) (p : t) : t :=
  mk (project_id p) (goal p) ts (estimated_cost p)
     (estimated_duration_minutes p) (tool_mapping p) (created_at p).

End ExecutionPlan.

Abbreviation ExecutionPlan := ExecutionPlan.t.

Module Tool.

Record t := mk { name : string; cost_per_call : Q }.

End Tool.

Abbreviation Tool := Tool.t.

(** The tools as their constructors configure them. *)
Definition ResearchTool : Tool := Tool.mk "research_tool" 0.0%Q.
Definition ScriptGenerationTool : Tool := Tool.mk "script_generation_tool" 0.50%Q.
Definition TTSGenerationTool : Tool := Tool.mk "tts_tool" 0.10%Q.
Definition ThumbnailGenerationTool : Tool := Tool.mk "thumbnail_tool" 0.24%Q.
Definition SEOOptimizationTool : Tool := Tool.mk "seo_tool" 0.10%Q.

(** ** Exceptions, log records, the runtime *)

(** An exception of a class below [Exception], with the text that [str]
    gives: what the engine raises itself ([KeyError], [ValueError],
    [TypeError], ...), what a tool is expected to raise, and what
    [except Exception] catches. [Raise] carries no other kind; an exception
    that is not below [Exception] is an [Invocation] of its own, below. *)
Record Exn := mkExn { exn_class : string; exn_str : string }.

Inductive Res (A : Type) : Type :=
| Ok (a : A)
| Raise (e : Exn).
Arguments Ok {A} a.
Arguments Raise {A} e.

Inductive LogRecord :=
| Info_AnalyzingGoal (goal : string)
| Info_Decomposing
| Info_ToolRoutingCompleted (n : nat)
| Info_CreatingPlan (goal : string)
| Info_PlanCreated (total_cost : Q) (estimated_duration : Z)
| Info_SavingPlan (project_id : PyVal)
| Info_ExecutingTask (id : string) (task_type : string)
| Error_TaskFailed (id : string) (msg : string)
| Info_SavingTask (id : string)
| Info_StartingExecution (project_id : PyVal)
| Warning_NoReadyTasks
| Info_PlanExecutionCompleted (n : nat).

(** What the engine asks of its environment. [tool_execute] is the capability
    contract: it returns an output and the cost incurred, or raises an
    exception below [Exception]. A call runs to its end before the next one
    starts. *)
Class Runtime := {
  World : Type;
  uuid4 : World -> string * World;
  datetime_now : World -> Z * World;
  tool_execute : Tool -> Dict -> World -> Res (Dict * Q) * World
}.

(** How a call of [tool.execute] can end. [tool_execute] of a [Runtime] has
    the first two ways only. The third is an exception that is not below
    [Exception], of which Python has [KeyboardInterrupt], [SystemExit],
    [GeneratorExit] and [asyncio.CancelledError]: [except Exception] lets it
    pass. *)
Inductive Invocation :=
| Returns (output_data : Dict) (cost : Q)
| RaisesException (e : Exn)
| RaisesBaseException (e : Exn).

(** How a call of [execute_task] can end: with [return task], or with an
    exception that leaves the call. Either way the task object was mutated,
    and [task] is the object as the call leaves it. *)
Inductive TaskOutcome :=
| Returned (task : Task)
| Propagated (e : Exn) (task : Task).

Definition outcome_task (r : TaskOutcome) : Task :=
  match r with
  | Returned task | Propagated _ task => task
  end.

(** ** Floating point

    The arithmetic that the program does in binary64. A price stays the
    decimal of the source (in [Q]) where it is only stored or compared. *)

(** Python [float]: IEEE 754 binary64. *)
Definition float : Type := SpecFloat.spec_float.

(** An integer as a mantissa with exponent 0; the operations below round
    once, whatever the size of the mantissas. *)
Definition float_of_int (z : Z) : float :=
  match z with
  | Z0 => SpecFloat.S754_zero false
  | Zpos p => SpecFloat.S754_finite false p 0
  | Zneg p => SpecFloat.S754_finite true p 0
  end.

(** [a / b] on two [int]: the quotient rounded once, to nearest. *)
Definition int_truediv (a b : Z) : Res float :=
  if (b =? 0)%Z then Raise (mkExn "ZeroDivisionError" "division by zero")
  else
    match SpecFloat.SFdiv 53 1024 (float_of_int a) (float_of_int b) with
    | SpecFloat.S754_infinity _ | SpecFloat.S754_nan =>
        Raise (mkExn "OverflowError"
                     "integer division result too large for a float")
    | q => Ok q
    end.

(** [x * y] on two [float]. *)
Definition float_mul (x y : float) : float := SpecFloat.SFmul 53 1024 x y.

(** [int(x)]: the integer part, towards zero. *)
Definition int_of_float (x : float) : Res Z :=
  match x with
  | SpecFloat.S754_zero _ => Ok 0%Z
  | SpecFloat.S754_finite sign m e =>
      let magnitude :=
        match e with
        | Z0 => Zpos m
        | Zpos _ => Z.shiftl (Zpos m) e
        | Zneg k => Z.shiftr (Zpos m) (Zpos k)
        end in
      Ok (if sign then (- magnitude)%Z else magnitude)
  | SpecFloat.S754_infinity _ =>
      Raise (mkExn "OverflowError" "cannot convert float infinity to integer")
  | SpecFloat.S754_nan =>
      Raise (mkExn "ValueError" "cannot convert float NaN to integer")
  end.

(** The float that a decimal literal denotes: the nearest to the
    rational. *)
Definition float_of_Q (q : Q) : float :=
  SpecFloat.SFdiv 53 1024 (float_of_int (Qnum q)) (float_of_int (Zpos (Qden q))).

(** The number that a finite float is. Infinities and NaN have none; they do
    not arise from the prices of the tools. *)
Definition Q_of_float (x : float) : Q :=
  match x with
  | SpecFloat.S754_finite sign m e =>
      let magnitude :=
        match e with
        | Z0 => Qmake (Zpos m) 1
        | Zpos k => Qmake (Zpos m * 2 ^ e) 1
        | Zneg k => Qmake (Zpos m) (2 ^ k)
        end in
      if sign then (- magnitude)%Q else magnitude
  | _ => 0%Q
  end.

Definition float_finite (x : float) : bool :=
  match x with
  | SpecFloat.S754_zero _ | SpecFloat.S754_finite _ _ _ => true
  | _ => false
  end.

(** [x + y] on two [float]. *)
Definition float_add (x y : float) : float := SpecFloat.SFadd 53 1024 x y.

(** [sum(xs)] on floats: binary64 additions from 0, in the order of the
    list. CPython adds them so up to version 3.11, and the engine is modelled
    with this sum. *)
Definition float_sum (xs : list float) : float :=
  fold_left float_add xs (SpecFloat.S754_zero false).

(** [x - y] on two [float]. *)
Definition float_sub (x y : float) : float := SpecFloat.SFsub 53 1024 x y.

(** [sum(xs)] on floats from CPython 3.12 on: the same additions, with the
    rounding error of each collected in a second float [c] that is added at
    the end when it is finite and not zero (Neumaier's summation). *)
Definition float_sum_compensated (xs : list float) : float :=
  let '(total, c) :=
    fold_left
      (fun '(total, c) x =>
         let t := float_add total x in
         let error :=
           if SpecFloat.SFleb (SpecFloat.SFabs x) (SpecFloat.SFabs total)
           then float_add (float_sub total t) x
           else float_add (float_sub x t) total in
         (t, float_add c error))
      xs (SpecFloat.S754_zero false, SpecFloat.S754_zero false) in
  match c with
  | SpecFloat.S754_finite _ _ _ => float_add total c
  | _ => total
  end.

(** [(completed_at - start_time).total_seconds()]: the microseconds of the
    difference divided by 10**6, as a float. *)
Definition total_seconds (microseconds : Z) : float :=
  SpecFloat.SFdiv 53 1024 (float_of_int microseconds) (float_of_int 1000000).

(** ** The state-and-exception monad *)

Section Engine.
Context {RT : Runtime}.

Record St := mkSt { world : World; log : list LogRecord }.

Definition M (A : Type) : Type := St -> Res A * St.

Definition ret {A : Type} (a : A) : M A := fun s => (Ok a, s).

Definition bind {A B : Type} (m : M A) (f : A -> M B) : M B :=
  fun s => match m s with
           | (Ok a, s') => f a s'
           | (Raise e, s') => (Raise e, s')
           end.

Definition raise {A : Type} (e : Exn) : M A := fun s => (Raise e, s).

(** An expression that returns or raises, and leaves the state alone. *)
Definition of_res {A : Type} (r : Res A) : M A := fun s => (r, s).

(** [try: body / except Exception as e: handler e]. Every [Exn] is below
    [Exception], so the handler takes all that [body] raises here; what
    passes [except Exception] is not a [Raise] (see [execute_full]). *)
Definition try_except {A : Type} (body : M A) (handler : Exn -> M A) : M A :=
  fun s => match body s with
           | (Ok a, s') => (Ok a, s')
           | (Raise e, s') => handler e s'
           end.

Definition logger (r : LogRecord) : M unit :=
  fun s => (Ok tt, mkSt (world s) (log s ++ [r])).

(** [str(uuid.uuid4())] *)
Definition new_uuid : M string :=
  fun s => let r := uuid4 (world s) in (Ok r.1, mkSt r.2 (log s)).

(** [datetime.now()] *)
Definition now : M Z :=
  fun s => let r := datetime_now (world s) in (Ok r.1, mkSt r.2 (log s)).

(** [await tool.execute(input_data)] *)
Definition execute (tool : Tool) (input_data : Dict) : M (Dict * Q) :=
  fun s => let r := tool_execute tool input_data (world s) in
           (r.1, mkSt r.2 (log s)).

#[export] Instance M_ret : MRet M := @ret.
#[export] Instance M_bind : MBind M := fun A B f m => bind m f.

(** [l[i]] *)
Definition list_getitem {A : Type} (l : list A) (i : nat) : M A :=
  match l !! i with
  | Some a => ret a
  | None => raise (mkExn "IndexError" "list index out of range")
  end.

(** [for x in l: acc = body x acc] *)
Fixpoint for_each {A S : Type} (l : list A) (acc : S) (body : A -> S -> M S)
  : M S :=
  match l with
  | [] => ret acc
  | x :: l' => acc' ← body x acc; for_each l' acc' body
  end.

(** [[f(x) for x in l]] *)
Fixpoint list_comp {A B : Type} (f : A -> M B) (l : list A) : M (list B) :=
  match l with
  | [] => ret []
  | x :: l' => y ← f x; ys ← list_comp f l'; ret (y :: ys)
  end.

(** [range(a, b)] *)
Definition range (a b : nat) : list nat := seq a (b - a).

(** ** PlanningEngine *)

(** [self.tools], as [__init__] fills it: no tool serves [VIDEO_UPLOAD]. *)
Definition tools (t : TaskType) : option Tool :=
  match t with
  | RESEARCH => Some ResearchTool
  | SCRIPT_GENERATION => Some ScriptGenerationTool
  | TTS_GENERATION => Some TTSGenerationTool
  | THUMBNAIL_GENERATION => Some ThumbnailGenerationTool
  | SEO_OPTIMIZATION => Some SEOOptimizationTool
  | VIDEO_UPLOAD => None
  end.

(** [self.tools[task_type]] *)
Definition tools_getitem (t : TaskType) : M Tool :=
  match tools t with
  | Some tool => ret tool
  | None => raise (mkExn "KeyError" (TaskType_repr t))
  end.

(** [any(word in goal.lower() for word in words)] *)
Definition any_word_in_lower (words : list string) (goal : string) : bool :=
  existsb (fun word => PyStr.contains word (PyStr.lower goal)) words.

Definition _classify_objective (goal : string) : string :=
  if any_word_in_lower ["earn"; "money"; "revenue"] goal then "monetization"
  else if any_word_in_lower ["brand"; "growth"] goal then "branding"
  else if any_word_in_lower ["teach"; "learn"; "education"] goal then "education"
  else "entertainment".

Definition _determine_scope (goal : string) : Z :=
  if any_word_in_lower ["series"; "multiple"; "batch"] goal then 10%Z
  else 4%Z.

Definition analyze_goal (goal : string) (project_context : Dict) : M Dict :=
  logger (Info_AnalyzingGoal goal);;
  let analysis :=
    [ ("objective_type", VStr (_classify_objective goal));
      ("scope", VInt (_determine_scope goal));
      ("complexity_level", VStr "medium");
      ("success_metrics",
        VDict [ ("views_target", VInt 10000);
                ("engagement_rate_target", VFloat 4.0%Q);
                ("watch_time_target", VInt 60) ]);
      ("constraints",
        VDict [ ("budget_usd", py_get "budget" (VInt 50) project_context);
                ("timeline_days", py_get "timeline" (VInt 7) project_context);
                ("content_restrictions",
                  py_get "restrictions" (VList []) project_context) ]) ] in
  ret analysis.

(** [f"Video {i+1}: {goal}"] *)
Definition video_title (i : nat) (goal : string) : string :=
  "Video " +:+ PyStr.str_of_nat (i + 1) +:+ ": " +:+ goal.

Definition decompose_tasks (goal : string) (analysis : Dict) : M (list Task) :=
  logger Info_Decomposing;;
  let tasks : list Task := [] in
  (* Task 1: research *)
  id_1 ← new_uuid;
  keyword ← list_getitem (PyStr.split goal) 0;
  let task_1 :=
    Task.new id_1 (py_get "project_id" VNone analysis) RESEARCH PENDING
      [ ("niche", py_get "niche" VNone analysis); ("keyword", VStr keyword) ]
      [] false in
  let tasks := tasks ++ [task_1] in
  (* script generation *)
  tasks ← for_each (range 0 4) tasks (fun i tasks =>
    id_ ← new_uuid;
    let task :=
      Task.new id_ (py_get "project_id" VNone analysis) SCRIPT_GENERATION PENDING
        [ ("title", VStr (video_title i goal)); ("keywords", VList []);
          ("tone", VStr "professional"); ("duration_minutes", VInt 5) ]
        [Task.id task_1] true in
    ret (tasks ++ [task]));
  (* TTS generation *)
  tasks ← for_each (range 1 5) tasks (fun i tasks =>
    id_ ← new_uuid;
    dep ← list_getitem tasks i;
    let task :=
      Task.new id_ (py_get "project_id" VNone analysis) TTS_GENERATION PENDING
        [ ("script", VStr "placeholder"); ("voice", VStr "natural") ]
        [Task.id dep] true in
    ret (tasks ++ [task]));
  (* thumbnail generation *)
  tasks ← for_each (range 0 4) tasks (fun i tasks =>
    id_ ← new_uuid;
    dep ← list_getitem tasks (1 + i);
    let task :=
      Task.new id_ (py_get "project_id" VNone analysis) THUMBNAIL_GENERATION PENDING
        [ ("title", VStr (video_title i goal));
          ("niche", py_get "niche" VNone analysis) ]
        [Task.id dep] true in
    ret (tasks ++ [task]));
  (* SEO optimization *)
  tasks ← for_each (range 0 4) tasks (fun i tasks =>
    id_ ← new_uuid;
    dep ← list_getitem tasks (1 + i);
    let task :=
      Task.new id_ (py_get "project_id" VNone analysis) SEO_OPTIMIZATION PENDING
        [ ("title", VStr (video_title i goal)); ("primary_keyword", VStr goal);
          ("secondary_keywords", VList []) ]
        [Task.id dep] true in
    ret (tasks ++ [task]));
  ret tasks.

Definition route_tools (tasks : list Task) : M (list (string * string)) :=
  tool_mapping ← for_each tasks [] (fun task tool_mapping =>
    tool ← tools_getitem (Task.task_type task);
    ret (dict_set (Task.id task) (Tool.name tool) tool_mapping));
  logger (Info_ToolRoutingCompleted (length tasks));;
  ret tool_mapping.

Definition _save_execution_plan (plan : ExecutionPlan) : M unit :=
  logger (Info_SavingPlan (ExecutionPlan.project_id plan)).

Definition _save_task (task : Task) : M unit :=
  logger (Info_SavingTask (Task.id task)).

(** The term of one task in the cost estimate: a float times an [int]. *)
Definition modeled_cost (task : Task) : M float :=
  tool ← tools_getitem (Task.task_type task);
  ret (float_mul (float_of_Q (Tool.cost_per_call tool))
         (float_of_int
            (if TaskType_eqb (Task.task_type task) THUMBNAIL_GENERATION
             then 3 else 1))).

Definition create_execution_plan (goal : string) (project_context : Dict)
  : M ExecutionPlan :=
  logger (Info_CreatingPlan goal);;
  analysis ← analyze_goal goal project_context;
  let analysis :=
    dict_set "project_id" (py_get "project_id" VNone project_context) analysis in
  let analysis :=
    dict_set "niche" (py_get "niche" VNone project_context) analysis in
  tasks ← decompose_tasks goal analysis;
  tool_mapping ← route_tools tasks;
  costs ← list_comp modeled_cost tasks;
  let total_cost := Q_of_float (float_sum costs) in
  (* int((len(tasks) * 5) / 3): a float quotient, then its integer part *)
  estimated_duration ←
    of_res (match int_truediv (Z.of_nat (length tasks) * 5) 3 with
            | Ok quotient => int_of_float quotient
            | Raise e => Raise e
            end);
  created_at ← now;
  let plan :=
    ExecutionPlan.mk (py_get "project_id" VNone project_context) goal tasks
      total_cost estimated_duration tool_mapping created_at in
  logger (Info_PlanCreated total_cost estimated_duration);;
  _save_execution_plan plan;;
  ret plan.

Definition execute_task (task : Task) : M Task :=
  logger (Info_ExecutingTask (Task.id task) (TaskType_value (Task.task_type task)));;
  let task := Task.set_status IN_PROGRESS task in
  start_time ← now;
  task ← try_except
    (tool ← tools_getitem (Task.task_type task);
     '(output_data, cost) ← execute tool (Task.input_data task);
     let task := Task.set_output_data output_data task in
     let task := Task.set_tool_used (Tool.name tool) task in
     let task := Task.set_cost_usd cost task in
     let task := Task.set_status COMPLETED task in
     ret task)
    (fun e =>
     logger (Error_TaskFailed (Task.id task) (exn_str e));;
     let task := Task.set_status FAILED task in
     let task := Task.set_output_data [("error", VStr (exn_str e))] task in
     ret task);
  (* finally: the handler above cannot raise, so both paths continue here *)
  completed_at ← now;
  let task := Task.set_completed_at completed_at task in
  let task :=
    Task.set_execution_time_seconds ((completed_at - start_time) ÷ 1000000)%Z task in
  _save_task task;;
  ret task.

(** [execute_task] above is the call for a tool that returns or raises below
    [Exception], with the whole seconds of the elapsed time as the duration.
    [execute_task_full] below is the call in full: the tool can end in any
    of the three ways of [Invocation], and the duration is taken as the
    source takes it, from the float of [total_seconds()]. The two agree when
    the tool ends in one of the first two ways and the two readings of the
    clock are less than 2^52 microseconds apart
    ([execute_task_full_refines]). *)

(** [await tool.execute(input_data)], with an exception that is not below
    [Exception] handed on as a value: no [except Exception] stops it. *)
Definition execute_full (invoke : Tool -> Dict -> World -> Invocation * World)
    (tool : Tool) (input_data : Dict) : M (Dict * Q + Exn) :=
  fun s => let r := invoke tool input_data (world s) in
           (match r.1 with
            | Returns output_data cost => Ok (inl (output_data, cost))
            | RaisesException e => Raise e
            | RaisesBaseException e => Ok (inr e)
            end, mkSt r.2 (log s)).

Definition execute_task_full
    (invoke : Tool -> Dict -> World -> Invocation * World) (task : Task)
  : M TaskOutcome :=
  logger (Info_ExecutingTask (Task.id task) (TaskType_value (Task.task_type task)));;
  let task := Task.set_status IN_PROGRESS task in
  start_time ← now;
  '(task, in_flight) ← try_except
    (tool ← tools_getitem (Task.task_type task);
     r ← execute_full invoke tool (Task.input_data task);
     match r with
     | inl (output_data, cost) =>
         let task := Task.set_output_data output_data task in
         let task := Task.set_tool_used (Tool.name tool) task in
         let task := Task.set_cost_usd cost task in
         let task := Task.set_status COMPLETED task in
         ret (task, None)
     | inr e => ret (task, Some e)
     end)
    (fun e =>
     logger (Error_TaskFailed (Task.id task) (exn_str e));;
     let task := Task.set_status FAILED task in
     let task := Task.set_output_data [("error", VStr (exn_str e))] task in
     ret (task, None));
  (* finally: runs on the three paths *)
  completed_at ← now;
  let task := Task.set_completed_at completed_at task in
  match int_of_float (total_seconds (completed_at - start_time)) with
  | Raise e => ret (Propagated e task)
  | Ok seconds =>
      let task := Task.set_execution_time_seconds seconds task in
      match in_flight with
      | Some e => ret (Propagated e task)
      | None => _save_task task;; ret (Returned task)
      end
  end.

(** The tool of a [Runtime] as an invocation. *)
Definition invoke_of_runtime (tool : Tool) (input_data : Dict) (w : World)
  : Invocation * World :=
  let r := tool_execute tool input_data w in
  (match r.1 with
   | Ok (output_data, cost) => Returns output_data cost
   | Raise e => RaisesException e
   end, r.2).

(** The condition of the ready-set comprehension. [completed_tasks] maps a
    task id to the task object, here its position in [plan.tasks]. *)
Definition is_ready (completed_tasks : list (string * nat)) (task : Task) : bool :=
  TaskStatus_eqb (Task.status task) PENDING
  && forallb (fun dep_id => dict_mem dep_id completed_tasks) (Task.deps task).

(** The ready tasks among [tasks], the objects at positions [i], [i+1], ... *)
Fixpoint ready_from (i : nat) (tasks : list Task)
    (completed_tasks : list (string * nat)) : list nat :=
  match tasks with
  | [] => []
  | task :: rest =>
      if is_ready completed_tasks task
      then i :: ready_from (S i) rest completed_tasks
      else ready_from (S i) rest completed_tasks
  end.

Definition ready_tasks (tasks : list Task) (completed_tasks : list (string * nat))
  : list nat :=
  ready_from 0 tasks completed_tasks.

(** [execute_task] on the object at position [i]: the object is mutated in
    place. *)
Definition execute_task_ref (i : nat) (tasks : list Task) : M (list Task) :=
  match tasks !! i with
  | Some task => task' ← execute_task task; ret (<[i := task']> tasks)
  | None => ret tasks
  end.

(** [await asyncio.gather] over [self.execute_task(task) for task in
    ready_tasks]: the coroutines start in list order and none yields before it
    ends. *)
Definition gather_execute (ready : list nat) (tasks : list Task) : M (list Task) :=
  for_each ready tasks execute_task_ref.

(** [[await self.execute_task(task) for task in ready_tasks]] *)
Definition sequential_execute (ready : list nat) (tasks : list Task)
  : M (list Task) :=
  for_each ready tasks execute_task_ref.

(** [any(task.is_parallel for task in ready_tasks)] *)
Definition any_parallel (ready : list nat) (tasks : list Task) : bool :=
  existsb (fun i => match tasks !! i with
                    | Some task => Task.is_parallel task
                    | None => false
                    end) ready.

(** [for task in results: completed_tasks[task.id] = task] *)
Definition record_results (results : list nat) (tasks : list Task)
    (completed_tasks : list (string * nat)) : list (string * nat) :=
  fold_left (fun completed i =>
               match tasks !! i with
               | Some task => dict_set (Task.id task) i completed
               | None => completed
               end) results completed_tasks.

(** The [while] loop of [execute_plan]; [None] when [fuel] iterations were not
    enough to leave it. *)
Fixpoint execute_plan_loop (fuel : nat) (tasks : list Task)
    (completed_tasks : list (string * nat))
  : M (option (list Task * list (string * nat))) :=
  match fuel with
  | O => ret None
  | S fuel' =>
      if (length completed_tasks <? length tasks)%nat then
        let ready := ready_tasks tasks completed_tasks in
        match ready with
        | [] =>
            logger Warning_NoReadyTasks;;
            ret (Some (tasks, completed_tasks))
        | _ :: _ =>
            tasks' ← (if any_parallel ready tasks
                      then gather_execute ready tasks
                      else sequential_execute ready tasks);
            execute_plan_loop fuel' tasks'
              (record_results ready tasks' completed_tasks)
        end
      else ret (Some (tasks, completed_tasks))
  end.

(** [list(completed_tasks.values())] *)
Definition completed_values (tasks : list Task)
    (completed_tasks : list (string * nat)) : list Task :=
  omap (fun i => tasks !! i) (dict_values completed_tasks).

(** [execute_plan]: the plan as the run leaves it, and the returned list. *)
Definition execute_plan (fuel : nat) (plan : ExecutionPlan)
  : M (option (ExecutionPlan * list Task)) :=
  logger (Info_StartingExecution (ExecutionPlan.project_id plan));;
  r ← execute_plan_loop fuel (ExecutionPlan.tasks plan) [];
  match r with
  | None => ret None
  | Some (tasks', completed_tasks) =>
      logger (Info_PlanExecutionCompleted (length completed_tasks));;
      ret (Some (ExecutionPlan.with_tasks tasks' plan,
                 completed_values tasks' completed_tasks))
  end.

(** *** The states of the loop

    A loop state is taken at the [while] test: the runtime state, the tasks of
    the plan as they are then, and [completed_tasks]. One step is one
    iteration that dispatches a non-empty ready set. *)
Definition loop_state : Type := St * list Task * list (string * nat).

Inductive loop_step : loop_state -> loop_state -> Prop :=
| loop_iteration s tasks completed_tasks s' tasks' :
    (length completed_tasks < length tasks)%nat ->
    ready_tasks tasks completed_tasks <> [] ->
    (if any_parallel (ready_tasks tasks completed_tasks) tasks
     then gather_execute (ready_tasks tasks completed_tasks) tasks
     else sequential_execute (ready_tasks tasks completed_tasks) tasks) s
      = (Ok tasks', s') ->
    loop_step (s, tasks, completed_tasks)
      (s', tasks',
       record_results (ready_tasks tasks completed_tasks) tasks' completed_tasks).

Definition loop_reachable (s0 : St) (plan_tasks : list Task) (st : loop_state)
  : Prop :=
  rtc loop_step (s0, plan_tasks, []) st.

(** [execute_task] is called on the task at position [i] in loop state [st],
    the tasks being [heap] at that moment: the loop goes on, [i] is in the
    ready set, and [heap] is what the calls for the ready tasks before [i]
    left. *)
Definition dispatched_in (st : loop_state) (i : nat) (heap : list Task) : Prop :=
  let '(s, tasks, completed_tasks) := st in
  (length completed_tasks < length tasks)%nat /\
  exists before after s_mid,
    ready_tasks tasks completed_tasks = before ++ i :: after /\
    for_each before tasks execute_task_ref s = (Ok heap, s_mid).

(** The number of pending tasks, the measure of the loop. *)
Definition count_pending (tasks : list Task) : nat :=
  length (List.filter (fun task => TaskStatus_eqb (Task.status task) PENDING) tasks).

End Engine.

(** ** A simulated runtime

    Identifiers are numbered, the clock advances by 0.7 s at each reading, and
    every tool returns its price (three times the price for thumbnails) except
    the narration tool, which raises. *)

Definition sim_uuid4 (w : nat) : string * nat :=
  ("task-" +:+ PyStr.str_of_nat w, S w).

Definition sim_datetime_now (w : nat) : Z * nat :=
  (Z.of_nat w * 700000, S w)%Z.

Definition sim_tool_execute (tool : Tool) (input_data : Dict) (w : nat)
  : Res (Dict * Q) * nat :=
  if String.eqb (Tool.name tool) "tts_tool"
  then (Raise (mkExn "AttributeError" "'NoneType' object has no attribute 'split'"), S w)
  else if String.eqb (Tool.name tool) "thumbnail_tool"
  then (Ok ([("thumbnails_generated", VInt 3)], Tool.cost_per_call tool * 3)%Q, S w)
  else (Ok ([("status", VStr "generated")], Tool.cost_per_call tool), S w).

Definition SimRuntime : Runtime :=
  {| World := nat;
     uuid4 := sim_uuid4;
     datetime_now := sim_datetime_now;
     tool_execute := sim_tool_execute |}.

Definition sim_start : @St SimRuntime := @mkSt SimRuntime 0%nat [].

(** The tools of the simulation, with a script tool that is interrupted
    from the keyboard during its call. *)
Definition sim_interrupted_invoke (tool : Tool) (input_data : Dict) (w : nat)
  : Invocation * nat :=
  if String.eqb (Tool.name tool) "script_generation_tool"
  then (RaisesBaseException (mkExn "KeyboardInterrupt" EmptyString), S w)
  else invoke_of_runtime (RT := SimRuntime) tool input_data w.

Definition sim_task (id : string) (task_type : TaskType) (status : TaskStatus)
    (dependencies : list string) : Task :=
  Task.mk id (VStr "p1") task_type status [] None None 0%Q 0%Z None None
    (Some dependencies) true.

Definition sim_plan (tasks : list Task) : ExecutionPlan :=
  ExecutionPlan.mk (VStr "p1") "Grow my tech channel" tasks 0%Q 0%Z [] 0%Z.

(** A narration task, which fails in the simulation, and a metadata task
    that depends on it alone. *)
Definition sim_failing_plan : ExecutionPlan :=
  sim_plan [ sim_task "narration" TTS_GENERATION PENDING [];
             sim_task "metadata" SEO_OPTIMIZATION PENDING ["narration"] ].

(** The loop state after the first iteration on [sim_failing_plan]. *)
Definition sim_after_first : @loop_state SimRuntime :=
  Eval vm_compute in
    match for_each [0%nat] (ExecutionPlan.tasks sim_failing_plan)
            execute_task_ref sim_start with
    | (Ok tasks', s') => (s', tasks', record_results [0%nat] tasks' [])
    | (Raise _, s') => (s', [], [])
    end.

(** A task that depends on an identifier unknown to the plan. *)
Definition sim_dangling_plan : ExecutionPlan :=
  sim_plan [ sim_task "research" RESEARCH PENDING [];
             sim_task "script" SCRIPT_GENERATION PENDING ["ghost"] ].

(** Two tasks that depend on each other. *)
Definition sim_cyclic_plan : ExecutionPlan :=
  sim_plan [ sim_task "research" RESEARCH PENDING [];
             sim_task "a" SCRIPT_GENERATION PENDING ["b"];
             sim_task "b" TTS_GENERATION PENDING ["a"] ].

(** A plan run once before: one task completed, one failed, one pending. *)
Definition sim_partial_plan : ExecutionPlan :=
  sim_plan [ sim_task "research" RESEARCH COMPLETED [];
             sim_task "narration" TTS_GENERATION FAILED [];
             sim_task "script" SCRIPT_GENERATION PENDING [] ].


(** ** Vocabulary of the specification *)

(** "Case-insensitive substring match": some stretch of the text equals the
    word once both are lowercased. *)
Definition ci_substring (word text : string) : Prop :=
  exists pre mid post,
    text = pre +:+ mid +:+ post /\ PyStr.lower mid = PyStr.lower word.

Definition matches_any (words : list string) (text : string) : Prop :=
  exists word, word ∈ words /\ ci_substring word text.

(** "First match wins" over the keyword sets of the four categories. *)
Inductive spec_category (goal : string) : string -> Prop :=
| cat_monetization :
    matches_any ["earn"; "money"; "revenue"] goal ->
    spec_category goal "monetization"
| cat_branding :
    ~ matches_any ["earn"; "money"; "revenue"] goal ->
    matches_any ["brand"; "growth"] goal ->
    spec_category goal "branding"
| cat_education :
    ~ matches_any ["earn"; "money"; "revenue"] goal ->
    ~ matches_any ["brand"; "growth"] goal ->
    matches_any ["teach"; "learn"; "education"] goal ->
    spec_category goal "education"
| cat_entertainment :
    ~ matches_any ["earn"; "money"; "revenue"] goal ->
    ~ matches_any ["brand"; "growth"] goal ->
    ~ matches_any ["teach"; "learn"; "education"] goal ->
    spec_category goal "entertainment".

(** The decomposition of section 4.3 for a scope of [n] deliverables, in
    canonical order: discovery, then the [n] scripts, narrations,
    illustrations and metadata tasks. [uid k] is the identifier of the task at
    position [k]. *)
Definition canonical_task (uid : nat -> string) (project_id : PyVal)
    (k : nat) (task_type : TaskType) (input_data : Dict)
    (dependencies : list nat) (is_parallel : bool) : Task :=
  Task.new (uid k) project_id task_type PENDING input_data
    (map uid dependencies) is_parallel.

Definition canonical_decomposition (n : nat) (uid : nat -> string)
    (project_id niche : PyVal) (goal keyword : string) : list Task :=
  [ canonical_task uid project_id 0 RESEARCH
      [("niche", niche); ("keyword", VStr keyword)] [] false ]
  ++ map (fun i =>
       canonical_task uid project_id (1 + i) SCRIPT_GENERATION
         [ ("title", VStr (video_title i goal)); ("keywords", VList []);
           ("tone", VStr "professional"); ("duration_minutes", VInt 5) ]
         [0%nat] true) (seq 0 n)
  ++ map (fun i =>
       canonical_task uid project_id (1 + n + i) TTS_GENERATION
         [ ("script", VStr "placeholder"); ("voice", VStr "natural") ]
         [(1 + i)%nat] true) (seq 0 n)
  ++ map (fun i =>
       canonical_task uid project_id (1 + 2 * n + i) THUMBNAIL_GENERATION
         [ ("title", VStr (video_title i goal)); ("niche", niche) ]
         [(1 + i)%nat] true) (seq 0 n)
  ++ map (fun i =>
       canonical_task uid project_id (1 + 3 * n + i) SEO_OPTIMIZATION
         [ ("title", VStr (video_title i goal)); ("primary_keyword", VStr goal);
           ("secondary_keywords", VList []) ]
         [(1 + i)%nat] true) (seq 0 n).

(** The prices of a list added up exactly. *)
Definition py_sum (xs : list Q) : Q := fold_left Qplus xs 0%Q.

(** "The capability's fixed per-call price", with the multiplier of the
    illustration capability, as the term of one task in the estimate. *)
Definition estimated_price (task : Task) : Q :=
  (match tools (Task.task_type task) with
   | Some tool => Tool.cost_per_call tool
   | None => 0
   end
   * match Task.task_type task with THUMBNAIL_GENERATION => 3 | _ => 1 end)%Q.

(** The same term as the program computes it, in binary64. *)
Definition float_price (task : Task) : float :=
  float_mul
    (float_of_Q match tools (Task.task_type task) with
                | Some tool => Tool.cost_per_call tool
                | None => 0%Q
                end)
    (float_of_int
       match Task.task_type task with THUMBNAIL_GENERATION => 3 | _ => 1 end).

(** The task is of a type that [self.tools] serves. *)
Definition has_tool (task : Task) : bool :=
  match tools (Task.task_type task) with Some _ => true | None => false end.

(** The fields of a task that [execute_task] never assigns. *)
Definition same_identity (task task' : Task) : Prop :=
  Task.id task' = Task.id task /\
  Task.project_id task' = Task.project_id task /\
  Task.task_type task' = Task.task_type task /\
  Task.input_data task' = Task.input_data task /\
  Task.created_at task' = Task.created_at task /\
  Task.dependencies task' = Task.dependencies task /\
  Task.is_parallel task' = Task.is_parallel task.

(** How the tasks of a plan stand after [execute_task] ran on those at the
    positions in [l]: these are terminal, the others are as they were. *)
Definition dispatched_heap (l : list nat) (tasks tasks' : list Task) : Prop :=
  length tasks' = length tasks /\
  forall j task, tasks !! j = Some task ->
    exists task', tasks' !! j = Some task' /\
      same_identity task task' /\
      (j ∈ l -> is_terminal (Task.status task') = true) /\
      (j ∉ l -> task' = task).

(** The invariant of the loop of [execute_plan] started on [tasks0]: a task
    is as it was at the start or, having been pending then, is terminal now;
    an entry of [completed_tasks] is under the identifier of the task it
    holds, which was run by this loop; and every task run by this loop has
    its identifier among the keys. *)
Definition loop_invariant (tasks0 tasks : list Task)
    (completed_tasks : list (string * nat)) : Prop :=
  length tasks = length tasks0 /\
  (forall j task0, tasks0 !! j = Some task0 ->
     exists task, tasks !! j = Some task /\ same_identity task0 task /\
       (task = task0 \/
        (Task.status task0 = PENDING /\ is_terminal (Task.status task) = true))) /\
  (forall k j, dict_get k completed_tasks = Some j ->
     exists task0 task, tasks0 !! j = Some task0 /\ tasks !! j = Some task /\
       Task.id task = k /\ Task.status task0 = PENDING /\
       is_terminal (Task.status task) = true) /\
  (forall j task0 task, tasks0 !! j = Some task0 -> tasks !! j = Some task ->
     Task.status task0 = PENDING -> is_terminal (Task.status task) = true ->
     dict_mem (Task.id task) completed_tasks = true) /\
  NoDup (dict_keys completed_tasks).

Section Identifiers.
Context {RT : Runtime}.

(** The world after [n] calls of [uuid4], and the identifier that the call
    number [n] (from 0) returns. *)
Fixpoint world_after_uuids (n : nat) (w : World) : World :=
  match n with
  | O => w
  | S n' => (uuid4 (world_after_uuids n' w)).2
  end.

Definition uuid_at (w : World) (n : nat) : string :=
  (uuid4 (world_after_uuids n w)).1.

(** What the [try] block of [execute_task] obtains when entered in world
    [w]: the tool with its output and cost, or the exception of the lookup or
    of the tool. *)
Definition tool_outcome (task : Task) (w : World)
  : Res (Tool * Dict * Q) * World :=
  match tools (Task.task_type task) with
  | None => (Raise (mkExn "KeyError" (TaskType_repr (Task.task_type task))), w)
  | Some tool =>
      let r := tool_execute tool (Task.input_data task) w in
      (match r.1 with
       | Ok (output_data, cost) => Ok (tool, output_data, cost)
       | Raise e => Raise e
       end, r.2)
  end.

(** What the [try] block of [execute_task_full] meets when entered in world
    [w]: the [KeyError] of the lookup, or the way the call of the tool
    ends. *)
Definition invocation (invoke : Tool -> Dict -> World -> Invocation * World)
    (task : Task) (w : World) : Invocation * World :=
  match tools (Task.task_type task) with
  | None => (RaisesException
               (mkExn "KeyError" (TaskType_repr (Task.task_type task))), w)
  | Some tool => invoke tool (Task.input_data task) w
  end.

(** How the loop is left from loop state [st], the runtime state being [s']
    afterwards: by its test, or by [break] after the warning. *)
Definition loop_exit (st : loop_state) (s' : St) : Prop :=
  let '(s, tasks, completed) := st in
  ((length tasks <= length completed)%nat /\ s' = s) \/
  ((length completed < length tasks)%nat /\
   ready_tasks tasks completed = [] /\
   s' = mkSt (world s) (log s ++ [Warning_NoReadyTasks])).

End Identifiers.

(** ** Serialization *)

(** [status.value] *)
Definition TaskStatus_value (s : TaskStatus) : string :=
  match s with
  | PENDING => "pending"
  | IN_PROGRESS => "in_progress"
  | COMPLETED => "completed"
  | FAILED => "failed"
  end.

(** A field that may be [None]. *)
Definition py_option {A : Type} (f : A -> PyVal) (o : option A) : PyVal :=
  match o with Some a => f a | None => VNone end.

Section Serialization.

(** [datetime.isoformat] *)
Variable isoformat : Z -> string.

(** [Task.to_dict]: the fields in the order of the data class, as
    [dataclasses.asdict] lists them, with the two enums replaced by their
    values and the two timestamps by their ISO text, or [None] when unset. *)
Definition Task_to_dict (task : Task) : Dict :=
  [ ("id", VStr (Task.id task));
    ("project_id", Task.project_id task);
    ("task_type", VStr (TaskType_value (Task.task_type task)));
    ("status", VStr (TaskStatus_value (Task.status task)));
    ("input_data", VDict (Task.input_data task));
    ("output_data", py_option VDict (Task.output_data task));
    ("tool_used", py_option VStr (Task.tool_used task));
    ("cost_usd", VFloat (Task.cost_usd task));
    ("execution_time_seconds", VInt (Task.execution_time_seconds task));
    ("created_at", py_option (fun t => VStr (isoformat t)) (Task.created_at task));
    ("completed_at",
      py_option (fun t => VStr (isoformat t)) (Task.completed_at task));
    ("dependencies",
      py_option (fun l => VList (map VStr l)) (Task.dependencies task));
    ("is_parallel", VBool (Task.is_parallel task)) ].

(** [ExecutionPlan.to_dict] *)
Definition ExecutionPlan_to_dict (plan : ExecutionPlan) : Dict :=
  [ ("project_id", ExecutionPlan.project_id plan);
    ("goal", VStr (ExecutionPlan.goal plan));
    ("tasks",
      VList (map (fun task => VDict (Task_to_dict task))
                 (ExecutionPlan.tasks plan)));
    ("estimated_cost", VFloat (ExecutionPlan.estimated_cost plan));
    ("estimated_duration_minutes",
      VInt (ExecutionPlan.estimated_duration_minutes plan));
    ("tool_mapping",
      VDict (map (fun kv => (kv.1, VStr kv.2)) (ExecutionPlan.tool_mapping plan)));
    ("created_at", VStr (isoformat (ExecutionPlan.created_at plan))) ].

(** Two tasks that agree on everything but, possibly, their timestamps,
    which have the same ISO text. *)
Definition same_serialized (t1 t2 : Task) : Prop :=
  Task.id t1 = Task.id t2 /\
  Task.project_id t1 = Task.project_id t2 /\
  Task.task_type t1 = Task.task_type t2 /\
  Task.status t1 = Task.status t2 /\
  Task.input_data t1 = Task.input_data t2 /\
  Task.output_data t1 = Task.output_data t2 /\
  Task.tool_used t1 = Task.tool_used t2 /\
  Task.cost_usd t1 = Task.cost_usd t2 /\
  Task.execution_time_seconds t1 = Task.execution_time_seconds t2 /\
  (isoformat <$> Task.created_at t1) = (isoformat <$> Task.created_at t2) /\
  (isoformat <$> Task.completed_at t1) = (isoformat <$> Task.completed_at t2) /\
  Task.dependencies t1 = Task.dependencies t2 /\
  Task.is_parallel t1 = Task.is_parallel t2.

(** Two plans that agree on everything but, possibly, the timestamps. *)
Definition same_serialized_plan (p1 p2 : ExecutionPlan) : Prop :=
  ExecutionPlan.project_id p1 = ExecutionPlan.project_id p2 /\
  ExecutionPlan.goal p1 = ExecutionPlan.goal p2 /\
  Forall2 same_serialized (ExecutionPlan.tasks p1) (ExecutionPlan.tasks p2) /\
  ExecutionPlan.estimated_cost p1 = ExecutionPlan.estimated_cost p2 /\
  ExecutionPlan.estimated_duration_minutes p1
  = ExecutionPlan.estimated_duration_minutes p2 /\
  ExecutionPlan.tool_mapping p1 = ExecutionPlan.tool_mapping p2 /\
  isoformat (ExecutionPlan.created_at p1) = isoformat (ExecutionPlan.created_at p2).

End Serialization.

(** ** Further vocabulary *)

(** The mapping that [route_tools] builds when every task has a tool. *)
Definition tool_name_of (task : Task) : string :=
  match tools (Task.task_type task) with
  | Some tool => Tool.name tool
  | None => ""
  end.

Definition routed (tasks : list Task) (acc : list (string * string))
  : list (string * string) :=
  fold_left (fun m task => dict_set (Task.id task) (tool_name_of task) m)
            tasks acc.

Definition is_video_upload (task : Task) : bool :=
  TaskType_eqb (Task.task_type task) VIDEO_UPLOAD.

(** Every dependency of a task is the identifier of a task placed before
    it. *)
Definition dependencies_earlier (tasks : list Task) : Prop :=
  forall i task dep_id,
    tasks !! i = Some task -> dep_id ∈ Task.deps task ->
    exists j dep, (j < i)%nat /\ tasks !! j = Some dep /\ Task.id dep = dep_id.

(** The log records that [execute_task] writes. *)
Definition task_record (r : LogRecord) : bool :=
  match r with
  | Info_ExecutingTask _ _ | Error_TaskFailed _ _ | Info_SavingTask _ => true
  | _ => false
  end.

Definition is_executing_record (r : LogRecord) : bool :=
  match r with Info_ExecutingTask _ _ => true | _ => false end.

Definition is_saving_record (r : LogRecord) : bool :=
  match r with Info_SavingTask _ => true | _ => false end.

(** [task'] is what a call of [execute_task] on [task] returned. *)
Definition executed_from {RT : Runtime} (task task' : Task) : Prop :=
  exists s s', execute_task task s = (Ok task', s').

(** How many records of a log satisfy a test. *)
Definition count_records (f : LogRecord -> bool) (records : list LogRecord) : nat :=
  length (List.filter f records).

(** The records of a batch: [n] executions, each saved once. *)
Definition batch_records (n : nat) (records : list LogRecord) : Prop :=
  forallb task_record records = true /\
  count_records is_executing_record records = n /\
  count_records is_saving_record records = n.

(** A task of a type that no tool serves, and a plan that holds one. *)
Definition sim_upload_task : Task :=
  sim_task "upload" VIDEO_UPLOAD PENDING [].

Definition sim_upload_plan : ExecutionPlan :=
  sim_plan [ sim_task "research" RESEARCH PENDING [];
             sim_upload_task;
             sim_task "script" SCRIPT_GENERATION PENDING ["research"] ].

(** A plan left by an interrupted run: one task still [IN_PROGRESS]. *)
Definition sim_interrupted_plan : ExecutionPlan :=
  sim_plan [ sim_task "research" RESEARCH IN_PROGRESS [];
             sim_task "script" SCRIPT_GENERATION PENDING [] ].

(** A stand-in for [isoformat]: the microseconds in decimal. *)
Definition sim_isoformat (t : Z) : string :=
  match t with
  | Z0 => "0"
  | Zpos p => NilZero.string_of_uint (Pos.to_uint p)
  | Zneg p => "-" +:+ NilZero.string_of_uint (Pos.to_uint p)
  end.

(** ** The tools' own code

    [ResearchTool], [TTSGenerationTool] and [ThumbnailGenerationTool] compute
    their result locally; [ScriptGenerationTool] and [SEOOptimizationTool]
    send one prompt to a remote model. Their [execute] is embedded here on
    top of a runtime [RT0] that provides the identifiers and the clock, and of
    an operation [messages_create] for the remote call, which returns the text
    of the first block of the answer or raises. The lines the tools write to
    the logger are kept in the world, apart from the records of the engine. A
    value interpolated in an f-string is kept as the value. *)

(** [type(v).__name__] *)
Definition type_name (v : PyVal) : string :=
  match v with
  | VNone => "NoneType"
  | VBool _ => "bool"
  | VInt _ => "int"
  | VFloat _ => "float"
  | VStr _ => "str"
  | VList _ => "list"
  | VDict _ => "dict"
  end.

(** [sep.join(l)] on strings. *)
Fixpoint join_strs (sep : string) (l : list string) : string :=
  match l with
  | [] => EmptyString
  | [x] => x
  | x :: l' => x +:+ sep +:+ join_strs sep l'
  end.

(** The items of a list, which [join] wants to be strings; [i] is the index
    of the first. *)
Fixpoint str_items (i : nat) (l : list PyVal) : Res (list string) :=
  match l with
  | [] => Ok []
  | VStr x :: l' =>
      match str_items (S i) l' with
      | Ok xs => Ok (x :: xs)
      | Raise e => Raise e
      end
  | v :: _ =>
      Raise (mkExn "TypeError"
               ("sequence item " +:+ PyStr.str_of_nat i
                +:+ ": expected str instance, " +:+ type_name v +:+ " found"))
  end.

(** The characters of a string, each as a string. *)
Fixpoint chars (text : string) : list string :=
  match text with
  | EmptyString => []
  | String c rest => String c EmptyString :: chars rest
  end.

(** [sep.join(v)]: a string is joined by its characters, a dictionary by its
    keys, a list by its items if all are strings. *)
Definition py_join (sep : string) (v : PyVal) : Res string :=
  match v with
  | VStr text => Ok (join_strs sep (chars text))
  | VDict d => Ok (join_strs sep (dict_keys d))
  | VList l =>
      match str_items 0 l with
      | Ok xs => Ok (join_strs sep xs)
      | Raise e => Raise e
      end
  | _ => Raise (mkExn "TypeError" "can only join an iterable")
  end.

(** [text * n] and [l * n]: [n] copies, none when [n] is not positive. *)
Fixpoint str_repeat (n : nat) (text : string) : string :=
  match n with
  | O => EmptyString
  | S n' => text +:+ str_repeat n' text
  end.

Fixpoint list_repeat {A : Type} (n : nat) (l : list A) : list A :=
  match n with
  | O => []
  | S n' => l ++ list_repeat n' l
  end.

(** [v * n] for an [int] [n]. A float is multiplied in binary64 by the
    float of [n]; the product is kept as the number it is. [PyVal] has no
    infinite float: where the product overflows, which gives [inf] in Python,
    the value here is 0.0, and the properties leave that case out
    ([float_finite]). *)
Definition py_mul_int (v : PyVal) (n : Z) : Res PyVal :=
  match v with
  | VInt z => Ok (VInt (z * n))
  | VBool b => Ok (VInt ((if b then 1 else 0) * n))
  | VFloat q =>
      match float_of_Q (inject_Z n) with
      | SpecFloat.S754_infinity _ | SpecFloat.S754_nan =>
          Raise (mkExn "OverflowError" "int too large to convert to float")
      | float_n => Ok (VFloat (Q_of_float (float_mul (float_of_Q q) float_n)))
      end
  | VStr text => Ok (VStr (str_repeat (Z.to_nat n) text))
  | VList l => Ok (VList (list_repeat (Z.to_nat n) l))
  | VNone | VDict _ =>
      Raise (mkExn "TypeError"
               ("unsupported operand type(s) for *: '" +:+ type_name v
                +:+ "' and 'int'"))
  end.

(** A prompt: the literal text of the f-string and the values interpolated
    in it. *)
Inductive PromptPart :=
| Lit (text : string)
| Val (v : PyVal).

(** [client.messages.create(model=..., max_tokens=..., messages=[{"role":
    "user", "content": prompt}])] *)
Record ApiRequest := mkApiRequest {
  api_model : string;
  api_max_tokens : Z;
  api_prompt : list PromptPart
}.

(** The records that the tools write to the logger. *)
Inductive ToolLogRecord :=
| Info_ResearchExecuted (niche : PyVal)
| Info_ScriptGenerated (title : PyVal)
| Info_TTSGenerated (estimated_duration : float)
| Info_ThumbnailsGenerated (title : PyVal)
| Info_SEOCompleted (title : PyVal).

Section SourceTools.

Variable RT0 : Runtime.
Variable isoformat : Z -> string.
Variable messages_create : ApiRequest -> @World RT0 -> Res string * @World RT0.

Definition SWorld : Type := (@World RT0 * list ToolLogRecord)%type.

Definition tool_logger (r : ToolLogRecord) (w : SWorld) : SWorld :=
  (w.1, w.2 ++ [r]).

Definition source_uuid4 (w : SWorld) : string * SWorld :=
  let r := @uuid4 RT0 w.1 in (r.1, (r.2, w.2)).

Definition source_datetime_now (w : SWorld) : Z * SWorld :=
  let r := @datetime_now RT0 w.1 in (r.1, (r.2, w.2)).

(** [ResearchTool.execute] *)
Definition ResearchTool_execute (self : Tool) (input_data : Dict) (w : SWorld)
  : Res (Dict * Q) * SWorld :=
  let niche := py_get "niche" VNone input_data in
  let result : Dict :=
    [ ("niche", niche);
      ("trending_keywords",
        VList [ VStr "AI tools 2024"; VStr "machine learning basics";
                VStr "automation with Python" ]);
      ("competition_level", VStr "medium");
      ("monthly_searches", VInt 45000);
      ("top_competitor_avg_views", VInt 125000);
      ("audience_demographics",
        VDict [ ("age_range", VStr "18-45");
                ("location", VStr "India, US, UAE");
                ("interests",
                  VList [VStr "tech"; VStr "education"; VStr "automation"]) ]) ] in
  (Ok (result, Tool.cost_per_call self),
   tool_logger (Info_ResearchExecuted niche) w).

(** [self.provider] of the narration tool as [PlanningEngine] builds it. *)
Definition TTS_provider : string := "google".

(** [TTSGenerationTool.execute]. [script.split()] exists on a [str] only; the
    identifier of the audio is drawn when the result is built, before the
    duration is converted. *)
Definition TTSGenerationTool_execute (self : Tool) (input_data : Dict)
    (w : SWorld) : Res (Dict * Q) * SWorld :=
  let script := py_get "script" VNone input_data in
  let voice := py_get "voice" (VStr "default") input_data in
  match script with
  | VStr text =>
      let word_count := Z.of_nat (length (PyStr.split text)) in
      match int_truediv word_count 150 with
      | Raise e => (Raise e, w)
      | Ok estimated_duration =>
          let u := source_uuid4 w in
          match int_of_float (float_mul estimated_duration (float_of_int 60)) with
          | Raise e => (Raise e, u.2)
          | Ok duration_seconds =>
              let result : Dict :=
                [ ("status", VStr "generated");
                  ("audio_url", VStr ("s3://audio/" +:+ u.1 +:+ ".mp3"));
                  ("duration_seconds", VInt duration_seconds);
                  ("voice", voice);
                  ("word_count", VInt word_count);
                  ("provider", VStr TTS_provider) ] in
              (Ok (result, Tool.cost_per_call self),
               tool_logger (Info_TTSGenerated estimated_duration) u.2)
          end
      end
  | _ =>
      (Raise (mkExn "AttributeError"
                    ("'" +:+ type_name script
                     +:+ "' object has no attribute 'split'")), w)
  end.

(** [ThumbnailGenerationTool.execute]. The cost is the decimal of
    [self.cost_per_call * 3], 0.72 for the price 0.24 of the tool: the float
    product of 0.24 and 3 is the float of 0.72 ([float_price_decimal]). *)
Definition ThumbnailGenerationTool_execute (self : Tool) (input_data : Dict)
    (w : SWorld) : Res (Dict * Q) * SWorld :=
  let title := py_get "title" VNone input_data in
  let niche := py_get "niche" VNone input_data in
  let u1 := source_uuid4 w in
  let u2 := source_uuid4 u1.2 in
  let u3 := source_uuid4 u2.2 in
  let generated_at := source_datetime_now u3.2 in
  let result : Dict :=
    [ ("title", title);
      ("thumbnails_generated", VInt 3);
      ("urls",
        VList [ VStr ("s3://thumbnails/" +:+ u1.1 +:+ "_v1.jpg");
                VStr ("s3://thumbnails/" +:+ u2.1 +:+ "_v2.jpg");
                VStr ("s3://thumbnails/" +:+ u3.1 +:+ "_v3.jpg") ]);
      ("estimated_ctr", VStr "4.8%");
      ("color_scheme", VStr "high-contrast");
      ("generated_at", VStr (isoformat generated_at.1)) ] in
  (Ok (result, (Tool.cost_per_call self * 3)%Q),
   tool_logger (Info_ThumbnailsGenerated title) generated_at.2).

(** [ScriptGenerationTool.execute]: the keywords are joined while the prompt
    is built, before the remote call; the duration is multiplied and the clock
    read while the result is built, after it. *)
Definition script_prompt (title joined tone duration_minutes : PromptPart)
  : list PromptPart :=
  [ Lit "
You are a professional YouTube script writer.

Create a YouTube video script with the following specifications:
- Title: "; title;
    Lit "
- Keywords to include: "; joined;
    Lit "
- Tone: "; tone;
    Lit "
- Target duration: "; duration_minutes;
    Lit " minutes

Structure the script as:
1. Hook (0-15 seconds) - Grab attention immediately
2. Problem Statement (15-45 seconds)
3. Solution/Main Content (remaining time - 80%)
4. Call to Action (last 30 seconds)

Format as JSON with timing markers.
Include [PAUSE] markers for natural speech pacing.
" ].

Definition ScriptGenerationTool_execute (self : Tool) (input_data : Dict)
    (w : SWorld) : Res (Dict * Q) * SWorld :=
  let title := py_get "title" VNone input_data in
  let keywords := py_get "keywords" (VList []) input_data in
  let tone := py_get "tone" (VStr "professional") input_data in
  let duration_minutes := py_get "duration_minutes" (VInt 5) input_data in
  match py_join ", " keywords with
  | Raise e => (Raise e, w)
  | Ok joined =>
      let prompt :=
        script_prompt (Val title) (Lit joined) (Val tone) (Val duration_minutes) in
      let message :=
        messages_create (mkApiRequest "claude-3-5-sonnet-20241022" 2000 prompt)
          w.1 in
      match message.1 with
      | Raise e => (Raise e, (message.2, w.2))
      | Ok script_content =>
          match py_mul_int duration_minutes 60 with
          | Raise e => (Raise e, (message.2, w.2))
          | Ok estimated_duration_seconds =>
              let generated_at := source_datetime_now (message.2, w.2) in
              let result : Dict :=
                [ ("title", title);
                  ("script", VStr script_content);
                  ("estimated_duration_seconds", estimated_duration_seconds);
                  ("word_count",
                    VInt (Z.of_nat (length (PyStr.split script_content))));
                  ("generated_at", VStr (isoformat generated_at.1)) ] in
              (Ok (result, Tool.cost_per_call self),
               tool_logger (Info_ScriptGenerated title) generated_at.2)
          end
      end
  end.

(** [SEOOptimizationTool.execute] *)
Definition seo_prompt (title primary_keyword joined : PromptPart)
  : list PromptPart :=
  [ Lit "
Generate SEO-optimized YouTube metadata:
- Title: "; title;
    Lit "
- Primary Keyword: "; primary_keyword;
    Lit "
- Secondary Keywords: "; joined;
    Lit "

Provide JSON with:
1. optimized_title (60 chars max)
2. description (with keywords naturally)
3. hashtags (5-10)
4. tags (10-15)
" ].

Definition SEOOptimizationTool_execute (self : Tool) (input_data : Dict)
    (w : SWorld) : Res (Dict * Q) * SWorld :=
  let title := py_get "title" VNone input_data in
  let primary_keyword := py_get "primary_keyword" VNone input_data in
  let secondary_keywords := py_get "secondary_keywords" (VList []) input_data in
  match py_join ", " secondary_keywords with
  | Raise e => (Raise e, w)
  | Ok joined =>
      let prompt := seo_prompt (Val title) (Val primary_keyword) (Lit joined) in
      let message :=
        messages_create (mkApiRequest "claude-3-5-sonnet-20241022" 1000 prompt)
          w.1 in
      match message.1 with
      | Raise e => (Raise e, (message.2, w.2))
      | Ok seo_metadata =>
          let generated_at := source_datetime_now (message.2, w.2) in
          let result : Dict :=
            [ ("seo_metadata", VStr seo_metadata);
              ("primary_keyword", primary_keyword);
              ("keyword_density", VStr "optimal");
              ("generated_at", VStr (isoformat generated_at.1)) ] in
          (Ok (result, Tool.cost_per_call self),
           tool_logger (Info_SEOCompleted title) generated_at.2)
      end
  end.

(** [tool.execute(input_data)]: the method of the class of [tool], which its
    constructor names; a tool of another name is left to [RT0]. *)
Definition source_tool_execute (tool : Tool) (input_data : Dict) (w : SWorld)
  : Res (Dict * Q) * SWorld :=
  if String.eqb (Tool.name tool) "research_tool"
  then ResearchTool_execute tool input_data w
  else if String.eqb (Tool.name tool) "script_generation_tool"
  then ScriptGenerationTool_execute tool input_data w
  else if String.eqb (Tool.name tool) "tts_tool"
  then TTSGenerationTool_execute tool input_data w
  else if String.eqb (Tool.name tool) "thumbnail_tool"
  then ThumbnailGenerationTool_execute tool input_data w
  else if String.eqb (Tool.name tool) "seo_tool"
  then SEOOptimizationTool_execute tool input_data w
  else let r := @tool_execute RT0 tool input_data w.1 in (r.1, (r.2, w.2)).

Definition SourceRuntime : Runtime :=
  {| World := SWorld;
     uuid4 := source_uuid4;
     datetime_now := source_datetime_now;
     tool_execute := source_tool_execute |}.

End SourceTools.

(** [int(word_count / 150 * 60)], the [duration_seconds] of a narration. *)
Definition tts_duration_seconds (word_count : Z) : Res Z :=
  match int_truediv word_count 150 with
  | Raise e => Raise e
  | Ok estimated_duration =>
      int_of_float (float_mul estimated_duration (float_of_int 60))
  end.

(** A narration task with a script of [n] words and a thumbnail task, on the
    simulated runtime. *)
Definition sim_narration_task (script : PyVal) : Task :=
  Task.mk "narration" (VStr "p1") TTS_GENERATION PENDING
    [("script", script); ("voice", VStr "natural")]
    None None 0%Q 0%Z None None (Some []) true.

Definition sim_thumbnail_task : Task :=
  Task.mk "thumbnail" (VStr "p1") THUMBNAIL_GENERATION PENDING
    [("title", VStr "Video 1: Grow my tech channel"); ("niche", VStr "tech")]
    None None 0%Q 0%Z None None (Some []) true.

(** A remote model that answers the script tools and is overloaded for the
    others. *)
Definition sim_messages_create (request : ApiRequest) (w : nat)
  : Res string * nat :=
  if (api_max_tokens request =? 2000)%Z
  then (Ok "Hook [PAUSE] problem, solution and a call to action", S w)
  else (Raise (mkExn "APIStatusError" "overloaded"), S w).

Definition sim_script_task : Task :=
  Task.mk "script" (VStr "p1") SCRIPT_GENERATION PENDING
    [ ("title", VStr "Video 1: Grow my tech channel"); ("keywords", VList []);
      ("tone", VStr "professional"); ("duration_minutes", VInt 5) ]
    None None 0%Q 0%Z None None (Some []) true.

(** A script task whose duration is the float 0.12. *)
Definition sim_short_script_task : Task :=
  Task.mk "script" (VStr "p1") SCRIPT_GENERATION PENDING
    [ ("title", VStr "Video 1: Grow my tech channel"); ("keywords", VList []);
      ("tone", VStr "professional"); ("duration_minutes", VFloat 0.12) ]
    None None 0%Q 0%Z None None (Some []) true.

Definition sim_seo_task : Task :=
  Task.mk "metadata" (VStr "p1") SEO_OPTIMIZATION PENDING
    [ ("title", VStr "Video 1: Grow my tech channel");
      ("primary_keyword", VStr "Grow my tech channel");
      ("secondary_keywords", VList []) ]
    None None 0%Q 0%Z None None (Some []) true.

Definition SimSourceRuntime : Runtime :=
  SourceRuntime SimRuntime sim_isoformat sim_messages_create.

Definition sim_source_start : @St SimSourceRuntime :=
  @mkSt SimSourceRuntime (0%nat, []) [].

(** A goal and a context, and the plan that [create_execution_plan] makes of
    them from the start of the simulation. *)
Definition sim_goal : string := "Grow my tech channel".

Definition sim_context : Dict := [("project_id", VStr "p1"); ("niche", VStr "tech")].

Definition sim_created : Res ExecutionPlan * @St SimRuntime :=
  Eval vm_compute in
    create_execution_plan (RT := SimRuntime) sim_goal sim_context sim_start.

Definition sim_created_plan : ExecutionPlan :=
  match sim_created.1 with Ok plan => plan | Raise _ => sim_plan [] end.

Definition sim_source_created : Res ExecutionPlan * @St SimSourceRuntime :=
  create_execution_plan (RT := SimSourceRuntime) sim_goal sim_context
    sim_source_start.

Definition sim_source_created_plan : ExecutionPlan :=
  Eval vm_compute in
    match sim_source_created.1 with Ok plan => plan | Raise _ => sim_plan [] end.

(** * Properties *)

(** ** Strings *)

#[local] Arguments append !_ _ / : simpl nomatch.

Example lower_ex : PyStr.lower "Grow My BRAND!" = "grow my brand!".
Proof. reflexivity. Qed.

Example contains_ex : PyStr.contains "earn" "i learn" = true.
Proof. reflexivity. Qed.

Example split_ex : PyStr.split "  Grow my	tech  channel " = ["Grow"; "my"; "tech"; "channel"].
Proof. reflexivity. Qed.

Example split_blank_ex : PyStr.split "   " = [].
Proof. reflexivity. Qed.



Lemma lower_app (a b : string) :
  PyStr.lower (a +:+ b) = PyStr.lower a +:+ PyStr.lower b.
Proof. induction a as [|x a IH]; simpl; [reflexivity | now rewrite IH]. Qed.

Lemma lower_split (s a b : string) :
  PyStr.lower s = a +:+ b ->
  exists s1 s2, s = s1 +:+ s2 /\ PyStr.lower s1 = a /\ PyStr.lower s2 = b.
Proof.
  revert s. induction a as [|x a IH]; intros s H.
  - exists "", s. simpl in *. auto.
  - destruct s as [|c s]; simpl in H; [discriminate|].
    injection H as Hc Hs. destruct (IH _ Hs) as (s1 & s2 & -> & H1 & H2).
    exists (String c s1), s2. simpl. now rewrite Hc, H1, H2.
Qed.

Lemma startswith_spec (w s : string) :
  PyStr.startswith w s = true <-> exists post, s = w +:+ post.
Proof.
  revert s. induction w as [|a w IH]; intros s; simpl.
  - split; [intros _; now exists s | reflexivity].
  - destruct s as [|b s].
    + split; [discriminate | intros [post H]; discriminate].
    + destruct (Ascii.eqb_spec a b) as [->|Hne].
      * rewrite IH. split; intros [post H]; exists post; simpl in *; congruence.
      * split; [discriminate | intros [post H]; simpl in H; congruence].
Qed.

Lemma contains_spec (w s : string) :
  PyStr.contains w s = true <-> exists pre post, s = pre +:+ w +:+ post.
Proof.
  induction s as [|c s IH]; simpl.
  - rewrite startswith_spec. split.
    + intros [post H]. now exists "", post.
    + intros (pre & post & H). destruct pre; simpl in H; [now exists post|discriminate].
  - rewrite orb_true_iff, IH, startswith_spec. split.
    + intros [[post H]|(pre & post & H)].
      * now exists "", post.
      * exists (String c pre), post. simpl. now rewrite H.
    + intros (pre & post & H). destruct pre as [|x pre]; simpl in H.
      * left. now exists post.
      * right. injection H as _ H. now exists pre, post.
Qed.

(** [word in text.lower()] is the case-insensitive substring match, for a
    word that is already lowercase. *)
Lemma contains_lower_spec (word text : string) :
  PyStr.lower word = word ->
  PyStr.contains word (PyStr.lower text) = true <-> ci_substring word text.
Proof.
  intros Hw. rewrite contains_spec. unfold ci_substring. rewrite Hw. split.
  - intros (a & b & H). apply lower_split in H as (pre & rest & -> & Ha & H).
    apply lower_split in H as (mid & post & -> & Hm & Hb).
    now exists pre, mid, post.
  - intros (pre & mid & post & -> & Hm).
    exists (PyStr.lower pre), (PyStr.lower post).
    now rewrite !lower_app, Hm.
Qed.

Lemma split_from_nil (cur s : string) :
  PyStr.split_from cur s = [] <-> cur = "" /\ PyStr.all_space s = true.
Proof.
  revert cur. induction s as [|c s IH]; intros cur; simpl.
  - destruct cur; split; intros H; try easy.
  - destruct (PyStr.isspace c); simpl.
    + destruct cur.
      * rewrite IH. tauto.
      * split; [discriminate | intros [H _]; discriminate].
    + rewrite IH. split; [|intros [_ H]; discriminate].
      intros [H _]. destruct cur; discriminate.
Qed.

Lemma split_nil (s : string) :
  PyStr.split s = [] <-> PyStr.all_space s = true.
Proof. unfold PyStr.split. rewrite split_from_nil. tauto. Qed.

(** ** Durations in floating point

    [int((completed_at - start_time).total_seconds())] against the whole
    seconds of the difference: [SFdiv] followed through its steps for the
    divisor 10^6. *)

Section FloatDurations.
Local Open Scope Z_scope.

Lemma digits2_pos_size (p : positive) : SpecFloat.digits2_pos p = Pos.size p.
Proof. induction p as [p IH|p IH|]; simpl; now rewrite ?IH. Qed.

Lemma Zdigits2_unique (m d : Z) :
  0 < d -> 2 ^ (d - 1) <= m < 2 ^ d -> SpecFloat.Zdigits2 m = d.
Proof.
  intros Hd Hm.
  assert (Hpos : 0 < m)
    by (assert (0 < 2 ^ (d - 1)) by (apply Z.pow_pos_nonneg; lia); lia).
  assert (Hlog : Z.log2 m = d - 1).
  { apply Z.log2_unique; [lia|]. now replace (Z.succ (d - 1)) with d by lia. }
  destruct m as [|p|p]; try lia. simpl. rewrite digits2_pos_size.
  destruct p as [p|p|]; simpl in Hlog |- *; lia.
Qed.

Lemma round_nearest_even_bounds (m : Z) (l : SpecFloat.location) :
  m <= SpecFloat.round_nearest_even m l <= m + 1.
Proof.
  destruct l as [|[| |]]; simpl; try lia. destruct (Z.even m); lia.
Qed.

Lemma shr_1_m (m : Z) (r s : bool) :
  0 < m ->
  SpecFloat.shr_m (SpecFloat.shr_1 (SpecFloat.Build_shr_record m r s)) = m / 2.
Proof.
  intros Hm. destruct m as [|p|p]; try lia.
  destruct p as [p|p|]; simpl.
  - change (Z.pos p~1) with (2 * Z.pos p + 1). apply Z.div_unique with 1; lia.
  - change (Z.pos p~0) with (2 * Z.pos p). apply Z.div_unique with 0; lia.
  - reflexivity.
Qed.

Lemma shr_record_of_loc_m (m : Z) (l : SpecFloat.location) :
  SpecFloat.shr_m (SpecFloat.shr_record_of_loc m l) = m.
Proof. now destruct l as [|[| |]]. Qed.

Lemma loc_of_shr_record_of_loc (m : Z) (l : SpecFloat.location) :
  SpecFloat.loc_of_shr_record (SpecFloat.shr_record_of_loc m l) = l.
Proof. now destruct l as [|[| |]]. Qed.

(** A mantissa of 53 bits, or 2^53 after a carry, at an exponent in the range
    of the normal numbers: the last step of [binary_round_aux]. *)
Lemma shr_fexp_normal (m e : Z) :
  2 ^ 52 <= m <= 2 ^ 53 -> -1074 <= e ->
  exists p c,
    SpecFloat.shr_fexp 53 1024 m e SpecFloat.loc_Exact
    = (SpecFloat.Build_shr_record (Zpos p) false false, e + c) /\
    0 <= c <= 1 /\ Zpos p * 2 ^ c = m.
Proof.
  intros Hm He. unfold SpecFloat.shr_fexp.
  destruct (Z.eq_dec m (2 ^ 53)) as [->|Hne].
  - change (SpecFloat.Zdigits2 (2 ^ 53)) with 54.
    replace (SpecFloat.fexp 53 1024 (54 + e) - e) with 1
      by (unfold SpecFloat.fexp, SpecFloat.emin; lia).
    exists (2 ^ 52)%positive, 1. split; [reflexivity|]. split; [lia|reflexivity].
  - rewrite (Zdigits2_unique m 53) by lia.
    replace (SpecFloat.fexp 53 1024 (53 + e) - e) with 0
      by (unfold SpecFloat.fexp, SpecFloat.emin; lia).
    destruct m as [|p|p]; try lia.
    exists p, 0. simpl. rewrite Z.add_0_r. split; [reflexivity|]. split; lia.
Qed.

(** [binary_round_aux] on a mantissa of 53 or 54 bits: the result is finite,
    and in units of [2^e] it lies between the mantissa made even and the
    mantissa plus 2. *)
Lemma binary_round_aux_normal (sx : bool) (q e : Z) (l : SpecFloat.location) :
  2 ^ 52 <= q < 2 ^ 54 -> -1074 <= e <= 969 ->
  exists p c,
    SpecFloat.binary_round_aux 53 1024 sx q e l = SpecFloat.S754_finite sx p (e + c) /\
    0 <= c <= 2 /\
    2 * (q / 2) <= Zpos p * 2 ^ c <= q + 2.
Proof.
  intros Hq He. unfold SpecFloat.binary_round_aux.
  destruct (Z_lt_le_dec q (2 ^ 53)) as [Hlt|Hge].
  - unfold SpecFloat.shr_fexp at 1. rewrite (Zdigits2_unique q 53) by lia.
    replace (SpecFloat.fexp 53 1024 (53 + e) - e) with 0
      by (unfold SpecFloat.fexp, SpecFloat.emin; lia).
    cbv [SpecFloat.shr]. rewrite shr_record_of_loc_m, loc_of_shr_record_of_loc.
    pose proof (round_nearest_even_bounds q l) as Hr.
    destruct (shr_fexp_normal (SpecFloat.round_nearest_even q l) e)
      as (p & c & -> & Hc & Hp); [lia|lia|].
    cbv [SpecFloat.shr_m].
    replace (e + c <=? 1024 - 53) with true by (symmetry; apply Z.leb_le; lia).
    exists p, c. split; [reflexivity|]. split; [lia|].
    pose proof (Z.mul_div_le q 2 ltac:(lia)). lia.
  - unfold SpecFloat.shr_fexp at 1. rewrite (Zdigits2_unique q 54) by lia.
    replace (SpecFloat.fexp 53 1024 (54 + e) - e) with 1
      by (unfold SpecFloat.fexp, SpecFloat.emin; lia).
    cbv [SpecFloat.shr SpecFloat.iter_pos].
    assert (Hhalf : 2 ^ 52 <= q / 2 < 2 ^ 53).
    { split; [apply Z.div_le_lower_bound; lia|apply Z.div_lt_upper_bound; lia]. }
    destruct (SpecFloat.shr_record_of_loc q l) as [m0 r0 s0] eqn:Hrec.
    assert (Hm0 : m0 = q) by (rewrite <- (shr_record_of_loc_m q l), Hrec; reflexivity).
    subst m0.
    pose proof (shr_1_m q r0 s0 ltac:(lia)) as Hshr.
    destruct (SpecFloat.shr_1 (SpecFloat.Build_shr_record q r0 s0)) as [m1 r1 s1].
    cbv [SpecFloat.shr_m] in Hshr. subst m1. cbv [SpecFloat.shr_m].
    set (l1 := SpecFloat.loc_of_shr_record _).
    pose proof (round_nearest_even_bounds (q / 2) l1) as Hr.
    destruct (shr_fexp_normal (SpecFloat.round_nearest_even (q / 2) l1) (e + 1))
      as (p & c & -> & Hc & Hp); [lia|lia|].
    replace (e + 1 + c <=? 1024 - 53) with true by (symmetry; apply Z.leb_le; lia).
    exists p, (1 + c). rewrite Z.add_assoc. split; [reflexivity|]. split; [lia|].
    rewrite Z.pow_add_r by lia. change (2 ^ 1) with 2.
    pose proof (Z.mul_div_le q 2 ltac:(lia)).
    pose proof (Z.mod_pos_bound q 2 ltac:(lia)).
    pose proof (Z.div_mod q 2 ltac:(lia)). lia.
Qed.

(** The quotient and the exponent that the division by 10^6 hands to the
    rounding, for a numerator of [d] bits. *)
Lemma SFdiv_core_binary_microseconds (us d : Z) :
  1 <= d <= 72 -> 2 ^ (d - 1) <= us < 2 ^ d ->
  SpecFloat.SFdiv_core_binary 53 1024 us 0 1000000 0
  = (us * 2 ^ (73 - d) / 1000000, d - 73,
     SpecFloat.new_location 1000000 (us * 2 ^ (73 - d) mod 1000000)).
Proof.
  intros Hd Hus. unfold SpecFloat.SFdiv_core_binary.
  rewrite (Zdigits2_unique us d) by lia.
  change (SpecFloat.Zdigits2 1000000) with 20.
  replace (Z.min (SpecFloat.fexp 53 1024 (d + 0 - (20 + 0))) (0 - 0)) with (d - 73)
    by (unfold SpecFloat.fexp, SpecFloat.emin; lia).
  replace (0 - 0 - (d - 73)) with (73 - d) by lia.
  destruct (73 - d) as [|k|k] eqn:Hs; try lia.
  rewrite Z.shiftl_mul_pow2 by lia.
  unfold Z.div, Z.modulo.
  now destruct (Z.div_eucl (us * 2 ^ Z.pos k) 1000000).
Qed.

Lemma quotient_bits (us d : Z) :
  1 <= d <= 72 -> 2 ^ (d - 1) <= us < 2 ^ d ->
  2 ^ 52 <= us * 2 ^ (73 - d) / 1000000 < 2 ^ 54.
Proof.
  intros Hd Hus.
  assert (Hlo : 2 ^ 72 <= us * 2 ^ (73 - d)).
  { replace 72 with (d - 1 + (73 - d)) at 1 by lia. rewrite Z.pow_add_r by lia.
    apply Z.mul_le_mono_nonneg_r; [apply Z.pow_nonneg|]; lia. }
  assert (Hhi : us * 2 ^ (73 - d) < 2 ^ 73).
  { replace 73 with (d + (73 - d)) at 2 by lia. rewrite Z.pow_add_r by lia.
    apply Z.mul_lt_mono_pos_r; [apply Z.pow_pos_nonneg|]; lia. }
  split.
  - apply Z.div_le_lower_bound; lia.
  - apply Z.div_lt_upper_bound; lia.
Qed.

(** The float of [us / 10^6] for [us] of [d] bits: finite, and in units of
    [2^(d-73)] within 2 of the integer quotient. *)
Lemma SFdiv_microseconds (sx : bool) (pu : positive) (d : Z) :
  1 <= d <= 72 -> 2 ^ (d - 1) <= Zpos pu < 2 ^ d ->
  exists p c,
    SpecFloat.SFdiv 53 1024 (SpecFloat.S754_finite sx pu 0) (float_of_int 1000000)
    = SpecFloat.S754_finite sx p (d - 73 + c) /\
    0 <= c <= 2 /\
    2 * (Zpos pu * 2 ^ (73 - d) / 1000000 / 2) <= Zpos p * 2 ^ c
    <= Zpos pu * 2 ^ (73 - d) / 1000000 + 2.
Proof.
  intros Hd Hus.
  change (SpecFloat.SFdiv 53 1024 (SpecFloat.S754_finite sx pu 0)
            (float_of_int 1000000))
    with (let '(mz, ez, lz) :=
            SpecFloat.SFdiv_core_binary 53 1024 (Zpos pu) 0 1000000 0 in
          SpecFloat.binary_round_aux 53 1024 (xorb sx false) mz ez lz).
  rewrite (SFdiv_core_binary_microseconds (Zpos pu) d Hd Hus).
  replace (xorb sx false) with sx by now destruct sx.
  apply binary_round_aux_normal; [now apply quotient_bits|lia].
Qed.

Lemma bits_of (us : Z) (n : Z) :
  0 < us < 2 ^ n -> 0 <= n -> exists d, 1 <= d <= n /\ 2 ^ (d - 1) <= us < 2 ^ d.
Proof.
  intros Hus Hn. exists (Z.log2 us + 1).
  pose proof (Z.log2_spec us ltac:(lia)) as Hspec.
  pose proof (Z.log2_nonneg us).
  replace (Z.log2 us + 1 - 1) with (Z.log2 us) by lia.
  replace (Z.succ (Z.log2 us)) with (Z.log2 us + 1) in Hspec by lia.
  split; [|exact Hspec]. split; [lia|].
  assert (Z.log2 us < n); [|lia].
  apply Z.log2_lt_pow2; lia.
Qed.

(** [int(timedelta.total_seconds())] does not raise when the difference is
    below 2^72 microseconds; the differences of two [datetime] are below
    2^59. *)
Lemma int_total_seconds_returns (us : Z) :
  - 2 ^ 72 < us < 2 ^ 72 -> exists z, int_of_float (total_seconds us) = Ok z.
Proof.
  intros Hus. unfold total_seconds. destruct us as [|pu|pu].
  - now exists 0.
  - destruct (bits_of (Zpos pu) 72) as (d & Hd & Hb); [lia|lia|].
    destruct (SFdiv_microseconds false pu d Hd Hb) as (p & c & Heq & _).
    simpl float_of_int at 1. rewrite Heq. simpl. now eexists.
  - destruct (bits_of (Zpos pu) 72) as (d & Hd & Hb); [lia|lia|].
    destruct (SFdiv_microseconds true pu d Hd Hb) as (p & c & Heq & _).
    simpl float_of_int at 1. rewrite Heq. simpl. now eexists.
Qed.

(** Below 2^52 microseconds, the float of the seconds has the whole seconds
    of the difference as its integer part. *)
Lemma magnitude_seconds (sx : bool) (pu : positive) :
  Zpos pu < 2 ^ 52 ->
  int_of_float
    (SpecFloat.SFdiv 53 1024 (SpecFloat.S754_finite sx pu 0) (float_of_int 1000000))
  = Ok (if sx then - (Zpos pu / 1000000) else Zpos pu / 1000000).
Proof.
  intros Hus.
  destruct (bits_of (Zpos pu) 52) as (d & Hd & Hb); [lia|lia|].
  destruct (SFdiv_microseconds sx pu d ltac:(lia) Hb) as (p & c & -> & Hc & Hlo & Hhi).
  set (s := 73 - d) in *. set (k := Zpos pu / 1000000).
  set (q := Zpos pu * 2 ^ s / 1000000) in *.
  assert (Hs : 21 <= s) by (unfold s; lia).
  assert (Hpow : 2 ^ 21 <= 2 ^ s) by (apply Z.pow_le_mono_r; lia).
  assert (Hk : k * 1000000 <= Zpos pu < (k + 1) * 1000000).
  { unfold k. pose proof (Z.div_mod (Zpos pu) 1000000 ltac:(lia)).
    pose proof (Z.mod_pos_bound (Zpos pu) 1000000 ltac:(lia)). lia. }
  assert (Hq : q * 1000000 <= Zpos pu * 2 ^ s < (q + 1) * 1000000).
  { unfold q. pose proof (Z.div_mod (Zpos pu * 2 ^ s) 1000000 ltac:(lia)).
    pose proof (Z.mod_pos_bound (Zpos pu * 2 ^ s) 1000000 ltac:(lia)). lia. }
  assert (Hqlo : k * 2 ^ s <= q).
  { unfold q. apply Z.div_le_lower_bound; [lia|]. nia. }
  assert (Hqhi : q + 2 < (k + 1) * 2 ^ s) by nia.
  assert (Heven : k * 2 ^ s <= 2 * (q / 2)).
  { replace s with (1 + (s - 1)) in Hqlo |- * by lia.
    rewrite Z.pow_add_r in Hqlo |- * by lia. change (2 ^ 1) with 2 in *.
    assert (k * 2 ^ (s - 1) <= q / 2); [|lia].
    apply Z.div_le_lower_bound; lia. }
  assert (HT : Zpos p * 2 ^ c / 2 ^ s = k).
  { symmetry. apply Z.div_unique with (Zpos p * 2 ^ c - k * 2 ^ s); lia. }
  unfold int_of_float.
  destruct (d - 73 + c) as [|e|e] eqn:He; try lia.
  rewrite Z.shiftr_div_pow2 by lia.
  assert (Hexp : s = Zpos e + c) by (unfold s; lia).
  rewrite Hexp, Z.pow_add_r in HT by lia.
  rewrite Z.div_mul_cancel_r in HT by (try apply Z.pow_nonzero; lia).
  now rewrite HT.
Qed.

Lemma int_total_seconds (us : Z) :
  - 2 ^ 52 < us < 2 ^ 52 ->
  int_of_float (total_seconds us) = Ok (us ÷ 1000000).
Proof.
  intros Hus. unfold total_seconds. destruct us as [|pu|pu].
  - reflexivity.
  - simpl float_of_int at 1. rewrite magnitude_seconds by lia.
    now rewrite Z.quot_div_nonneg by lia.
  - simpl float_of_int at 1. rewrite magnitude_seconds by lia.
    change (Z.neg pu) with (- Zpos pu). rewrite Z.quot_opp_l by lia.
    now rewrite Z.quot_div_nonneg by lia.
Qed.

End FloatDurations.

(** Beyond the bound: a difference of some 600 years and 0.999999 seconds is
    recorded as one second more than its whole seconds, the float of the
    seconds being the next integer. Ordinary differences follow. *)
Example int_total_seconds_rounds_up :
  int_of_float (total_seconds 18934214400999999) = Ok 18934214401%Z /\
  (18934214400999999 ÷ 1000000 = 18934214400)%Z /\
  int_of_float (total_seconds 1400000) = Ok 1%Z /\
  int_of_float (total_seconds (-1400000)) = Ok (-1)%Z /\
  int_of_float (total_seconds 999999) = Ok 0%Z.
Proof. vm_compute. repeat split; reflexivity. Qed.

(** ** Goal analysis *)

Lemma any_word_in_lower_spec (words : list string) (goal : string) :
  Forall (fun word => PyStr.lower word = word) words ->
  any_word_in_lower words goal = true <-> matches_any words goal.
Proof.
  intros Hlow. unfold any_word_in_lower, matches_any.
  rewrite existsb_exists. rewrite Forall_forall in Hlow.
  split; intros (word & Hin & H); exists word.
  - apply list_elem_of_In in Hin. split; [assumption|].
    apply contains_lower_spec; auto.
  - split; [now apply list_elem_of_In|].
    apply contains_lower_spec; auto.
Qed.

Ltac lowercase_words := solve [repeat constructor].

Lemma any_word_in_lower_false (words : list string) (goal : string) :
  Forall (fun word => PyStr.lower word = word) words ->
  any_word_in_lower words goal = false <-> ~ matches_any words goal.
Proof.
  intros Hlow. rewrite <- (any_word_in_lower_spec words goal Hlow).
  destruct (any_word_in_lower words goal); split; congruence.
Qed.

Section Properties.
Context {RT : Runtime}.

(** C8. The objective type that [analyze_goal] reports is the category of the
    first keyword set, in the order monetization, branding, education, of
    which some word occurs in the goal as a substring up to letter case, and
    entertainment when none does. It is a function of the goal text alone:
    the call leaves the world as it was and only adds its own log record. *)
Theorem analyze_goal_classifies_by_first_match
    (goal : string) (project_context : Dict) (s : St) :
  (forall category,
     spec_category goal category <-> category = _classify_objective goal) /\
  exists analysis,
    analyze_goal goal project_context s
      = (Ok analysis, mkSt (world s) (log s ++ [Info_AnalyzingGoal goal])) /\
    dict_get "objective_type" analysis = Some (VStr (_classify_objective goal)).
Proof.
  split.
  - intros category. unfold _classify_objective.
    destruct (any_word_in_lower ["earn"; "money"; "revenue"] goal) eqn:E1;
      [|destruct (any_word_in_lower ["brand"; "growth"] goal) eqn:E2;
        [|destruct (any_word_in_lower ["teach"; "learn"; "education"] goal) eqn:E3]].
    all: repeat match goal with
         | H : any_word_in_lower _ _ = true |- _ =>
             apply any_word_in_lower_spec in H; [|lowercase_words]
         | H : any_word_in_lower _ _ = false |- _ =>
             apply any_word_in_lower_false in H; [|lowercase_words]
         end.
    all: split;
      [ inversion 1; subst; solve [reflexivity | contradiction]
      | intros ->; solve [ now apply cat_monetization
                         | now apply cat_branding
                         | now apply cat_education
                         | now apply cat_entertainment ] ].
  - eexists. split; [reflexivity | cbn; reflexivity].
Qed.

(** ** Task decomposition *)

(** With a first word to take, [decompose_tasks] returns the canonical
    decomposition for four deliverables, whatever the analysis says. *)
Lemma decompose_tasks_eq (goal : string) (analysis : Dict) (s : St)
    (keyword : string) (rest : list string) :
  PyStr.split goal = keyword :: rest ->
  decompose_tasks goal analysis s
  = (Ok (canonical_decomposition 4 (uuid_at (world s))
           (py_get "project_id" VNone analysis) (py_get "niche" VNone analysis)
           goal keyword),
     mkSt (world_after_uuids 17 (world s)) (log s ++ [Info_Decomposing])).
Proof.
  intros Hsplit. unfold decompose_tasks. rewrite Hsplit. reflexivity.
Qed.

Lemma decompose_tasks_blank (goal : string) (analysis : Dict) (s : St) :
  PyStr.split goal = [] ->
  decompose_tasks goal analysis s
  = (Raise (mkExn "IndexError" "list index out of range"),
     mkSt (world_after_uuids 1 (world s)) (log s ++ [Info_Decomposing])).
Proof.
  intros Hsplit. unfold decompose_tasks. rewrite Hsplit. reflexivity.
Qed.

Lemma decompose_tasks_inv (goal : string) (analysis : Dict) (s s' : St)
    (tasks : list Task) :
  decompose_tasks goal analysis s = (Ok tasks, s') ->
  exists keyword rest,
    PyStr.split goal = keyword :: rest /\
    tasks = canonical_decomposition 4 (uuid_at (world s))
              (py_get "project_id" VNone analysis)
              (py_get "niche" VNone analysis) goal keyword.
Proof.
  intros Hrun. destruct (PyStr.split goal) as [|keyword rest] eqn:Hsplit.
  - rewrite (decompose_tasks_blank _ _ _ Hsplit) in Hrun. discriminate.
  - rewrite (decompose_tasks_eq _ _ _ _ _ Hsplit) in Hrun.
    injection Hrun as <- _. now exists keyword, rest.
Qed.

(** In the canonical decomposition for four deliverables, a dependency of the
    task at position [i] is the identifier of a task at an earlier position. *)
Lemma canonical_dependency_earlier (uid : nat -> string) (pid niche : PyVal)
    (goal keyword : string) (i : nat) (task : Task) (dep_id : string) :
  canonical_decomposition 4 uid pid niche goal keyword !! i = Some task ->
  dep_id ∈ Task.deps task ->
  exists j dep,
    (j < i)%nat /\
    canonical_decomposition 4 uid pid niche goal keyword !! j = Some dep /\
    Task.id dep = dep_id.
Proof.
  intros Hi Hdep.
  do 17 (try destruct i as [|i]).
  all: try discriminate Hi.
  all: injection Hi as <-; simpl in Hdep.
  all: first [ now apply elem_of_nil in Hdep
             | apply list_elem_of_singleton in Hdep; subst dep_id ].
  all: first [ solve [eexists 0%nat, _; split; [lia | split; reflexivity]]
             | solve [eexists 1%nat, _; split; [lia | split; reflexivity]]
             | solve [eexists 2%nat, _; split; [lia | split; reflexivity]]
             | solve [eexists 3%nat, _; split; [lia | split; reflexivity]]
             | solve [eexists 4%nat, _; split; [lia | split; reflexivity]] ].
Qed.

(** C9. Dependency closure of a sequence returned by [decompose_tasks]: every
    dependency identifier of a task is the identifier of a task of the same
    sequence, one at an earlier position; and when the identifiers drawn for
    the sequence are pairwise distinct, as fresh identifiers are, it is never
    the task's own identifier. *)
Theorem decompose_tasks_dependency_closure
    (goal : string) (analysis : Dict) (s s' : St) (tasks : list Task)
    (i : nat) (task : Task) (dep_id : string) :
  decompose_tasks goal analysis s = (Ok tasks, s') ->
  tasks !! i = Some task ->
  dep_id ∈ Task.deps task ->
  (exists j dep, (j < i)%nat /\ tasks !! j = Some dep /\ Task.id dep = dep_id)
  /\ (NoDup (map Task.id tasks) -> dep_id <> Task.id task).
Proof.
  intros Hrun Hi Hdep.
  destruct (decompose_tasks_inv _ _ _ _ _ Hrun) as (keyword & rest & _ & ->).
  destruct (canonical_dependency_earlier _ _ _ _ _ _ _ _ Hi Hdep)
    as (j & dep & Hlt & Hj & Hid).
  split; [now exists j, dep|].
  intros Hnodup Heq.
  assert (j = i); [|lia].
  eapply NoDup_lookup; [exact Hnodup | |].
  - rewrite list_lookup_fmap, Hj. simpl. now rewrite Hid.
  - rewrite list_lookup_fmap, Hi. simpl. now rewrite Heq.
Qed.

(** ** Running the monad *)

Lemma bind_run {A B : Type} (m : M A) (f : A -> M B) (s s' : St) (a : A) :
  m s = (Ok a, s') -> (m ≫= f) s = f a s'.
Proof. intros H. unfold mbind, M_bind, bind. now rewrite H. Qed.

Lemma bind_raise {A B : Type} (m : M A) (f : A -> M B) (s s' : St) (e : Exn) :
  m s = (Raise e, s') -> (m ≫= f) s = (Raise e, s').
Proof. intros H. unfold mbind, M_bind, bind. now rewrite H. Qed.

Lemma logger_run (r : LogRecord) (s : St) :
  logger r s = (Ok tt, mkSt (world s) (log s ++ [r])).
Proof. reflexivity. Qed.

Lemma now_run (s : St) :
  now s = (Ok (datetime_now (world s)).1, mkSt (datetime_now (world s)).2 (log s)).
Proof. reflexivity. Qed.

(** ** Plan assembly *)

Lemma tools_getitem_run (task_type : TaskType) (tool : Tool) (s : St) :
  tools task_type = Some tool -> tools_getitem task_type s = (Ok tool, s).
Proof. intros H. unfold tools_getitem. now rewrite H. Qed.


Lemma modeled_cost_run (task : Task) (s : St) :
  has_tool task = true -> modeled_cost task s = (Ok (float_price task), s).
Proof.
  unfold has_tool, modeled_cost, float_price, tools_getitem.
  destruct (Task.task_type task); intros H;
    solve [reflexivity | discriminate H].
Qed.

Lemma list_comp_modeled_cost (tasks : list Task) (s : St) :
  forallb has_tool tasks = true ->
  list_comp modeled_cost tasks s = (Ok (map float_price tasks), s).
Proof.
  induction tasks as [|task tasks IH]; simpl; intros H; [reflexivity|].
  apply andb_true_iff in H as [Ht Hts].
  rewrite (bind_run _ _ _ _ _ (modeled_cost_run task s Ht)).
  rewrite (bind_run _ _ _ _ _ (IH Hts)). reflexivity.
Qed.

Lemma route_tools_run (tasks : list Task) (s : St) :
  forallb has_tool tasks = true ->
  exists tool_mapping,
    route_tools tasks s
    = (Ok tool_mapping,
       mkSt (world s) (log s ++ [Info_ToolRoutingCompleted (length tasks)])).
Proof.
  intros H. unfold route_tools.
  assert (Hloop : forall acc, exists tool_mapping,
    for_each tasks acc (fun task tool_mapping =>
      tool ← tools_getitem (Task.task_type task);
      ret (dict_set (Task.id task) (Tool.name tool) tool_mapping)) s
    = (Ok tool_mapping, s)).
  { induction tasks as [|task tasks IH]; simpl; intros acc; [now exists acc|].
    simpl in H. apply andb_true_iff in H as [Ht Hts].
    unfold has_tool in Ht.
    destruct (tools (Task.task_type task)) as [tool|] eqn:Htool; [|discriminate].
    destruct (IH Hts (dict_set (Task.id task) (Tool.name tool) acc)) as [m Hm].
    exists m.
    rewrite (bind_run _ _ _ s _
               (bind_run _ _ _ s _ (tools_getitem_run _ _ s Htool))).
    exact Hm. }
  destruct (Hloop []) as [m Hm]. exists m.
  rewrite (bind_run _ _ _ _ _ Hm). reflexivity.
Qed.

Lemma canonical_has_tools (uid : nat -> string) (pid niche : PyVal)
    (goal keyword : string) :
  forallb has_tool (canonical_decomposition 4 uid pid niche goal keyword) = true.
Proof. reflexivity. Qed.

Lemma canonical_cost (uid : nat -> string) (pid niche : PyVal)
    (goal keyword : string) :
  (py_sum (map estimated_price
     (canonical_decomposition 4 uid pid niche goal keyword))
   == 0 + 4 * 0.50 + 4 * 0.10 + 4 * (0.24 * 3) + 4 * 0.10)%Q.
Proof. reflexivity. Qed.

(** A term of the estimate is the float of the decimal price. *)
Lemma float_price_decimal (task : Task) :
  float_price task = float_of_Q (estimated_price task).
Proof.
  unfold float_price, estimated_price.
  destruct (Task.task_type task); vm_compute; reflexivity.
Qed.

(** The 17 terms added in binary64, against their exact sum. *)
Lemma canonical_float_cost (uid : nat -> string) (pid niche : PyVal)
    (goal keyword : string) :
  Q_of_float (float_sum (map float_price
     (canonical_decomposition 4 uid pid niche goal keyword)))
  = (6395111470866102 # 1125899906842624)%Q.
Proof. vm_compute. reflexivity. Qed.

(** The same 17 terms under the compensated summation of the later
    interpreters: the float of 5.68. *)
Lemma canonical_compensated_cost (uid : nat -> string) (pid niche : PyVal)
    (goal keyword : string) :
  float_sum_compensated (map float_price
     (canonical_decomposition 4 uid pid niche goal keyword))
  = float_of_Q 5.68.
Proof. vm_compute. reflexivity. Qed.

Ltac run_bind tac := erewrite bind_run by tac; cbv beta.

(** Seventeen tasks at 5 minutes, divided by 3: the float 28.333333333333332,
    28 minutes. *)
Lemma estimated_duration_run (tasks : list Task) (s : St) :
  length tasks = 17%nat ->
  of_res (match int_truediv (Z.of_nat (length tasks) * 5) 3 with
          | Ok quotient => int_of_float quotient
          | Raise e => Raise e
          end) s = (Ok 28%Z, s).
Proof. intros ->. reflexivity. Qed.

Lemma create_execution_plan_eq (goal : string) (project_context : Dict)
    (s : St) (keyword : string) (rest : list string) :
  PyStr.split goal = keyword :: rest ->
  exists plan s',
    create_execution_plan goal project_context s = (Ok plan, s') /\
    ExecutionPlan.tasks plan
      = canonical_decomposition 4 (uuid_at (world s))
          (py_get "project_id" VNone project_context)
          (py_get "niche" VNone project_context) goal keyword /\
    ExecutionPlan.estimated_cost plan
      = Q_of_float (float_sum (map float_price (ExecutionPlan.tasks plan))) /\
    ExecutionPlan.estimated_duration_minutes plan = 28%Z /\
    ExecutionPlan.goal plan = goal.
Proof.
  intros Hsplit.
  set (tasks := canonical_decomposition 4 (uuid_at (world s))
                  (py_get "project_id" VNone project_context)
                  (py_get "niche" VNone project_context) goal keyword).
  assert (Htools : forallb has_tool tasks = true) by apply canonical_has_tools.
  unfold create_execution_plan.
  run_bind ltac:(apply logger_run).
  run_bind ltac:(reflexivity).
  run_bind ltac:(apply (decompose_tasks_eq _ _ _ _ _ Hsplit)).
  change (canonical_decomposition 4 _ _ _ goal keyword) with tasks.
  match goal with
  | |- context [(route_tools tasks ≫= _) ?s1] =>
      destruct (route_tools_run tasks s1 Htools) as [tool_mapping Hroute]
  end.
  run_bind ltac:(exact Hroute).
  run_bind ltac:(apply (list_comp_modeled_cost _ _ Htools)).
  run_bind ltac:(apply estimated_duration_run; reflexivity).
  run_bind ltac:(apply now_run).
  run_bind ltac:(apply logger_run).
  run_bind ltac:(apply logger_run).
  eexists _, _. split; [reflexivity|]. repeat split; reflexivity.
Qed.

Lemma create_execution_plan_blank (goal : string) (project_context : Dict)
    (s : St) :
  PyStr.split goal = [] ->
  exists s',
    create_execution_plan goal project_context s
    = (Raise (mkExn "IndexError" "list index out of range"), s').
Proof.
  intros Hsplit. eexists. unfold create_execution_plan.
  run_bind ltac:(apply logger_run).
  run_bind ltac:(reflexivity).
  erewrite bind_raise by (apply (decompose_tasks_blank _ _ _ Hsplit)).
  reflexivity.
Qed.

Lemma all_space_false_split (goal : string) :
  PyStr.all_space goal = false ->
  exists keyword rest, PyStr.split goal = keyword :: rest.
Proof.
  intros H. destruct (PyStr.split goal) as [|keyword rest] eqn:Hsplit.
  - apply split_nil in Hsplit. congruence.
  - now exists keyword, rest.
Qed.

(** C7. For a goal with at least one word, [create_execution_plan] produces a
    plan of 17 tasks whose estimated cost is the sum over the tasks, from 0
    and in order, of the price per call of the task's tool, times 3 for a
    thumbnail task, each term and each addition in binary64. In exact
    arithmetic the prices add up to
    0 + 4*0.50 + 4*0.10 + 4*(0.24*3) + 4*0.10 = 5.68; the estimate is the float
    5.679999999999998, which is 29/14073748835532800 below 5.68 and is not
    the float of 5.68. (The compensated summation of the interpreters from
    3.12 on gives the float of 5.68 for the same terms.) This holds whatever
    scope the analysis reports, so in particular for the goals of default
    scope. *)
Theorem create_execution_plan_estimated_cost
    (goal : string) (project_context : Dict) (s : St) :
  PyStr.all_space goal = false ->
  exists plan s',
    create_execution_plan goal project_context s = (Ok plan, s') /\
    length (ExecutionPlan.tasks plan) = 17%nat /\
    ExecutionPlan.estimated_cost plan
      = Q_of_float (float_sum (map float_price (ExecutionPlan.tasks plan))) /\
    Forall (fun task => float_price task = float_of_Q (estimated_price task))
           (ExecutionPlan.tasks plan) /\
    (py_sum (map estimated_price (ExecutionPlan.tasks plan))
       == 0 + 4 * 0.50 + 4 * 0.10 + 4 * (0.24 * 3) + 4 * 0.10)%Q /\
    (py_sum (map estimated_price (ExecutionPlan.tasks plan)) == 5.68)%Q /\
    (ExecutionPlan.estimated_cost plan == 5.68 - (29 # 14073748835532800))%Q /\
    ExecutionPlan.estimated_cost plan <> Q_of_float (float_of_Q 5.68) /\
    float_sum_compensated (map float_price (ExecutionPlan.tasks plan))
    = float_of_Q 5.68.
Proof.
  intros Hword.
  destruct (all_space_false_split goal Hword) as (keyword & rest & Hsplit).
  destruct (create_execution_plan_eq goal project_context s _ _ Hsplit)
    as (plan & s' & Hrun & Htasks & Hcost & _ & _).
  exists plan, s'. split; [exact Hrun|].
  split; [now rewrite Htasks|]. split; [exact Hcost|].
  split; [apply Forall_forall; intros task _; apply float_price_decimal|].
  rewrite Hcost, Htasks. split; [apply canonical_cost|].
  split; [rewrite canonical_cost; reflexivity|].
  rewrite canonical_float_cost. split; [reflexivity|].
  split; [vm_compute; discriminate|apply canonical_compensated_cost].
Qed.

(** C10. [decompose_tasks] returns a task sequence exactly for the goals that
    have a word. For an empty or whitespace-only goal, [goal.split()] is
    empty, taking its first element raises [IndexError], and so do
    [decompose_tasks] and [create_execution_plan]. For any other goal both
    succeed, and the keyword of the research task is the first word. *)
Theorem decompose_tasks_total_iff_word
    (goal : string) (analysis project_context : Dict) (s : St) :
  if PyStr.all_space goal
  then
    PyStr.split goal = [] /\
    (exists s', decompose_tasks goal analysis s
                = (Raise (mkExn "IndexError" "list index out of range"), s')) /\
    (exists s', create_execution_plan goal project_context s
                = (Raise (mkExn "IndexError" "list index out of range"), s'))
  else
    exists keyword rest,
      PyStr.split goal = keyword :: rest /\
      (exists tasks s' task_1,
         decompose_tasks goal analysis s = (Ok tasks, s') /\
         tasks !! 0%nat = Some task_1 /\
         dict_get "keyword" (Task.input_data task_1) = Some (VStr keyword)) /\
      (exists plan s',
         create_execution_plan goal project_context s = (Ok plan, s')).
Proof.
  destruct (PyStr.all_space goal) eqn:Hspace.
  - apply split_nil in Hspace. split; [exact Hspace|]. split.
    + eexists. apply (decompose_tasks_blank _ _ _ Hspace).
    + apply (create_execution_plan_blank _ _ _ Hspace).
  - destruct (all_space_false_split goal Hspace) as (keyword & rest & Hsplit).
    exists keyword, rest. split; [exact Hsplit|]. split.
    + eexists _, _, _. split; [apply (decompose_tasks_eq _ _ _ _ _ Hsplit)|].
      split; reflexivity.
    + destruct (create_execution_plan_eq goal project_context s _ _ Hsplit)
        as (plan & s' & Hrun & _).
      now exists plan, s'.
Qed.

(** C1. The analysis of the goal "Launch a video series" reports a scope of 10
    deliverables, and [decompose_tasks] returns for it the canonical
    decomposition for 4: 17 tasks, where a scope of 10 asks for 41. *)
Theorem decompose_tasks_ignores_scope (project_context : Dict) (s : St) :
  let goal := "Launch a video series" in
  exists analysis s1 tasks s2,
    analyze_goal goal project_context s = (Ok analysis, s1) /\
    dict_get "scope" analysis = Some (VInt 10) /\
    decompose_tasks goal analysis s1 = (Ok tasks, s2) /\
    tasks = canonical_decomposition 4 (uuid_at (world s1))
              (py_get "project_id" VNone analysis)
              (py_get "niche" VNone analysis) goal "Launch" /\
    length tasks = 17%nat /\
    length (canonical_decomposition 10 (uuid_at (world s1))
              (py_get "project_id" VNone analysis)
              (py_get "niche" VNone analysis) goal "Launch")
    = (1 + 4 * 10)%nat /\
    length tasks <> (1 + 4 * 10)%nat.
Proof.
  intros goal. eexists _, _, _, _.
  split; [reflexivity|]. split; [reflexivity|].
  split; [apply (decompose_tasks_eq goal _ _ "Launch" ["a"; "video"; "series"]);
          reflexivity|].
  split; [reflexivity|]. split; [reflexivity|]. split; [reflexivity|].
  simpl. lia.
Qed.

(** ** Task execution *)

Lemma execute_task_spec (task : Task) (s : St) :
  let start := datetime_now (world s) in
  let outcome := tool_outcome task start.2 in
  let finish := datetime_now outcome.2 in
  exists task' s',
    execute_task task s = (Ok task', s') /\
    world s' = finish.2 /\
    Task.completed_at task' = Some finish.1 /\
    Task.execution_time_seconds task' = ((finish.1 - start.1) ÷ 1000000)%Z /\
    same_identity task task' /\
    match outcome.1 with
    | Ok (tool, output_data, cost) =>
        Task.status task' = COMPLETED /\
        Task.output_data task' = Some output_data /\
        Task.tool_used task' = Some (Tool.name tool) /\
        Task.cost_usd task' = cost /\
        log s' = log s ++ [ Info_ExecutingTask (Task.id task)
                              (TaskType_value (Task.task_type task));
                            Info_SavingTask (Task.id task) ]
    | Raise e =>
        Task.status task' = FAILED /\
        Task.output_data task' = Some [("error", VStr (exn_str e))] /\
        Task.tool_used task' = Task.tool_used task /\
        Task.cost_usd task' = Task.cost_usd task /\
        log s' = log s ++ [ Info_ExecutingTask (Task.id task)
                              (TaskType_value (Task.task_type task));
                            Error_TaskFailed (Task.id task) (exn_str e);
                            Info_SavingTask (Task.id task) ]
    end.
Proof.
  intros start outcome finish. subst start outcome finish.
  unfold tool_outcome, execute_task, same_identity.
  unfold mbind, M_bind, bind, try_except, logger, now, execute, tools_getitem,
    _save_task, ret, raise.
  cbn.
  destruct (tools (Task.task_type task)) as [tool|]; cbn.
  - destruct (tool_execute tool (Task.input_data task)
                (datetime_now (world s)).2) as [[[output_data cost]|e] w2]; cbn.
    + eexists _, _. rewrite <- !app_assoc. repeat split; reflexivity.
    + eexists _, _. rewrite <- !app_assoc. repeat split; reflexivity.
  - eexists _, _. rewrite <- !app_assoc. repeat split; reflexivity.
Qed.

(** [execute_task_full], path by path. [seconds] is what [int] makes of the
    float of the elapsed seconds. *)
Lemma execute_task_full_spec
    (invoke : Tool -> Dict -> World -> Invocation * World) (task : Task) (s : St)
    (seconds : Z) :
  let start := datetime_now (world s) in
  let outcome := invocation invoke task start.2 in
  let finish := datetime_now outcome.2 in
  int_of_float (total_seconds (finish.1 - start.1)) = Ok seconds ->
  exists r s',
    execute_task_full invoke task s = (Ok r, s') /\
    world s' = finish.2 /\
    Task.completed_at (outcome_task r) = Some finish.1 /\
    Task.execution_time_seconds (outcome_task r) = seconds /\
    same_identity task (outcome_task r) /\
    match outcome.1 with
    | Returns output_data cost =>
        r = Returned (outcome_task r) /\
        Task.status (outcome_task r) = COMPLETED /\
        Task.output_data (outcome_task r) = Some output_data /\
        Task.tool_used (outcome_task r)
        = Tool.name <$> tools (Task.task_type task) /\
        Task.cost_usd (outcome_task r) = cost /\
        log s' = log s ++ [ Info_ExecutingTask (Task.id task)
                              (TaskType_value (Task.task_type task));
                            Info_SavingTask (Task.id task) ]
    | RaisesException e =>
        r = Returned (outcome_task r) /\
        Task.status (outcome_task r) = FAILED /\
        Task.output_data (outcome_task r) = Some [("error", VStr (exn_str e))] /\
        Task.tool_used (outcome_task r) = Task.tool_used task /\
        Task.cost_usd (outcome_task r) = Task.cost_usd task /\
        log s' = log s ++ [ Info_ExecutingTask (Task.id task)
                              (TaskType_value (Task.task_type task));
                            Error_TaskFailed (Task.id task) (exn_str e);
                            Info_SavingTask (Task.id task) ]
    | RaisesBaseException e =>
        r = Propagated e (outcome_task r) /\
        Task.status (outcome_task r) = IN_PROGRESS /\
        Task.output_data (outcome_task r) = Task.output_data task /\
        Task.tool_used (outcome_task r) = Task.tool_used task /\
        Task.cost_usd (outcome_task r) = Task.cost_usd task /\
        log s' = log s ++ [ Info_ExecutingTask (Task.id task)
                              (TaskType_value (Task.task_type task)) ]
    end.
Proof.
  intros start outcome finish. subst start outcome finish.
  unfold invocation, execute_task_full, same_identity.
  unfold mbind, M_bind, bind, try_except, logger, now, execute_full,
    tools_getitem, _save_task, ret, raise.
  cbn -[int_of_float total_seconds].
  destruct (tools (Task.task_type task)) as [tool|];
    cbn -[int_of_float total_seconds].
  - destruct (invoke tool (Task.input_data task) (datetime_now (world s)).2)
      as [[output_data cost|e|e] w2]; cbn -[int_of_float total_seconds];
      intros ->; cbn; eexists _, _; rewrite <- ?app_assoc;
      repeat split; reflexivity.
  - intros ->. cbn. eexists _, _. rewrite <- ?app_assoc.
    repeat split; reflexivity.
Qed.

(** On a tool that returns or raises below [Exception], and between two
    readings of the clock less than 2^52 microseconds apart,
    [execute_task_full] returns what [execute_task] returns. *)
Lemma execute_task_full_refines (task : Task) (s : St) :
  let start := datetime_now (world s) in
  let outcome := tool_outcome task start.2 in
  let finish := datetime_now outcome.2 in
  (- 2 ^ 52 < finish.1 - start.1 < 2 ^ 52)%Z ->
  exists task' s',
    execute_task task s = (Ok task', s') /\
    execute_task_full invoke_of_runtime task s = (Ok (Returned task'), s').
Proof.
  intros start outcome finish. subst start outcome finish.
  unfold tool_outcome, execute_task, execute_task_full, invoke_of_runtime.
  unfold mbind, M_bind, bind, try_except, logger, now, execute, execute_full,
    tools_getitem, _save_task, ret, raise.
  cbn -[int_of_float total_seconds].
  destruct (tools (Task.task_type task)) as [tool|];
    cbn -[int_of_float total_seconds].
  - destruct (tool_execute tool (Task.input_data task)
                (datetime_now (world s)).2) as [[[output_data cost]|e] w2];
      cbn -[int_of_float total_seconds]; intros Hgap;
      rewrite (int_total_seconds _ Hgap); cbn; now eexists _, _.
  - intros Hgap. rewrite (int_total_seconds _ Hgap). cbn. now eexists _, _.
Qed.

Lemma same_identity_refl (task : Task) : same_identity task task.
Proof. unfold same_identity. tauto. Qed.

Lemma same_identity_trans (t1 t2 t3 : Task) :
  same_identity t1 t2 -> same_identity t2 t3 -> same_identity t1 t3.
Proof. unfold same_identity. intuition congruence. Qed.


(** [execute_task] always returns, and returns the task in a terminal
    status. *)
Lemma execute_task_terminal (task : Task) (s : St) :
  exists task' s',
    execute_task task s = (Ok task', s') /\
    same_identity task task' /\
    is_terminal (Task.status task') = true.
Proof.
  destruct (execute_task_spec task s)
    as (task' & s' & Hrun & _ & _ & _ & Hid & Hout).
  exists task', s'. split; [exact Hrun|]. split; [exact Hid|].
  destruct (tool_outcome task (datetime_now (world s)).2).1 as [[[? ?] ?]|?];
    destruct Hout as [-> _]; reflexivity.
Qed.

(** ** Dictionaries *)

Section DictLemmas.
Context {V : Type}.
Implicit Types (d : list (string * V)) (k : string) (v : V).

Lemma dict_get_set_eq k v d : dict_get k (dict_set k v d) = Some v.
Proof.
  induction d as [|[k' v'] d IH]; simpl.
  - now rewrite String.eqb_refl.
  - destruct (String.eqb_spec k' k) as [->|Hne]; simpl.
    + now rewrite String.eqb_refl.
    + apply String.eqb_neq in Hne. now rewrite Hne.
Qed.

Lemma dict_get_set_ne k k' v d :
  k <> k' -> dict_get k' (dict_set k v d) = dict_get k' d.
Proof.
  intros Hne. induction d as [|[k0 v0] d IH]; simpl.
  - apply String.eqb_neq in Hne. now rewrite Hne.
  - destruct (String.eqb_spec k0 k) as [->|Hne0]; simpl.
    + apply String.eqb_neq in Hne. now rewrite Hne.
    + now rewrite IH.
Qed.

Lemma dict_mem_get k d : dict_mem k d = true <-> exists v, dict_get k d = Some v.
Proof.
  unfold dict_mem. destruct (dict_get k d) as [v|]; split; try easy.
  - intros _. now exists v.
  - now intros [v H].
Qed.

Lemma dict_keys_set k v d k' :
  k' ∈ dict_keys (dict_set k v d) <-> k' = k \/ k' ∈ dict_keys d.
Proof.
  unfold dict_keys. induction d as [|[k0 v0] d IH]; simpl.
  - rewrite list_elem_of_singleton, elem_of_nil. tauto.
  - destruct (String.eqb_spec k0 k) as [->|Hne]; simpl.
    + rewrite !elem_of_cons. tauto.
    + rewrite !elem_of_cons, IH. tauto.
Qed.

Lemma dict_set_NoDup k v d :
  NoDup (dict_keys d) -> NoDup (dict_keys (dict_set k v d)).
Proof.
  unfold dict_keys. induction d as [|[k0 v0] d IH]; simpl; intros Hnd.
  - apply NoDup_singleton.
  - apply NoDup_cons in Hnd as [Hnotin Hnd].
    destruct (String.eqb_spec k0 k) as [->|Hne]; simpl.
    + now apply NoDup_cons.
    + apply NoDup_cons. split; [|now apply IH].
      intros Hin. apply (dict_keys_set k v d k0) in Hin as [Heq|Hin]; auto.
Qed.

Lemma dict_get_elem_of k v d : dict_get k d = Some v -> (k, v) ∈ d.
Proof.
  induction d as [|[k0 v0] d IH]; simpl; [discriminate|].
  destruct (String.eqb_spec k0 k) as [->|Hne].
  - intros [= ->]. apply elem_of_cons. now left.
  - intros H. apply elem_of_cons. right. now apply IH.
Qed.

Lemma dict_elem_of_get k v d :
  NoDup (dict_keys d) -> (k, v) ∈ d -> dict_get k d = Some v.
Proof.
  unfold dict_keys. induction d as [|[k0 v0] d IH]; simpl; intros Hnd Hin.
  - now apply elem_of_nil in Hin.
  - apply NoDup_cons in Hnd as [Hnotin Hnd].
    apply elem_of_cons in Hin as [[= <- <-]|Hin].
    + now rewrite String.eqb_refl.
    + destruct (String.eqb_spec k0 k) as [->|Hne]; [|now apply IH].
      exfalso. apply Hnotin. apply list_elem_of_fmap. now exists (k, v).
Qed.

End DictLemmas.

(** ** The ready set *)

Lemma TaskStatus_eqb_eq (a b : TaskStatus) : TaskStatus_eqb a b = true <-> a = b.
Proof. destruct a, b; simpl; split; congruence. Qed.

Lemma is_ready_spec (completed_tasks : list (string * nat)) (task : Task) :
  is_ready completed_tasks task = true <->
  Task.status task = PENDING /\
  forall dep_id, dep_id ∈ Task.deps task -> dict_mem dep_id completed_tasks = true.
Proof.
  unfold is_ready. rewrite andb_true_iff, TaskStatus_eqb_eq, forallb_forall.
  split; intros [Hs Hd]; (split; [exact Hs|]); intros d Hin; apply Hd.
  - now apply list_elem_of_In.
  - now apply list_elem_of_In.
Qed.

Lemma ready_from_spec (k : nat) (tasks : list Task)
    (completed_tasks : list (string * nat)) (i : nat) :
  i ∈ ready_from k tasks completed_tasks <->
  (k <= i)%nat /\
  exists task, tasks !! (i - k)%nat = Some task /\
               is_ready completed_tasks task = true.
Proof.
  revert k. induction tasks as [|task tasks IH]; intros k; simpl.
  - rewrite elem_of_nil. split; [easy|]. intros (_ & t & H & _). discriminate.
  - assert (Htail : i ∈ ready_from (S k) tasks completed_tasks <->
      (k < i)%nat /\ exists t, (task :: tasks) !! (i - k)%nat = Some t /\
                               is_ready completed_tasks t = true).
    { rewrite IH. split.
      - intros (Hle & t & Ht & Hr). split; [lia|]. exists t. split; [|exact Hr].
        replace (i - k)%nat with (S (i - S k)) by lia. exact Ht.
      - intros (Hlt & t & Ht & Hr). split; [lia|]. exists t. split; [|exact Hr].
        replace (i - k)%nat with (S (i - S k)) in Ht by lia. exact Ht. }
    destruct (is_ready completed_tasks task) eqn:Hready.
    + rewrite elem_of_cons, Htail. split.
      * intros [->|(Hlt & H)]; [|split; [lia|exact H]].
        split; [lia|]. exists task. rewrite Nat.sub_diag. now split.
      * intros (Hle & t & Ht & Hr).
        destruct (decide (i = k)) as [->|Hne]; [now left|right].
        split; [lia|]. now exists t.
    + rewrite Htail. split.
      * intros (Hlt & H). split; [lia|exact H].
      * intros (Hle & t & Ht & Hr).
        destruct (decide (i = k)) as [->|Hne]; [|split; [lia|now exists t]].
        rewrite Nat.sub_diag in Ht. injection Ht as <-. congruence.
Qed.

Lemma ready_tasks_spec (tasks : list Task)
    (completed_tasks : list (string * nat)) (i : nat) :
  i ∈ ready_tasks tasks completed_tasks <->
  exists task, tasks !! i = Some task /\ is_ready completed_tasks task = true.
Proof.
  unfold ready_tasks. rewrite ready_from_spec, Nat.sub_0_r.
  split; [now intros [_ H] | intros H; split; [lia|exact H]].
Qed.

Lemma ready_from_NoDup (k : nat) (tasks : list Task)
    (completed_tasks : list (string * nat)) :
  NoDup (ready_from k tasks completed_tasks).
Proof.
  revert k. induction tasks as [|task tasks IH]; intros k; simpl.
  - apply NoDup_nil_2.
  - destruct (is_ready completed_tasks task); [|apply IH].
    apply NoDup_cons. split; [|apply IH].
    rewrite ready_from_spec. intros [Hle _]. lia.
Qed.

Lemma ready_tasks_NoDup (tasks : list Task)
    (completed_tasks : list (string * nat)) :
  NoDup (ready_tasks tasks completed_tasks).
Proof. apply ready_from_NoDup. Qed.

Lemma ready_tasks_pending (tasks : list Task)
    (completed_tasks : list (string * nat)) (i : nat) :
  i ∈ ready_tasks tasks completed_tasks ->
  exists task, tasks !! i = Some task /\ Task.status task = PENDING.
Proof.
  rewrite ready_tasks_spec. intros (task & Hi & Hr).
  apply is_ready_spec in Hr as [Hs _]. now exists task.
Qed.

(** ** Dispatching a batch *)

Lemma execute_task_ref_run (i : nat) (tasks : list Task) (s : St) :
  exists tasks' s',
    execute_task_ref i tasks s = (Ok tasks', s') /\
    dispatched_heap [i] tasks tasks'.
Proof.
  unfold execute_task_ref. destruct (tasks !! i) as [task|] eqn:Hi.
  - destruct (execute_task_terminal task s) as (task' & s' & Hrun & Hid & Hterm).
    exists (<[i := task']> tasks), s'. split.
    + now rewrite (bind_run _ _ _ _ _ Hrun).
    + split; [apply length_insert|]. intros j t Hj.
      destruct (decide (j = i)) as [->|Hne].
      * exists task'. rewrite list_lookup_insert_eq by (now apply lookup_lt_Some in Hi).
        split; [reflexivity|]. replace t with task by congruence.
        split; [exact Hid|]. split; [now intros _|].
        intros Hnot. exfalso. apply Hnot. now apply list_elem_of_singleton.
      * exists t. rewrite list_lookup_insert_ne by congruence.
        split; [exact Hj|]. split; [apply same_identity_refl|].
        split; [|reflexivity]. intros Hin. now apply list_elem_of_singleton in Hin.
  - exists tasks, s. split; [reflexivity|]. split; [reflexivity|].
    intros j t Hj. exists t. split; [exact Hj|].
    split; [apply same_identity_refl|]. split; [|reflexivity].
    intros Hin. apply list_elem_of_singleton in Hin. congruence.
Qed.

Lemma dispatched_heap_cons (i : nat) (l : list nat) (tasks tasks1 tasks2 : list Task) :
  dispatched_heap [i] tasks tasks1 ->
  dispatched_heap l tasks1 tasks2 ->
  dispatched_heap (i :: l) tasks tasks2.
Proof.
  intros [Hlen1 H1] [Hlen2 H2]. split; [congruence|].
  intros j t Hj.
  destruct (H1 j t Hj) as (t1 & Hj1 & Hid1 & Hterm1 & Hsame1).
  destruct (H2 j t1 Hj1) as (t2 & Hj2 & Hid2 & Hterm2 & Hsame2).
  exists t2. split; [exact Hj2|].
  split; [now apply (same_identity_trans t t1 t2)|]. split.
  - intros Hin. destruct (decide (j ∈ l)) as [Hl|Hl]; [now apply Hterm2|].
    rewrite (Hsame2 Hl). apply Hterm1. apply elem_of_cons in Hin as [->|Hin].
    + now apply list_elem_of_singleton.
    + contradiction.
  - intros Hnot. rewrite Hsame2, Hsame1; [reflexivity| |].
    + intros Hin. apply Hnot. apply list_elem_of_singleton in Hin as ->.
      apply elem_of_cons. now left.
    + intros Hin. apply Hnot. apply elem_of_cons. now right.
Qed.

(** Running a batch never raises. *)
Lemma for_each_execute (l : list nat) (tasks : list Task) (s : St) :
  exists tasks' s',
    for_each l tasks execute_task_ref s = (Ok tasks', s') /\
    dispatched_heap l tasks tasks'.
Proof.
  revert tasks s. induction l as [|i l IH]; intros tasks s; simpl.
  - exists tasks, s. split; [reflexivity|]. split; [reflexivity|].
    intros j t Hj. exists t. split; [exact Hj|].
    split; [apply same_identity_refl|]. split; [|reflexivity].
    intros Hin. now apply elem_of_nil in Hin.
  - destruct (execute_task_ref_run i tasks s) as (tasks1 & s1 & Hrun1 & Hd1).
    destruct (IH tasks1 s1) as (tasks2 & s2 & Hrun2 & Hd2).
    exists tasks2, s2. split.
    + now rewrite (bind_run _ _ _ _ _ Hrun1).
    + now apply (dispatched_heap_cons i l tasks tasks1 tasks2).
Qed.

Lemma for_each_app {A S : Type} (l1 l2 : list A) (acc : S)
    (body : A -> S -> M S) (s : St) :
  for_each (l1 ++ l2) acc body s
  = (acc' ← for_each l1 acc body; for_each l2 acc' body) s.
Proof.
  revert acc s. induction l1 as [|x l1 IH]; intros acc s; simpl.
  - reflexivity.
  - unfold mbind, M_bind, bind in *.
    destruct (body x acc s) as [[acc1|e] s1]; [apply IH|reflexivity].
Qed.

(** [dispatched_in] marks a call: the batch of the iteration runs the ready
    tasks before [i], then [execute_task] on the task at [i] of [heap], then
    the rest. *)
Lemma dispatched_in_call (s : St) (tasks heap : list Task)
    (completed : list (string * nat)) (i : nat) :
  dispatched_in (s, tasks, completed) i heap ->
  exists after s_mid,
    for_each (ready_tasks tasks completed) tasks execute_task_ref s
    = (heap' ← execute_task_ref i heap; for_each after heap' execute_task_ref)
        s_mid.
Proof.
  intros (_ & before & after & s_mid & Hready & Hrun).
  exists after, s_mid. rewrite Hready, for_each_app.
  now rewrite (bind_run _ _ _ _ _ Hrun).
Qed.

(** ** Recording the results *)

Lemma dict_mem_set (k k' : string) (i : nat) (d : list (string * nat)) :
  dict_mem k' d = true -> dict_mem k' (dict_set k i d) = true.
Proof.
  rewrite !dict_mem_get. intros [v Hv].
  destruct (decide (k = k')) as [->|Hne].
  - exists i. apply dict_get_set_eq.
  - exists v. now rewrite dict_get_set_ne.
Qed.

Lemma record_results_get (l : list nat) (tasks : list Task)
    (completed : list (string * nat)) (k : string) (j : nat) :
  dict_get k (record_results l tasks completed) = Some j ->
  dict_get k completed = Some j \/
  (j ∈ l /\ exists task, tasks !! j = Some task /\ Task.id task = k).
Proof.
  revert completed. induction l as [|i l IH]; intros completed; simpl.
  - now left.
  - intros H. apply IH in H as [H|(Hin & H)].
    + destruct (tasks !! i) as [task|] eqn:Hi; [|now left].
      destruct (decide (Task.id task = k)) as [<-|Hne].
      * rewrite dict_get_set_eq in H. injection H as <-.
        right. split; [apply elem_of_cons; now left|]. now exists task.
      * rewrite dict_get_set_ne in H by exact Hne. now left.
    + right. split; [apply elem_of_cons; now right|exact H].
Qed.

Lemma record_results_mem_old (l : list nat) (tasks : list Task)
    (completed : list (string * nat)) (k : string) :
  dict_mem k completed = true ->
  dict_mem k (record_results l tasks completed) = true.
Proof.
  revert completed. induction l as [|i l IH]; intros completed H; simpl.
  - exact H.
  - apply IH. destruct (tasks !! i); [now apply dict_mem_set|exact H].
Qed.

Lemma record_results_mem_new (l : list nat) (tasks : list Task)
    (completed : list (string * nat)) (j : nat) (task : Task) :
  j ∈ l -> tasks !! j = Some task ->
  dict_mem (Task.id task) (record_results l tasks completed) = true.
Proof.
  revert completed. induction l as [|i l IH]; intros completed Hin Hj; simpl.
  - now apply elem_of_nil in Hin.
  - apply elem_of_cons in Hin as [->|Hin]; [|now apply IH].
    rewrite Hj. apply record_results_mem_old.
    apply dict_mem_get. exists i. apply dict_get_set_eq.
Qed.

Lemma record_results_NoDup (l : list nat) (tasks : list Task)
    (completed : list (string * nat)) :
  NoDup (dict_keys completed) ->
  NoDup (dict_keys (record_results l tasks completed)).
Proof.
  revert completed. induction l as [|i l IH]; intros completed H; simpl.
  - exact H.
  - apply IH. destruct (tasks !! i); [now apply dict_set_NoDup|exact H].
Qed.

(** ** The loop invariant *)

Lemma is_terminal_not_pending (task : Task) :
  is_terminal (Task.status task) = true -> Task.status task <> PENDING.
Proof. destruct (Task.status task); simpl; congruence. Qed.

Lemma loop_invariant_init (tasks0 : list Task) : loop_invariant tasks0 tasks0 [].
Proof.
  split; [reflexivity|]. split; [|split; [|split]].
  - intros j t Hj. exists t. split; [exact Hj|].
    split; [apply same_identity_refl|now left].
  - intros k j H. discriminate H.
  - intros j t0 t H0 H Hp Hterm. exfalso.
    apply is_terminal_not_pending in Hterm. congruence.
  - apply NoDup_nil_2.
Qed.

Lemma loop_invariant_step (tasks0 tasks tasks' : list Task)
    (completed : list (string * nat)) :
  loop_invariant tasks0 tasks completed ->
  dispatched_heap (ready_tasks tasks completed) tasks tasks' ->
  loop_invariant tasks0 tasks'
    (record_results (ready_tasks tasks completed) tasks' completed).
Proof.
  intros (Hlen & HT & HC & HK & HN) [Hlen' Hd].
  assert (Hready : forall j t0 t, tasks0 !! j = Some t0 -> tasks !! j = Some t ->
            j ∈ ready_tasks tasks completed -> t = t0 /\ Task.status t0 = PENDING).
  { intros j t0 t H0 Hj Hin.
    apply ready_tasks_pending in Hin as (t1 & Hj1 & Hp).
    replace t1 with t in Hp by congruence.
    destruct (HT j t0 H0) as (t2 & Hj2 & _ & Hcase).
    assert (t2 = t) as -> by congruence.
    destruct Hcase as [->|[_ Hterm]]; [now split|].
    apply is_terminal_not_pending in Hterm. contradiction. }
  split; [congruence|]. split; [|split; [|split]].
  - intros j t0 H0. destruct (HT j t0 H0) as (t & Hj & Hid & Hcase).
    destruct (Hd j t Hj) as (t' & Hj' & Hid' & Hterm & Hsame).
    exists t'. split; [exact Hj'|].
    split; [now apply (same_identity_trans t0 t t')|].
    destruct (decide (j ∈ ready_tasks tasks completed)) as [Hin|Hnot].
    + right. split; [now apply (Hready j t0 t)|now apply Hterm].
    + rewrite (Hsame Hnot). exact Hcase.
  - intros k j Hget. apply record_results_get in Hget as [Hold|(Hin & t' & Hj' & Hk)].
    + destruct (HC k j Hold) as (t0 & t & H0 & Hj & Hid & Hp & Hterm).
      exists t0, t. split; [exact H0|]. split; [|now repeat split].
      destruct (Hd j t Hj) as (t' & Hj' & _ & _ & Hsame).
      rewrite Hj'. f_equal. apply Hsame. intros Hin.
      apply ready_tasks_pending in Hin as (t1 & Hj1 & Hp1).
      replace t1 with t in Hp1 by congruence.
      apply is_terminal_not_pending in Hterm. contradiction.
    + pose proof Hin as Hin2.
      apply ready_tasks_pending in Hin2 as (t & Hj & _).
      assert (is_Some (tasks0 !! j)) as [t0 H0].
      { apply lookup_lt_is_Some. rewrite <- Hlen. now apply lookup_lt_Some in Hj. }
      destruct (Hready j t0 t H0 Hj Hin) as [-> Hp].
      destruct (Hd j t0 Hj) as (t2 & Hj2 & _ & Hterm & _).
      replace t2 with t' in * by congruence.
      exists t0, t'. repeat split; auto.
  - intros j t0 t' H0 Hj' Hp Hterm.
    destruct (decide (j ∈ ready_tasks tasks completed)) as [Hin|Hnot].
    + now apply (record_results_mem_new _ _ _ j).
    + apply record_results_mem_old.
      destruct (HT j t0 H0) as (t & Hj & _).
      destruct (Hd j t Hj) as (t2 & Hj2 & _ & _ & Hsame).
      replace t2 with t' in * by congruence. rewrite (Hsame Hnot) in *.
      now apply (HK j t0 t).
  - now apply record_results_NoDup.
Qed.

(** ** Termination of the loop *)

Lemma count_pending_cons (task : Task) (tasks : list Task) :
  count_pending (task :: tasks)
  = ((if TaskStatus_eqb (Task.status task) PENDING then 1 else 0)
     + count_pending tasks)%nat.
Proof.
  unfold count_pending. simpl.
  now destruct (TaskStatus_eqb (Task.status task) PENDING).
Qed.

Lemma count_pending_le (tasks tasks' : list Task) :
  length tasks' = length tasks ->
  (forall j t t', tasks !! j = Some t -> tasks' !! j = Some t' ->
     Task.status t' = PENDING -> Task.status t = PENDING) ->
  (count_pending tasks' <= count_pending tasks)%nat.
Proof.
  revert tasks'. induction tasks as [|t tasks IH]; intros [|t' tasks'] Hlen Hmono;
    try discriminate Hlen; [reflexivity|].
  rewrite !count_pending_cons.
  assert (count_pending tasks' <= count_pending tasks)%nat.
  { apply IH; [now injection Hlen|]. intros j. apply (Hmono (S j)). }
  pose proof (Hmono 0%nat t t' eq_refl eq_refl) as H0.
  destruct (TaskStatus_eqb (Task.status t') PENDING) eqn:E'; [|lia].
  apply TaskStatus_eqb_eq in E'. rewrite (H0 E'). simpl. lia.
Qed.

Lemma count_pending_lt (tasks tasks' : list Task) (j : nat) (t t' : Task) :
  length tasks' = length tasks ->
  (forall j t t', tasks !! j = Some t -> tasks' !! j = Some t' ->
     Task.status t' = PENDING -> Task.status t = PENDING) ->
  tasks !! j = Some t -> tasks' !! j = Some t' ->
  Task.status t = PENDING -> Task.status t' <> PENDING ->
  (count_pending tasks' < count_pending tasks)%nat.
Proof.
  revert tasks' j.
  induction tasks as [|t1 tasks IH]; intros [|t1' tasks'] j Hlen Hmono Hj Hj' Hp Hnp;
    try discriminate.
  rewrite !count_pending_cons. destruct j as [|j]; simpl in Hj, Hj'.
  - injection Hj as ->. injection Hj' as ->.
    assert (count_pending tasks' <= count_pending tasks)%nat.
    { apply count_pending_le; [now injection Hlen|].
      intros j. apply (Hmono (S j)). }
    rewrite Hp. simpl.
    destruct (TaskStatus_eqb (Task.status t') PENDING) eqn:E'; [|lia].
    apply TaskStatus_eqb_eq in E'. contradiction.
  - assert (count_pending tasks' < count_pending tasks)%nat.
    { apply (IH tasks' j); auto. intros j0. apply (Hmono (S j0)). }
    pose proof (Hmono 0%nat t1 t1' eq_refl eq_refl) as H0.
    destruct (TaskStatus_eqb (Task.status t1') PENDING) eqn:E'; [|lia].
    apply TaskStatus_eqb_eq in E'. rewrite (H0 E'). simpl. lia.
Qed.

Lemma dispatch_decreases (tasks tasks' : list Task)
    (completed : list (string * nat)) :
  ready_tasks tasks completed <> [] ->
  dispatched_heap (ready_tasks tasks completed) tasks tasks' ->
  (count_pending tasks' < count_pending tasks)%nat.
Proof.
  intros Hne [Hlen Hd].
  destruct (ready_tasks tasks completed) as [|i l] eqn:Hready; [contradiction|].
  assert (Hin : i ∈ ready_tasks tasks completed).
  { rewrite Hready. apply elem_of_cons. now left. }
  pose proof Hin as Hin2.
  apply ready_tasks_pending in Hin2 as (t & Hi & Hp).
  destruct (Hd i t Hi) as (t' & Hi' & _ & Hterm & _).
  apply (count_pending_lt tasks tasks' i t t'); auto.
  - intros j t1 t1' Hj Hj' Hp'.
    destruct (Hd j t1 Hj) as (t2 & Hj2 & _ & Hterm2 & Hsame2).
    replace t2 with t1' in * by congruence.
    destruct (decide (j ∈ i :: l)) as [Hjin|Hjnot].
    + apply Hterm2 in Hjin. apply is_terminal_not_pending in Hjin. contradiction.
    + now rewrite <- (Hsame2 Hjnot).
  - apply is_terminal_not_pending. apply Hterm. rewrite <- Hready. exact Hin.
Qed.

Lemma batch_eq (ready : list nat) (tasks : list Task) :
  (if any_parallel ready tasks
   then gather_execute ready tasks
   else sequential_execute ready tasks)
  = for_each ready tasks execute_task_ref.
Proof. now destruct (any_parallel ready tasks). Qed.

(** With more fuel than pending tasks, the loop ends: it goes through loop
    states by [loop_step] and leaves from the last one. *)
Lemma execute_plan_loop_run (fuel : nat) (tasks : list Task)
    (completed : list (string * nat)) (s : St) :
  (count_pending tasks < fuel)%nat ->
  exists s1 tasks' completed' s',
    execute_plan_loop fuel tasks completed s = (Ok (Some (tasks', completed')), s') /\
    rtc loop_step (s, tasks, completed) (s1, tasks', completed') /\
    loop_exit (s1, tasks', completed') s'.
Proof.
  revert tasks completed s.
  induction fuel as [|fuel IH]; intros tasks completed s Hfuel; [lia|].
  simpl. destruct (length completed <? length tasks)%nat eqn:Htest.
  - apply Nat.ltb_lt in Htest.
    destruct (ready_tasks tasks completed) as [|i l] eqn:Hready.
    + exists s, tasks, completed, (mkSt (world s) (log s ++ [Warning_NoReadyTasks])).
      split; [reflexivity|]. split; [apply rtc_refl|].
      right. now rewrite Hready.
    + rewrite <- Hready. rewrite batch_eq.
      destruct (for_each_execute (ready_tasks tasks completed) tasks s)
        as (tasks1 & s1 & Hrun & Hd).
      rewrite (bind_run _ _ _ _ _ Hrun).
      assert (Hne : ready_tasks tasks completed <> []) by (rewrite Hready; discriminate).
      pose proof (dispatch_decreases _ _ _ Hne Hd) as Hdec.
      destruct (IH tasks1 (record_results (ready_tasks tasks completed) tasks1 completed) s1)
        as (s2 & tasks2 & completed2 & s' & Hloop & Hrtc & Hexit); [lia|].
      exists s2, tasks2, completed2, s'. split; [exact Hloop|]. split; [|exact Hexit].
      eapply rtc_l; [|exact Hrtc].
      apply loop_iteration; auto. now rewrite batch_eq.
  - apply Nat.ltb_ge in Htest.
    exists s, tasks, completed, s. split; [reflexivity|]. split; [apply rtc_refl|].
    now left.
Qed.

Lemma count_pending_le_length (tasks : list Task) :
  (count_pending tasks <= length tasks)%nat.
Proof.
  induction tasks as [|t tasks IH]; [reflexivity|].
  rewrite count_pending_cons. simpl.
  destruct (TaskStatus_eqb (Task.status t) PENDING); lia.
Qed.

(** ** Reachable loop states *)

Lemma loop_step_inv (s s' : St) (tasks tasks' : list Task)
    (completed completed' : list (string * nat)) :
  loop_step (s, tasks, completed) (s', tasks', completed') ->
  (length completed < length tasks)%nat /\
  for_each (ready_tasks tasks completed) tasks execute_task_ref s = (Ok tasks', s') /\
  dispatched_heap (ready_tasks tasks completed) tasks tasks' /\
  completed' = record_results (ready_tasks tasks completed) tasks' completed.
Proof.
  inversion 1 as [? ? ? ? ? Hlt Hne Hrun]; subst.
  rewrite batch_eq in Hrun. split; [exact Hlt|]. split; [exact Hrun|].
  split; [|reflexivity].
  destruct (for_each_execute (ready_tasks tasks completed) tasks s)
    as (tasks1 & s1 & Hrun1 & Hd).
  rewrite Hrun in Hrun1. injection Hrun1 as <- <-. exact Hd.
Qed.

Lemma loop_steps_invariant (tasks0 : list Task) (st st' : loop_state) :
  rtc loop_step st st' ->
  loop_invariant tasks0 st.1.2 st.2 ->
  loop_invariant tasks0 st'.1.2 st'.2.
Proof.
  induction 1 as [|[[s tasks] c] [[s1 tasks1] c1] st' Hstep _ IH]; [auto|].
  intros Hinv. apply IH. simpl in *.
  apply loop_step_inv in Hstep as (_ & _ & Hd & ->).
  now apply loop_invariant_step.
Qed.

Lemma loop_reachable_invariant (s0 s : St) (tasks0 tasks : list Task)
    (completed : list (string * nat)) :
  loop_reachable s0 tasks0 (s, tasks, completed) ->
  loop_invariant tasks0 tasks completed.
Proof.
  intros Hreach.
  apply (loop_steps_invariant tasks0 _ _ Hreach). apply loop_invariant_init.
Qed.

(** A position that no entry of [completed_tasks] holds keeps the map smaller
    than the plan. *)
Lemma completed_lt_tasks (tasks0 tasks : list Task)
    (completed : list (string * nat)) (i : nat) :
  loop_invariant tasks0 tasks completed ->
  (i < length tasks)%nat ->
  (forall k, dict_get k completed <> Some i) ->
  (length completed < length tasks)%nat.
Proof.
  intros (_ & _ & HC & _ & HN) Hi Hfree.
  assert (Hget : forall k j, (k, j) ∈ completed -> dict_get k completed = Some j).
  { intros k j. now apply dict_elem_of_get. }
  assert (Hnd : NoDup (i :: (snd <$> completed))).
  { apply NoDup_cons. split.
    - intros Hin. apply list_elem_of_fmap in Hin as ([k j] & -> & Hin).
      apply (Hfree k). now apply Hget.
    - apply NoDup_fmap_2_strong; [|exact (NoDup_fmap_1 fst _ HN)].
      intros [k1 j1] [k2 j2] H1 H2 Heq. simpl in Heq. subst j2.
      destruct (HC k1 j1 (Hget _ _ H1)) as (_ & t1 & _ & Ht1 & Hid1 & _).
      destruct (HC k2 j1 (Hget _ _ H2)) as (_ & t2 & _ & Ht2 & Hid2 & _).
      f_equal. congruence. }
  assert (Hsub : forall x, x ∈ i :: (snd <$> completed) -> x ∈ seq 0 (length tasks)).
  { intros x Hx. apply elem_of_seq. split; [lia|]. simpl.
    apply elem_of_cons in Hx as [->|Hx]; [exact Hi|].
    apply list_elem_of_fmap in Hx as ([k j] & -> & Hin).
    destruct (HC k j (Hget _ _ Hin)) as (_ & t & _ & Ht & _).
    now apply lookup_lt_Some in Ht. }
  pose proof (submseteq_length _ _ (NoDup_submseteq _ _ Hnd Hsub)) as Hlen.
  simpl in Hlen. rewrite length_fmap, length_seq in Hlen. lia.
Qed.

Lemma completed_le_tasks (tasks0 tasks : list Task)
    (completed : list (string * nat)) :
  loop_invariant tasks0 tasks completed ->
  (length completed <= length tasks)%nat.
Proof.
  intros (_ & _ & HC & _ & HN).
  assert (Hget : forall k j, (k, j) ∈ completed -> dict_get k completed = Some j).
  { intros k j. now apply dict_elem_of_get. }
  assert (Hnd : NoDup (snd <$> completed)).
  { apply NoDup_fmap_2_strong; [|exact (NoDup_fmap_1 fst _ HN)].
    intros [k1 j1] [k2 j2] H1 H2 Heq. simpl in Heq. subst j2.
    destruct (HC k1 j1 (Hget _ _ H1)) as (_ & t1 & _ & Ht1 & Hid1 & _).
    destruct (HC k2 j1 (Hget _ _ H2)) as (_ & t2 & _ & Ht2 & Hid2 & _).
    f_equal. congruence. }
  assert (Hsub : forall x, x ∈ snd <$> completed -> x ∈ seq 0 (length tasks)).
  { intros x Hx. apply elem_of_seq. split; [lia|]. simpl.
    apply list_elem_of_fmap in Hx as ([k j] & -> & Hin).
    destruct (HC k j (Hget _ _ Hin)) as (_ & t & _ & Ht & _).
    now apply lookup_lt_Some in Ht. }
  pose proof (submseteq_length _ _ (NoDup_submseteq _ _ Hnd Hsub)) as Hlen.
  rewrite length_fmap, length_seq in Hlen. exact Hlen.
Qed.

(** ** The returned list *)

Lemma completed_values_elem_of (tasks0 tasks : list Task)
    (completed : list (string * nat)) (r : Task) :
  loop_invariant tasks0 tasks completed ->
  r ∈ completed_values tasks completed <->
  exists j, dict_get (Task.id r) completed = Some j /\ tasks !! j = Some r.
Proof.
  intros (_ & _ & HC & _ & HN). unfold completed_values, dict_values.
  rewrite list_elem_of_omap. split.
  - intros (j & Hin & Hj). apply list_elem_of_In, in_map_iff in Hin as ([k j'] & Heq & Hin).
    simpl in Heq. subst j'. apply list_elem_of_In in Hin.
    apply (dict_elem_of_get _ _ _ HN) in Hin.
    destruct (HC k j Hin) as (_ & t & _ & Ht & Hid & _).
    exists j. split; [|exact Hj]. replace r with t by congruence. now rewrite Hid.
  - intros (j & Hget & Hj). exists j. split; [|exact Hj].
    apply dict_get_elem_of in Hget. apply list_elem_of_In, in_map_iff.
    exists (Task.id r, j). split; [reflexivity|]. now apply list_elem_of_In.
Qed.

Lemma completed_values_length (tasks0 tasks : list Task)
    (completed : list (string * nat)) :
  loop_invariant tasks0 tasks completed ->
  length (completed_values tasks completed) = length completed.
Proof.
  intros (_ & _ & HC & _ & HN). unfold completed_values, dict_values.
  assert (Hall : forall k j, (k, j) ∈ completed -> is_Some (tasks !! j)).
  { intros k j Hin. apply (dict_elem_of_get _ _ _ HN) in Hin.
    destruct (HC k j Hin) as (_ & t & _ & Ht & _). now exists t. }
  clear HC HN. induction completed as [|[k j] completed IH]; [reflexivity|].
  simpl. destruct (Hall k j) as [t Ht]; [apply elem_of_cons; now left|].
  rewrite Ht. simpl. f_equal. apply IH.
  intros k' j' Hin. apply (Hall k' j'). apply elem_of_cons. now right.
Qed.

(** ** Running a plan *)

Lemma execute_plan_run (fuel : nat) (plan : ExecutionPlan) (s : St) :
  (length (ExecutionPlan.tasks plan) < fuel)%nat ->
  exists s1 tasks' completed s2,
    execute_plan fuel plan s
    = (Ok (Some (ExecutionPlan.with_tasks tasks' plan,
                 completed_values tasks' completed)),
       mkSt (world s2)
            (log s2 ++ [Info_PlanExecutionCompleted (length completed)])) /\
    loop_reachable
      (mkSt (world s)
            (log s ++ [Info_StartingExecution (ExecutionPlan.project_id plan)]))
      (ExecutionPlan.tasks plan) (s1, tasks', completed) /\
    loop_exit (s1, tasks', completed) s2.
Proof.
  intros Hfuel. unfold execute_plan.
  rewrite (bind_run _ _ _ _ _ (logger_run _ s)).
  destruct (execute_plan_loop_run fuel (ExecutionPlan.tasks plan) []
              (mkSt (world s)
                 (log s ++ [Info_StartingExecution (ExecutionPlan.project_id plan)])))
    as (s1 & tasks' & completed & s2 & Hloop & Hrtc & Hexit).
  { pose proof (count_pending_le_length (ExecutionPlan.tasks plan)). lia. }
  rewrite (bind_run _ _ _ _ _ Hloop).
  exists s1, tasks', completed, s2. split; [reflexivity|]. split; assumption.
Qed.

(** Whatever the fuel, the loop and [execute_plan] return: no exception
    leaves them. *)
Lemma execute_plan_loop_no_raise (fuel : nat) (tasks : list Task)
    (completed : list (string * nat)) (s : St) :
  exists r s', execute_plan_loop fuel tasks completed s = (Ok r, s').
Proof.
  revert tasks completed s.
  induction fuel as [|fuel IH]; intros tasks completed s; simpl.
  - now eexists _, _.
  - destruct (length completed <? length tasks)%nat; [|now eexists _, _].
    destruct (ready_tasks tasks completed) as [|i l] eqn:Hready; [now eexists _, _|].
    rewrite <- Hready, batch_eq.
    destruct (for_each_execute (ready_tasks tasks completed) tasks s)
      as (tasks1 & s1 & Hrun & _).
    rewrite (bind_run _ _ _ _ _ Hrun). apply IH.
Qed.

Lemma execute_plan_no_raise (fuel : nat) (plan : ExecutionPlan) (s : St) :
  exists r s', execute_plan fuel plan s = (Ok r, s').
Proof.
  unfold execute_plan. rewrite (bind_run _ _ _ _ _ (logger_run _ s)).
  destruct (execute_plan_loop_no_raise fuel (ExecutionPlan.tasks plan) []
              (mkSt (world s)
                 (log s ++ [Info_StartingExecution (ExecutionPlan.project_id plan)])))
    as ([[tasks' completed]|] & s' & Hloop);
    rewrite (bind_run _ _ _ _ _ Hloop); now eexists _, _.
Qed.

(** A result does not depend on the fuel that was enough to reach it. *)
Lemma execute_plan_loop_fuel_mono (fuel fuel' : nat) (tasks : list Task)
    (completed : list (string * nat)) (s s' : St)
    (r : list Task * list (string * nat)) :
  (fuel <= fuel')%nat ->
  execute_plan_loop fuel tasks completed s = (Ok (Some r), s') ->
  execute_plan_loop fuel' tasks completed s = (Ok (Some r), s').
Proof.
  revert fuel' tasks completed s.
  induction fuel as [|fuel IH]; intros fuel' tasks completed s Hle; simpl.
  - discriminate.
  - destruct fuel' as [|fuel']; [lia|]. simpl.
    destruct (length completed <? length tasks)%nat; [|auto].
    destruct (ready_tasks tasks completed) as [|i l] eqn:Hready; [auto|].
    rewrite <- Hready, batch_eq.
    destruct (for_each_execute (ready_tasks tasks completed) tasks s)
      as (tasks1 & s1 & Hrun & _).
    rewrite !(bind_run _ _ _ _ _ Hrun). apply IH. lia.
Qed.

Lemma execute_plan_fuel_mono (fuel fuel' : nat) (plan : ExecutionPlan)
    (s s' : St) (r : ExecutionPlan * list Task) :
  (fuel <= fuel')%nat ->
  execute_plan fuel plan s = (Ok (Some r), s') ->
  execute_plan fuel' plan s = (Ok (Some r), s').
Proof.
  intros Hle. unfold execute_plan.
  rewrite !(bind_run _ _ _ _ _ (logger_run _ s)).
  destruct (execute_plan_loop_no_raise fuel (ExecutionPlan.tasks plan) []
              (mkSt (world s)
                 (log s ++ [Info_StartingExecution (ExecutionPlan.project_id plan)])))
    as ([[tasks' completed]|] & s1 & Hloop);
    rewrite (bind_run _ _ _ _ _ Hloop); [|discriminate].
  now rewrite (bind_run _ _ _ _ _
                 (execute_plan_loop_fuel_mono _ _ _ _ _ _ _ Hle Hloop)).
Qed.

(** The relation [loop_step] is the loop of [execute_plan_loop]: a step is one
    unfolding of the function. *)
Lemma loop_step_unfold (st st' : loop_state) (fuel : nat) :
  loop_step st st' ->
  execute_plan_loop (S fuel) st.1.2 st.2 st.1.1
  = execute_plan_loop fuel st'.1.2 st'.2 st'.1.1.
Proof.
  inversion 1 as [s tasks completed s' tasks' Hlt Hne Hrun]; subst. simpl.
  apply Nat.ltb_lt in Hlt. rewrite Hlt.
  destruct (ready_tasks tasks completed) as [|i l] eqn:Hready; [contradiction|].
  now rewrite (bind_run _ _ _ _ _ Hrun).
Qed.

Lemma loop_steps_unfold (st st' : loop_state) :
  rtc loop_step st st' ->
  exists n, forall fuel,
    execute_plan_loop (n + fuel) st.1.2 st.2 st.1.1
    = execute_plan_loop fuel st'.1.2 st'.2 st'.1.1.
Proof.
  induction 1 as [st|st st1 st' Hstep _ [n IH]].
  - now exists 0%nat.
  - exists (S n). intros fuel. simpl Nat.add.
    rewrite (loop_step_unfold st st1 (n + fuel) Hstep). apply IH.
Qed.

(** C4. [execute_task] in full, on a tool that can end in the three ways of
    [Invocation], between two readings of the clock less than 2^72
    microseconds apart (two [datetime] are less than 2^59 apart). The
    [finally] block records the time of completion and, as the duration, what
    [int] makes of the float of the elapsed seconds; below 2^52 microseconds
    that is the whole seconds of the elapsed time.
    When the lookup of the tool or the tool raises below [Exception], the
    call returns the task [FAILED], its output the one-key mapping from
    "error" to the message, its cost and tool name left as they were (0 and
    none for a task as the decomposer builds it), and the task is saved. When
    the tool returns, the call returns the task [COMPLETED] with the output,
    the name of the tool and the cost, and the task is saved. When the tool
    raises an exception that is not below [Exception], the exception leaves
    the call: the task stays [IN_PROGRESS], with output, tool name and cost
    as they were, and is not saved.
    [execute_task] is this call for the tool of a [Runtime], which ends in
    the first two ways, when the readings are less than 2^52 microseconds
    apart; with such a tool no exception leaves [execute_plan]. *)
Theorem execute_task_contains_failure
    (invoke : Tool -> Dict -> World -> Invocation * World) (task : Task) (s : St) :
  (let start := datetime_now (world s) in
   let outcome := invocation invoke task start.2 in
   let finish := datetime_now outcome.2 in
   (- 2 ^ 72 < finish.1 - start.1 < 2 ^ 72)%Z ->
   exists r s' seconds,
     execute_task_full invoke task s = (Ok r, s') /\
     world s' = finish.2 /\
     int_of_float (total_seconds (finish.1 - start.1)) = Ok seconds /\
     ((- 2 ^ 52 < finish.1 - start.1 < 2 ^ 52)%Z ->
      seconds = ((finish.1 - start.1) ÷ 1000000)%Z) /\
     Task.completed_at (outcome_task r) = Some finish.1 /\
     Task.execution_time_seconds (outcome_task r) = seconds /\
     same_identity task (outcome_task r) /\
     match outcome.1 with
     | Returns output_data cost =>
         r = Returned (outcome_task r) /\
         Task.status (outcome_task r) = COMPLETED /\
         Task.output_data (outcome_task r) = Some output_data /\
         Task.tool_used (outcome_task r)
         = Tool.name <$> tools (Task.task_type task) /\
         Task.cost_usd (outcome_task r) = cost /\
         log s' = log s ++ [ Info_ExecutingTask (Task.id task)
                               (TaskType_value (Task.task_type task));
                             Info_SavingTask (Task.id task) ]
     | RaisesException e =>
         r = Returned (outcome_task r) /\
         Task.status (outcome_task r) = FAILED /\
         Task.output_data (outcome_task r)
         = Some [("error", VStr (exn_str e))] /\
         Task.tool_used (outcome_task r) = Task.tool_used task /\
         Task.cost_usd (outcome_task r) = Task.cost_usd task /\
         log s' = log s ++ [ Info_ExecutingTask (Task.id task)
                               (TaskType_value (Task.task_type task));
                             Error_TaskFailed (Task.id task) (exn_str e);
                             Info_SavingTask (Task.id task) ]
     | RaisesBaseException e =>
         r = Propagated e (outcome_task r) /\
         Task.status (outcome_task r) = IN_PROGRESS /\
         Task.output_data (outcome_task r) = Task.output_data task /\
         Task.tool_used (outcome_task r) = Task.tool_used task /\
         Task.cost_usd (outcome_task r) = Task.cost_usd task /\
         log s' = log s ++ [ Info_ExecutingTask (Task.id task)
                               (TaskType_value (Task.task_type task)) ]
     end) /\
  (let start := datetime_now (world s) in
   let outcome := tool_outcome task start.2 in
   let finish := datetime_now outcome.2 in
   (- 2 ^ 52 < finish.1 - start.1 < 2 ^ 52)%Z ->
   exists task' s',
     execute_task task s = (Ok task', s') /\
     execute_task_full invoke_of_runtime task s = (Ok (Returned task'), s')) /\
  (forall fuel plan s0, exists r s', execute_plan fuel plan s0 = (Ok r, s')).
Proof.
  split; [|split; [apply execute_task_full_refines|
                   intros fuel plan s0; apply execute_plan_no_raise]].
  intros start outcome finish Hgap.
  destruct (int_total_seconds_returns _ Hgap) as [seconds Hseconds].
  destruct (execute_task_full_spec invoke task s seconds Hseconds)
    as (r & s' & Hrun & Hw & Hc & He & Hid & Hout).
  exists r, s', seconds. split; [exact Hrun|]. split; [exact Hw|].
  split; [exact Hseconds|]. split.
  { intros Hsmall. fold start outcome finish in Hseconds.
    rewrite (int_total_seconds _ Hsmall) in Hseconds. congruence. }
  split; [exact Hc|]. split; [exact He|]. split; [exact Hid|]. exact Hout.
Qed.

(** C5. In every loop state reachable in a run of [execute_plan], the entries
    of [completed_tasks] are terminal tasks of the plan under their own
    identifiers; and whenever [execute_task] is called on a task, that task is
    pending at that moment and each of its dependency identifiers is a key of
    [completed_tasks], whose entry is terminal at that moment. *)
Theorem dispatch_only_after_dependencies
    (s0 s : St) (plan_tasks tasks : list Task) (completed : list (string * nat)) :
  loop_reachable s0 plan_tasks (s, tasks, completed) ->
  (forall k j, dict_get k completed = Some j ->
     exists task, tasks !! j = Some task /\ Task.id task = k /\
                  is_terminal (Task.status task) = true) /\
  (forall i heap, dispatched_in (s, tasks, completed) i heap ->
     exists task,
       heap !! i = Some task /\ Task.status task = PENDING /\
       forall dep_id, dep_id ∈ Task.deps task ->
         exists j dep,
           dict_get dep_id completed = Some j /\ heap !! j = Some dep /\
           Task.id dep = dep_id /\ is_terminal (Task.status dep) = true).
Proof.
  intros Hreach. apply loop_reachable_invariant in Hreach.
  destruct Hreach as (_ & _ & HC & _ & _). split.
  - intros k j Hget. destruct (HC k j Hget) as (_ & t & _ & Ht & Hid & _ & Hterm).
    now exists t.
  - intros i heap (_ & before & after & s_mid & Hready & Hrun).
    destruct (for_each_execute before tasks s) as (heap' & s' & Hrun' & _ & Hd).
    rewrite Hrun in Hrun'. injection Hrun' as <- <-.
    pose proof (ready_tasks_NoDup tasks completed) as Hnd. rewrite Hready in Hnd.
    assert (Hbefore : forall j, j ∈ before -> j ∈ ready_tasks tasks completed).
    { intros j Hj. rewrite Hready. apply elem_of_app. now left. }
    assert (Hi : i ∈ ready_tasks tasks completed).
    { rewrite Hready. apply elem_of_app. right. apply elem_of_cons. now left. }
    apply ready_tasks_spec in Hi as (t & Hi & Hr).
    apply is_ready_spec in Hr as [Hp Hdeps].
    destruct (Hd i t Hi) as (t' & Hi' & _ & _ & Hsame).
    rewrite Hsame in Hi'.
    2:{ apply NoDup_app in Hnd as (_ & Hdisj & _). intros Hin.
        apply (Hdisj i Hin). apply elem_of_cons. now left. }
    exists t. split; [exact Hi'|]. split; [exact Hp|].
    intros d Hin. apply Hdeps, dict_mem_get in Hin as [j Hget].
    destruct (HC d j Hget) as (_ & tj & _ & Hj & Hid & _ & Hterm).
    destruct (Hd j tj Hj) as (tj' & Hj' & _ & _ & Hsamej).
    exists j, tj. split; [exact Hget|]. split; [|now split].
    rewrite Hj'. f_equal. apply Hsamej. intros Hjin.
    apply Hbefore, ready_tasks_pending in Hjin as (t1 & Hj1 & Hp1).
    replace t1 with tj in Hp1 by congruence.
    apply is_terminal_not_pending in Hterm. contradiction.
Qed.

(** ** Tasks that are already terminal *)

Lemma ready_tasks_not_terminal (tasks : list Task)
    (completed : list (string * nat)) (i : nat) (task : Task) :
  tasks !! i = Some task -> is_terminal (Task.status task) = true ->
  i ∉ ready_tasks tasks completed.
Proof.
  intros Hi Hterm Hin. apply ready_tasks_pending in Hin as (t & Hi' & Hp).
  replace t with task in Hp by congruence.
  apply is_terminal_not_pending in Hterm. contradiction.
Qed.

Lemma ready_tasks_all_terminal (tasks : list Task)
    (completed : list (string * nat)) :
  Forall (fun task => is_terminal (Task.status task) = true) tasks ->
  ready_tasks tasks completed = [].
Proof.
  intros Hall. destruct (ready_tasks tasks completed) as [|i l] eqn:Hready;
    [reflexivity|exfalso].
  assert (Hin : i ∈ ready_tasks tasks completed).
  { rewrite Hready. apply elem_of_cons. now left. }
  pose proof Hin as Hin2. apply ready_tasks_pending in Hin2 as (t & Hi & _).
  apply (ready_tasks_not_terminal tasks completed i t); auto.
  apply (Forall_lookup_1 _ _ _ _ Hall Hi).
Qed.

Lemma dispatched_in_ready (s : St) (tasks heap : list Task)
    (completed : list (string * nat)) (i : nat) :
  dispatched_in (s, tasks, completed) i heap ->
  i ∈ ready_tasks tasks completed.
Proof.
  intros (_ & before & after & s_mid & Hready & _). rewrite Hready.
  apply elem_of_app. right. apply elem_of_cons. now left.
Qed.

Lemma with_tasks_same (plan : ExecutionPlan) :
  ExecutionPlan.with_tasks (ExecutionPlan.tasks plan) plan = plan.
Proof. now destruct plan. Qed.

(** C6. In a run of [execute_plan], a task that is [COMPLETED] or [FAILED]
    when the run starts is in no ready set: in every loop state of the run it
    is as it was, [execute_task] is never called on it, and the plan still holds it
    unchanged at the end. When every task of the plan is terminal, the run
    dispatches nothing: the world is untouched, the log gains no record of an
    executed task, the plan is unchanged and the returned list is empty. *)
Theorem terminal_tasks_not_redispatched
    (fuel : nat) (plan : ExecutionPlan) (s : St) :
  (length (ExecutionPlan.tasks plan) < fuel)%nat ->
  let s_start :=
    mkSt (world s)
         (log s ++ [Info_StartingExecution (ExecutionPlan.project_id plan)]) in
  exists plan' returned s',
    execute_plan fuel plan s = (Ok (Some (plan', returned)), s') /\
    (forall s1 tasks completed i task,
       loop_reachable s_start (ExecutionPlan.tasks plan) (s1, tasks, completed) ->
       ExecutionPlan.tasks plan !! i = Some task ->
       is_terminal (Task.status task) = true ->
       tasks !! i = Some task /\
       (i ∉ ready_tasks tasks completed) /\
       forall heap, ~ dispatched_in (s1, tasks, completed) i heap) /\
    (forall i task,
       ExecutionPlan.tasks plan !! i = Some task ->
       is_terminal (Task.status task) = true ->
       ExecutionPlan.tasks plan' !! i = Some task) /\
    (Forall (fun task => is_terminal (Task.status task) = true)
            (ExecutionPlan.tasks plan) ->
     plan' = plan /\ returned = [] /\ world s' = world s /\
     log s' = log s
              ++ [Info_StartingExecution (ExecutionPlan.project_id plan)]
              ++ (match ExecutionPlan.tasks plan with
                  | [] => []
                  | _ :: _ => [Warning_NoReadyTasks]
                  end)
              ++ [Info_PlanExecutionCompleted 0]).
Proof.
  intros Hfuel s_start.
  destruct (execute_plan_run fuel plan s Hfuel)
    as (s1 & tasks' & completed & s2 & Hrun & Hreach & Hexit).
  fold s_start in Hreach.
  assert (Hkeep : forall s1 tasks completed i task,
    loop_reachable s_start (ExecutionPlan.tasks plan) (s1, tasks, completed) ->
    ExecutionPlan.tasks plan !! i = Some task ->
    is_terminal (Task.status task) = true ->
    tasks !! i = Some task).
  { intros s3 tasks c i task Hr Hi Hterm.
    apply loop_reachable_invariant in Hr as (_ & HT & _).
    destruct (HT i task Hi) as (t & Ht & _ & [->|[Hp _]]); [exact Ht|].
    apply is_terminal_not_pending in Hterm. contradiction. }
  eexists _, _, _. split; [exact Hrun|]. split; [|split].
  - intros s3 tasks c i task Hr Hi Hterm.
    pose proof (Hkeep _ _ _ _ _ Hr Hi Hterm) as Ht.
    split; [exact Ht|]. split.
    + now apply (ready_tasks_not_terminal tasks c i task).
    + intros heap Hd. apply dispatched_in_ready in Hd.
      now apply (ready_tasks_not_terminal tasks c i task).
  - intros i task Hi Hterm. simpl. now apply (Hkeep s1 tasks' completed).
  - intros Hall.
    assert (Hinit : (s1, tasks', completed)
                    = (s_start, ExecutionPlan.tasks plan, [])).
    { apply rtc_inv in Hreach as [Heq|(st1 & Hstep & _)]; [now symmetry|].
      exfalso. destruct st1 as [[s3 tasks3] c3].
      inversion Hstep as [? ? ? ? ? _ Hne _]; subst.
      apply Hne. now apply ready_tasks_all_terminal. }
    injection Hinit as -> -> ->.
    split; [apply with_tasks_same|]. split; [reflexivity|].
    destruct Hexit as [[Hlen ->]|(Hlen & _ & ->)]; simpl in *.
    + destruct (ExecutionPlan.tasks plan); [|simpl in Hlen; lia].
      split; [reflexivity|]. now rewrite <- !app_assoc.
    + destruct (ExecutionPlan.tasks plan); [simpl in Hlen; lia|].
      split; [reflexivity|]. now rewrite <- !app_assoc.
Qed.

(** ** Failed dependencies *)

(** At the end of the loop, a task that was pending at the start and has all
    its dependency identifiers among the keys has been run. *)
Lemma exit_satisfied_is_terminal (tasks0 tasks : list Task)
    (completed : list (string * nat)) (s1 s2 : St) (i : nat) (task0 : Task) :
  loop_invariant tasks0 tasks completed ->
  loop_exit (s1, tasks, completed) s2 ->
  tasks0 !! i = Some task0 ->
  Task.status task0 = PENDING ->
  (forall dep_id, dep_id ∈ Task.deps task0 -> dict_mem dep_id completed = true) ->
  exists task, tasks !! i = Some task /\ is_terminal (Task.status task) = true.
Proof.
  intros Hinv Hexit Hi Hp Hdeps.
  pose proof Hinv as (Hlen & HT & HC & _ & _).
  destruct (HT i task0 Hi) as (t & Ht & _ & [->|[_ Hterm]]); [|now exists t].
  exfalso.
  assert (Hready : i ∈ ready_tasks tasks completed).
  { apply ready_tasks_spec. exists task0. split; [exact Ht|].
    now apply is_ready_spec. }
  destruct Hexit as [[Hfull _]|(_ & Hnone & _)].
  - assert (length completed < length tasks)%nat; [|lia].
    apply (completed_lt_tasks tasks0 tasks completed i Hinv).
    + now apply lookup_lt_Some in Ht.
    + intros k Hget. destruct (HC k i Hget) as (_ & t & _ & Ht' & _ & _ & Hterm).
      replace t with task0 in Hterm by congruence.
      apply is_terminal_not_pending in Hterm. contradiction.
  - rewrite Hnone in Hready. now apply elem_of_nil in Hready.
Qed.

(** C2. In a run of [execute_plan], every task that the run brings to a
    terminal status, [FAILED] as well as [COMPLETED], has its identifier as a
    key of [completed_tasks], and the entry under that key is returned. A task
    pending at the start whose dependency identifiers are all keys ends in a
    terminal status. So a task whose only dependency is a task of the plan
    that the run leaves [FAILED] does not stay pending. *)
Theorem failed_dependency_does_not_block
    (fuel : nat) (plan : ExecutionPlan) (s : St) :
  (length (ExecutionPlan.tasks plan) < fuel)%nat ->
  exists plan' completed s',
    execute_plan fuel plan s
    = (Ok (Some (plan', completed_values (ExecutionPlan.tasks plan') completed)),
       s') /\
    (forall j task0 task,
       ExecutionPlan.tasks plan !! j = Some task0 ->
       Task.status task0 = PENDING ->
       ExecutionPlan.tasks plan' !! j = Some task ->
       is_terminal (Task.status task) = true ->
       dict_mem (Task.id task) completed = true /\
       exists r, r ∈ completed_values (ExecutionPlan.tasks plan') completed /\
                 Task.id r = Task.id task /\
                 is_terminal (Task.status r) = true) /\
    (forall i task0,
       ExecutionPlan.tasks plan !! i = Some task0 ->
       Task.status task0 = PENDING ->
       (forall dep_id, dep_id ∈ Task.deps task0 ->
                       dict_mem dep_id completed = true) ->
       exists task, ExecutionPlan.tasks plan' !! i = Some task /\
                    is_terminal (Task.status task) = true) /\
    (forall i j task0 dep0 dep,
       ExecutionPlan.tasks plan !! i = Some task0 ->
       Task.status task0 = PENDING ->
       Task.deps task0 = [Task.id dep0] ->
       ExecutionPlan.tasks plan !! j = Some dep0 ->
       Task.status dep0 = PENDING ->
       ExecutionPlan.tasks plan' !! j = Some dep ->
       Task.status dep = FAILED ->
       exists task, ExecutionPlan.tasks plan' !! i = Some task /\
                    is_terminal (Task.status task) = true).
Proof.
  intros Hfuel.
  destruct (execute_plan_run fuel plan s Hfuel)
    as (s1 & tasks' & completed & s2 & Hrun & Hreach & Hexit).
  pose proof (loop_reachable_invariant _ _ _ _ _ Hreach) as Hinv.
  pose proof Hinv as (Hlen & HT & HC & HK & HN).
  exists (ExecutionPlan.with_tasks tasks' plan), completed. eexists.
  split; [exact Hrun|]. simpl.
  assert (Hsat : forall i task0,
    ExecutionPlan.tasks plan !! i = Some task0 ->
    Task.status task0 = PENDING ->
    (forall dep_id, dep_id ∈ Task.deps task0 -> dict_mem dep_id completed = true) ->
    exists task, tasks' !! i = Some task /\ is_terminal (Task.status task) = true).
  { intros i task0. now apply (exit_satisfied_is_terminal _ _ _ s1 s2). }
  split; [|split; [exact Hsat|]].
  - intros j task0 task H0 Hp Hj Hterm.
    pose proof (HK j task0 task H0 Hj Hp Hterm) as Hmem.
    split; [exact Hmem|].
    apply dict_mem_get in Hmem as [j' Hget].
    destruct (HC _ _ Hget) as (_ & r & _ & Hr & Hid & _ & Hrterm).
    exists r. split; [|now split].
    apply (completed_values_elem_of _ _ _ _ Hinv). exists j'.
    split; [now rewrite Hid|exact Hr].
  - intros i j task0 dep0 dep Hi Hp Hdeps Hj Hdp Hj' Hfailed.
    apply (Hsat i task0 Hi Hp). intros d Hd. rewrite Hdeps in Hd.
    apply list_elem_of_singleton in Hd as ->.
    destruct (HT j dep0 Hj) as (t & Ht & Hid & _).
    replace t with dep in Hid by congruence. destruct Hid as [<- _].
    apply (HK j dep0 dep Hj Hj' Hdp). now rewrite Hfailed.
Qed.

(** ** Stalled plans *)

(** Tasks of a blocked set are never run: they stay as they were and no entry
    of [completed_tasks] holds one of them. *)
Lemma blocked_step (blocked : nat -> Prop) (tasks0 tasks tasks' : list Task)
    (completed : list (string * nat)) :
  (forall i task, blocked i -> tasks0 !! i = Some task ->
     exists dep_id, dep_id ∈ Task.deps task /\
       forall j dep, tasks0 !! j = Some dep -> Task.id dep = dep_id -> blocked j) ->
  loop_invariant tasks0 tasks completed ->
  (forall i, blocked i ->
     tasks !! i = tasks0 !! i /\ forall k, dict_get k completed <> Some i) ->
  dispatched_heap (ready_tasks tasks completed) tasks tasks' ->
  forall i, blocked i ->
    tasks' !! i = tasks0 !! i /\
    forall k, dict_get k (record_results (ready_tasks tasks completed) tasks' completed)
              <> Some i.
Proof.
  intros Hblocked (Hlen & HT & HC & _ & _) HB [Hlen' Hd] i Hi.
  destruct (HB i Hi) as [Hsame Hfree].
  assert (Hnot : i ∉ ready_tasks tasks completed).
  { intros Hin. apply ready_tasks_spec in Hin as (t & Ht & Hr).
    apply is_ready_spec in Hr as [_ Hdeps].
    rewrite Hsame in Ht. destruct (Hblocked i t Hi Ht) as (d & Hd_in & Hall).
    apply Hdeps, dict_mem_get in Hd_in as [j Hget].
    destruct (HC d j Hget) as (tj0 & tj & Hj0 & Hj & Hid & _).
    destruct (HT j tj0 Hj0) as (tj' & Hj' & [Hid0 _] & _).
    replace tj' with tj in Hid0 by congruence.
    assert (Hbj : blocked j) by (apply (Hall j tj0 Hj0); congruence).
    now apply (proj2 (HB j Hbj) d). }
  split.
  - rewrite <- Hsame. destruct (tasks !! i) as [t|] eqn:Ht.
    + destruct (Hd i t Ht) as (t' & Ht' & _ & _ & Heq). now rewrite Ht', (Heq Hnot).
    + apply lookup_ge_None. apply lookup_ge_None in Ht. lia.
  - intros k Hget. apply record_results_get in Hget as [Hold|[Hin _]].
    + now apply (Hfree k).
    + contradiction.
Qed.

Lemma blocked_steps (blocked : nat -> Prop) (tasks0 : list Task)
    (st st' : loop_state) :
  (forall i task, blocked i -> tasks0 !! i = Some task ->
     exists dep_id, dep_id ∈ Task.deps task /\
       forall j dep, tasks0 !! j = Some dep -> Task.id dep = dep_id -> blocked j) ->
  rtc loop_step st st' ->
  loop_invariant tasks0 st.1.2 st.2 ->
  (forall i, blocked i ->
     st.1.2 !! i = tasks0 !! i /\ forall k, dict_get k st.2 <> Some i) ->
  forall i, blocked i ->
    st'.1.2 !! i = tasks0 !! i /\ forall k, dict_get k st'.2 <> Some i.
Proof.
  intros Hblocked.
  induction 1 as [|[[s tasks] c] [[s1 tasks1] c1] st' Hstep _ IH]; [auto|].
  intros Hinv HB. simpl in *.
  apply loop_step_inv in Hstep as (_ & _ & Hd & ->).
  apply IH.
  - now apply loop_invariant_step.
  - now apply (blocked_step blocked tasks0 tasks tasks1 c).
Qed.

(** C3. With more fuel than the plan has tasks, [execute_plan] returns, the
    same with any more fuel, and what it returns are terminal tasks of the
    plan, no more than the plan has. Every task that the run brought to a
    terminal status has a terminal task with its identifier in the returned
    list; when the identifiers of the plan are distinct, the returned tasks
    are exactly the tasks that were pending at the start and are terminal at
    the end.
    When some tasks can never become ready, because each has a dependency
    identifier carried only by tasks of the same set (a cycle) or by no task
    at all (an identifier unknown to the plan), the loop leaves by [break]
    after the warning, and the returned tasks are fewer than the plan's. *)
Theorem execute_plan_halts_on_stalled_graph
    (fuel : nat) (plan : ExecutionPlan) (s : St) :
  (length (ExecutionPlan.tasks plan) < fuel)%nat ->
  exists plan' returned s',
    execute_plan fuel plan s = (Ok (Some (plan', returned)), s') /\
    (forall fuel', (fuel <= fuel')%nat ->
       execute_plan fuel' plan s = (Ok (Some (plan', returned)), s')) /\
    (forall r, r ∈ returned ->
       r ∈ ExecutionPlan.tasks plan' /\ is_terminal (Task.status r) = true) /\
    (length returned <= length (ExecutionPlan.tasks plan))%nat /\
    (forall j task0 task,
       ExecutionPlan.tasks plan !! j = Some task0 ->
       Task.status task0 = PENDING ->
       ExecutionPlan.tasks plan' !! j = Some task ->
       is_terminal (Task.status task) = true ->
       exists r, r ∈ returned /\ Task.id r = Task.id task /\
                 is_terminal (Task.status r) = true) /\
    (NoDup (Task.id <$> ExecutionPlan.tasks plan) ->
     forall r,
       r ∈ returned <->
       exists j task0,
         ExecutionPlan.tasks plan !! j = Some task0 /\
         Task.status task0 = PENDING /\
         ExecutionPlan.tasks plan' !! j = Some r /\
         is_terminal (Task.status r) = true) /\
    (forall blocked : nat -> Prop,
       (exists i task, blocked i /\ ExecutionPlan.tasks plan !! i = Some task) ->
       (forall i task, blocked i -> ExecutionPlan.tasks plan !! i = Some task ->
          exists dep_id, dep_id ∈ Task.deps task /\
            forall j dep, ExecutionPlan.tasks plan !! j = Some dep ->
                          Task.id dep = dep_id -> blocked j) ->
       (length returned < length (ExecutionPlan.tasks plan))%nat /\
       exists records,
         log s' = records ++ [ Warning_NoReadyTasks;
                               Info_PlanExecutionCompleted (length returned) ]) /\
    (forall i task dep_id,
       ExecutionPlan.tasks plan !! i = Some task ->
       dep_id ∈ Task.deps task ->
       (forall dep, dep ∈ ExecutionPlan.tasks plan -> Task.id dep <> dep_id) ->
       (length returned < length (ExecutionPlan.tasks plan))%nat /\
       exists records,
         log s' = records ++ [ Warning_NoReadyTasks;
                               Info_PlanExecutionCompleted (length returned) ]).
Proof.
  intros Hfuel.
  destruct (execute_plan_run fuel plan s Hfuel)
    as (s1 & tasks' & completed & s2 & Hrun & Hreach & Hexit).
  pose proof (loop_reachable_invariant _ _ _ _ _ Hreach) as Hinv.
  pose proof Hinv as (Hlen & HT & HC & HK & HN).
  pose proof (completed_values_length _ _ _ Hinv) as Hvlen.
  eexists _, _, _. split; [exact Hrun|].
  assert (Hstall : forall blocked : nat -> Prop,
    (exists i task, blocked i /\ ExecutionPlan.tasks plan !! i = Some task) ->
    (forall i task, blocked i -> ExecutionPlan.tasks plan !! i = Some task ->
       exists dep_id, dep_id ∈ Task.deps task /\
         forall j dep, ExecutionPlan.tasks plan !! j = Some dep ->
                       Task.id dep = dep_id -> blocked j) ->
    (length (completed_values tasks' completed)
       < length (ExecutionPlan.tasks plan))%nat /\
    exists records,
      log (mkSt (world s2)
             (log s2 ++ [Info_PlanExecutionCompleted (length completed)]))
      = records ++ [ Warning_NoReadyTasks;
                     Info_PlanExecutionCompleted
                       (length (completed_values tasks' completed)) ]).
  { intros blocked (i & task & Hbi & Hi) Hblocked.
    assert (HB : forall i, blocked i ->
      tasks' !! i = ExecutionPlan.tasks plan !! i /\
      forall k, dict_get k completed <> Some i).
    { apply (blocked_steps blocked _ _ _ Hblocked Hreach); simpl.
      - apply loop_invariant_init.
      - intros i0 _. split; [reflexivity|]. intros k. discriminate. }
    assert (Hlt : (length completed < length tasks')%nat).
    { apply (completed_lt_tasks _ _ _ i Hinv).
      - rewrite Hlen. now apply lookup_lt_Some in Hi.
      - apply (HB i Hbi). }
    rewrite Hvlen. split; [lia|].
    destruct Hexit as [[Hfull _]|(_ & _ & ->)]; [lia|].
    simpl. exists (log s1). now rewrite <- app_assoc. }
  split; [|split; [|split; [|split; [|split; [|split; [exact Hstall|]]]]]].
  - intros fuel' Hle. now apply (execute_plan_fuel_mono fuel fuel').
  - intros r Hr. apply (completed_values_elem_of _ _ _ _ Hinv) in Hr as (j & Hget & Hj).
    simpl. split; [now apply list_elem_of_lookup_2 in Hj|].
    destruct (HC _ _ Hget) as (_ & t & _ & Ht & _ & _ & Hterm).
    now replace r with t by congruence.
  - rewrite Hvlen, <- Hlen. apply (completed_le_tasks _ _ _ Hinv).
  - simpl. intros j task0 task H0 Hp Hj Hterm.
    pose proof (HK j task0 task H0 Hj Hp Hterm) as Hmem.
    apply dict_mem_get in Hmem as [j' Hget].
    destruct (HC _ _ Hget) as (_ & r & _ & Hr & Hid & _ & Hrterm).
    exists r. split; [|now split].
    apply (completed_values_elem_of _ _ _ _ Hinv). exists j'.
    split; [now rewrite Hid|exact Hr].
  - simpl. intros Hnodup r. split.
    + intros Hr.
      apply (completed_values_elem_of _ _ _ _ Hinv) in Hr as (j & Hget & Hj).
      destruct (HC _ _ Hget) as (task0 & t & H0 & Ht & _ & Hp & Hterm).
      replace t with r in Hterm by congruence. now exists j, task0.
    + intros (j & task0 & H0 & Hp & Hj & Hterm).
      pose proof (HK j task0 r H0 Hj Hp Hterm) as Hmem.
      apply dict_mem_get in Hmem as [j' Hget].
      destruct (HC _ _ Hget) as (task0' & r' & H0' & Hr' & Hid & _ & _).
      destruct (HT j task0 H0) as (t & Ht & [Hsame _] & _).
      replace t with r in Hsame by congruence.
      destruct (HT j' task0' H0') as (t' & Ht' & [Hsame' _] & _).
      replace t' with r' in Hsame' by congruence.
      assert (Hjj : j' = j).
      { apply (NoDup_lookup _ j' j (Task.id r) Hnodup);
          rewrite list_lookup_fmap.
        - rewrite H0'. simpl. congruence.
        - rewrite H0. simpl. congruence. }
      subst j'. apply (completed_values_elem_of _ _ _ _ Hinv). now exists j.
  - intros i task d Hi Hd Hunknown.
    apply (Hstall (fun j => j = i)).
    + now exists i, task.
    + intros i0 t0 -> Ht0. replace t0 with task by congruence.
      exists d. split; [exact Hd|]. intros j dep Hj Hid. exfalso.
      apply (Hunknown dep); [|exact Hid]. now apply list_elem_of_lookup_2 in Hj.
Qed.

End Properties.

(** * The properties on the simulated runtime *)

Lemma create_execution_plan_estimated_cost_witness :
  PyStr.all_space "Grow my tech channel" = false /\
  exists plan s',
    create_execution_plan "Grow my tech channel" [("project_id", VStr "p1")]
      sim_start = (Ok plan, s') /\
    length (ExecutionPlan.tasks plan) = 17%nat /\
    ExecutionPlan.estimated_cost plan
      = Q_of_float (float_sum (map float_price (ExecutionPlan.tasks plan))) /\
    Forall (fun task => float_price task = float_of_Q (estimated_price task))
           (ExecutionPlan.tasks plan) /\
    (py_sum (map estimated_price (ExecutionPlan.tasks plan))
       == 0 + 4 * 0.50 + 4 * 0.10 + 4 * (0.24 * 3) + 4 * 0.10)%Q /\
    (py_sum (map estimated_price (ExecutionPlan.tasks plan)) == 5.68)%Q /\
    (ExecutionPlan.estimated_cost plan == 5.68 - (29 # 14073748835532800))%Q /\
    ExecutionPlan.estimated_cost plan <> Q_of_float (float_of_Q 5.68) /\
    float_sum_compensated (map float_price (ExecutionPlan.tasks plan))
    = float_of_Q 5.68.
Proof.
  split; [reflexivity|].
  apply (create_execution_plan_estimated_cost (RT := SimRuntime)).
  reflexivity.
Defined.

(** C7 as it is worded, with 5.68 for the estimate: the plan of this goal has
    the float sum of its 17 terms, which is not 5.68. *)
Lemma estimated_cost_is_not_5_68 :
  ~ (exists plan s',
       create_execution_plan (RT := SimRuntime) "Grow my tech channel"
         [("project_id", VStr "p1")] sim_start = (Ok plan, s') /\
       length (ExecutionPlan.tasks plan) = 17%nat /\
       (ExecutionPlan.estimated_cost plan
        == 0 + 4 * 0.50 + 4 * 0.10 + 4 * (0.24 * 3) + 4 * 0.10)%Q /\
       (ExecutionPlan.estimated_cost plan == 5.68)%Q).
Proof.
  intros (plan & s' & Hrun & _ & _ & Hcost).
  vm_compute in Hrun. injection Hrun as <- _.
  vm_compute in Hcost. discriminate Hcost.
Qed.

Lemma decompose_tasks_dependency_closure_witness :
  exists tasks s' task,
    decompose_tasks "Grow my tech channel" [] sim_start = (Ok tasks, s') /\
    tasks !! 5%nat = Some task /\
    "task-1" ∈ Task.deps task /\
    (exists j dep,
       (j < 5)%nat /\ tasks !! j = Some dep /\ Task.id dep = "task-1") /\
    "task-1" <> Task.id task.
Proof.
  eexists _, _, _.
  match goal with
  | |- ?A /\ ?B /\ ?C /\ _ =>
      assert (HA : A) by (vm_compute; reflexivity);
      assert (HB : B) by reflexivity;
      assert (HC : C) by (apply list_elem_of_singleton; reflexivity)
  end.
  destruct (decompose_tasks_dependency_closure (RT := SimRuntime)
              _ _ _ _ _ _ _ _ HA HB HC) as [Hclosed Hself].
  split; [exact HA|]. split; [exact HB|]. split; [exact HC|].
  split; [exact Hclosed|]. apply Hself.
  apply (bool_decide_unpack _). vm_compute. exact I.
Defined.

Lemma failed_dependency_does_not_block_witness :
  (length (ExecutionPlan.tasks sim_failing_plan) < 3)%nat /\
  exists plan' completed s',
    execute_plan 3 sim_failing_plan sim_start
    = (Ok (Some (plan', completed_values (ExecutionPlan.tasks plan') completed)),
       s') /\
    (forall j task0 task,
       ExecutionPlan.tasks sim_failing_plan !! j = Some task0 ->
       Task.status task0 = PENDING ->
       ExecutionPlan.tasks plan' !! j = Some task ->
       is_terminal (Task.status task) = true ->
       dict_mem (Task.id task) completed = true /\
       exists r, r ∈ completed_values (ExecutionPlan.tasks plan') completed /\
                 Task.id r = Task.id task /\
                 is_terminal (Task.status r) = true) /\
    (forall i task0,
       ExecutionPlan.tasks sim_failing_plan !! i = Some task0 ->
       Task.status task0 = PENDING ->
       (forall dep_id, dep_id ∈ Task.deps task0 ->
                       dict_mem dep_id completed = true) ->
       exists task, ExecutionPlan.tasks plan' !! i = Some task /\
                    is_terminal (Task.status task) = true) /\
    (forall i j task0 dep0 dep,
       ExecutionPlan.tasks sim_failing_plan !! i = Some task0 ->
       Task.status task0 = PENDING ->
       Task.deps task0 = [Task.id dep0] ->
       ExecutionPlan.tasks sim_failing_plan !! j = Some dep0 ->
       Task.status dep0 = PENDING ->
       ExecutionPlan.tasks plan' !! j = Some dep ->
       Task.status dep = FAILED ->
       exists task, ExecutionPlan.tasks plan' !! i = Some task /\
                    is_terminal (Task.status task) = true).
Proof.
  assert (H : (length (ExecutionPlan.tasks sim_failing_plan) < 3)%nat)
    by (simpl; lia).
  split; [exact H|].
  exact (failed_dependency_does_not_block (RT := SimRuntime) 3 sim_failing_plan
           sim_start H).
Defined.

Lemma execute_task_contains_failure_witness :
  let task := sim_task "narration" TTS_GENERATION PENDING [] in
  let message := "'NoneType' object has no attribute 'split'" in
  (- 2 ^ 72 < 1400000 - 0 < 2 ^ 72)%Z /\
  exists r s' seconds,
    execute_task_full (RT := SimRuntime) sim_interrupted_invoke task sim_start
    = (Ok r, s') /\
    world s' = 3%nat /\
    int_of_float (total_seconds (1400000 - 0)) = Ok seconds /\
    ((- 2 ^ 52 < 1400000 - 0 < 2 ^ 52)%Z ->
     seconds = ((1400000 - 0) ÷ 1000000)%Z) /\
    Task.completed_at (outcome_task r) = Some 1400000%Z /\
    Task.execution_time_seconds (outcome_task r) = seconds /\
    same_identity task (outcome_task r) /\
    r = Returned (outcome_task r) /\
    Task.status (outcome_task r) = FAILED /\
    Task.output_data (outcome_task r) = Some [("error", VStr message)] /\
    Task.tool_used (outcome_task r) = None /\
    Task.cost_usd (outcome_task r) = 0%Q /\
    log s' = [ Info_ExecutingTask "narration" "tts_generation";
               Error_TaskFailed "narration" message;
               Info_SavingTask "narration" ].
Proof.
  intros task message.
  assert (H : (- 2 ^ 72 < 1400000 - 0 < 2 ^ 72)%Z) by lia.
  split; [exact H|].
  exact (proj1 (execute_task_contains_failure (RT := SimRuntime)
                  sim_interrupted_invoke task sim_start) H).
Defined.

(** C4 as it is worded, for every exception that the tool raises: the script
    tool of this simulation is interrupted from the keyboard, and the call
    returns no task. *)
Lemma keyboard_interrupt_is_not_contained :
  let task := sim_task "script" SCRIPT_GENERATION PENDING [] in
  (invocation (RT := SimRuntime) sim_interrupted_invoke task 1%nat).1
  = RaisesBaseException (mkExn "KeyboardInterrupt" EmptyString) /\
  ~ (exists task' s',
       execute_task_full (RT := SimRuntime) sim_interrupted_invoke task sim_start
       = (Ok (Returned task'), s') /\
       Task.status task' = FAILED /\
       Task.output_data task' = Some [("error", VStr EmptyString)]).
Proof.
  intros task. split; [reflexivity|].
  intros (task' & s' & Hrun & _). vm_compute in Hrun. discriminate Hrun.
Qed.

(** The run of that call: the exception leaves it after the [finally] block,
    and the task is left in progress and unsaved. *)
Example sim_interrupted_run :
  execute_task_full (RT := SimRuntime) sim_interrupted_invoke
    (sim_task "script" SCRIPT_GENERATION PENDING []) sim_start
  = (Ok (Propagated (mkExn "KeyboardInterrupt" EmptyString)
           (Task.mk "script" (VStr "p1") SCRIPT_GENERATION IN_PROGRESS [] None
              None 0%Q 1%Z None (Some 1400000%Z) (Some []) true)),
     @mkSt SimRuntime 3%nat
       [Info_ExecutingTask "script" "script_generation"]).
Proof. vm_compute. reflexivity. Qed.

Lemma execute_plan_halts_on_stalled_graph_witness :
  (length (ExecutionPlan.tasks sim_dangling_plan) < 3)%nat /\
  exists plan' returned s',
    execute_plan 3 sim_dangling_plan sim_start
    = (Ok (Some (plan', returned)), s') /\
    (forall fuel', (3 <= fuel')%nat ->
       execute_plan fuel' sim_dangling_plan sim_start
       = (Ok (Some (plan', returned)), s')) /\
    (forall r, r ∈ returned ->
       r ∈ ExecutionPlan.tasks plan' /\ is_terminal (Task.status r) = true) /\
    (length returned <= length (ExecutionPlan.tasks sim_dangling_plan))%nat /\
    (forall j task0 task,
       ExecutionPlan.tasks sim_dangling_plan !! j = Some task0 ->
       Task.status task0 = PENDING ->
       ExecutionPlan.tasks plan' !! j = Some task ->
       is_terminal (Task.status task) = true ->
       exists r, r ∈ returned /\ Task.id r = Task.id task /\
                 is_terminal (Task.status r) = true) /\
    (NoDup (Task.id <$> ExecutionPlan.tasks sim_dangling_plan) ->
     forall r,
       r ∈ returned <->
       exists j task0,
         ExecutionPlan.tasks sim_dangling_plan !! j = Some task0 /\
         Task.status task0 = PENDING /\
         ExecutionPlan.tasks plan' !! j = Some r /\
         is_terminal (Task.status r) = true) /\
    (forall blocked : nat -> Prop,
       (exists i task,
          blocked i /\ ExecutionPlan.tasks sim_dangling_plan !! i = Some task) ->
       (forall i task,
          blocked i -> ExecutionPlan.tasks sim_dangling_plan !! i = Some task ->
          exists dep_id, dep_id ∈ Task.deps task /\
            forall j dep, ExecutionPlan.tasks sim_dangling_plan !! j = Some dep ->
                          Task.id dep = dep_id -> blocked j) ->
       (length returned < length (ExecutionPlan.tasks sim_dangling_plan))%nat /\
       exists records,
         log s' = records ++ [ Warning_NoReadyTasks;
                               Info_PlanExecutionCompleted (length returned) ]) /\
    (forall i task dep_id,
       ExecutionPlan.tasks sim_dangling_plan !! i = Some task ->
       dep_id ∈ Task.deps task ->
       (forall dep, dep ∈ ExecutionPlan.tasks sim_dangling_plan ->
                    Task.id dep <> dep_id) ->
       (length returned < length (ExecutionPlan.tasks sim_dangling_plan))%nat /\
       exists records,
         log s' = records ++ [ Warning_NoReadyTasks;
                               Info_PlanExecutionCompleted (length returned) ]).
Proof.
  assert (H : (length (ExecutionPlan.tasks sim_dangling_plan) < 3)%nat)
    by (simpl; lia).
  split; [exact H|].
  exact (execute_plan_halts_on_stalled_graph (RT := SimRuntime) 3
           sim_dangling_plan sim_start H).
Defined.

Lemma terminal_tasks_not_redispatched_witness :
  (length (ExecutionPlan.tasks sim_partial_plan) < 4)%nat /\
  let s_start :=
    mkSt (world sim_start)
         (log sim_start
          ++ [Info_StartingExecution (ExecutionPlan.project_id sim_partial_plan)]) in
  exists plan' returned s',
    execute_plan 4 sim_partial_plan sim_start
    = (Ok (Some (plan', returned)), s') /\
    (forall s1 tasks completed i task,
       loop_reachable s_start (ExecutionPlan.tasks sim_partial_plan)
         (s1, tasks, completed) ->
       ExecutionPlan.tasks sim_partial_plan !! i = Some task ->
       is_terminal (Task.status task) = true ->
       tasks !! i = Some task /\
       (i ∉ ready_tasks tasks completed) /\
       forall heap, ~ dispatched_in (s1, tasks, completed) i heap) /\
    (forall i task,
       ExecutionPlan.tasks sim_partial_plan !! i = Some task ->
       is_terminal (Task.status task) = true ->
       ExecutionPlan.tasks plan' !! i = Some task) /\
    (Forall (fun task => is_terminal (Task.status task) = true)
            (ExecutionPlan.tasks sim_partial_plan) ->
     plan' = sim_partial_plan /\ returned = [] /\
     world s' = world sim_start /\
     log s' = log sim_start
              ++ [Info_StartingExecution (ExecutionPlan.project_id sim_partial_plan)]
              ++ (match ExecutionPlan.tasks sim_partial_plan with
                  | [] => []
                  | _ :: _ => [Warning_NoReadyTasks]
                  end)
              ++ [Info_PlanExecutionCompleted 0]).
Proof.
  assert (H : (length (ExecutionPlan.tasks sim_partial_plan) < 4)%nat)
    by (simpl; lia).
  split; [exact H|].
  exact (terminal_tasks_not_redispatched (RT := SimRuntime) 4 sim_partial_plan
           sim_start H).
Defined.

Lemma sim_after_first_reachable :
  loop_reachable sim_start (ExecutionPlan.tasks sim_failing_plan) sim_after_first.
Proof.
  eapply rtc_l; [|apply rtc_refl].
  apply (loop_iteration (RT := SimRuntime) sim_start
           (ExecutionPlan.tasks sim_failing_plan) []).
  - simpl. lia.
  - vm_compute. discriminate.
  - vm_compute. reflexivity.
Defined.

(** In that state the narration task has failed, and the metadata task that
    depends on it is the one dispatched next. *)
Example sim_after_first_dispatches_metadata :
  (Task.status <$> sim_after_first.1.2) = [FAILED; PENDING] /\
  sim_after_first.2 = [("narration", 0%nat)] /\
  dispatched_in sim_after_first 1 sim_after_first.1.2.
Proof.
  split; [reflexivity|]. split; [reflexivity|]. split; [simpl; lia|].
  exists [], [], sim_after_first.1.1. split; vm_compute; reflexivity.
Qed.

Lemma dispatch_only_after_dependencies_witness :
  let '(s, tasks, completed) := sim_after_first in
  loop_reachable sim_start (ExecutionPlan.tasks sim_failing_plan)
    (s, tasks, completed) /\
  (forall k j, dict_get k completed = Some j ->
     exists task, tasks !! j = Some task /\ Task.id task = k /\
                  is_terminal (Task.status task) = true) /\
  (forall i heap, dispatched_in (s, tasks, completed) i heap ->
     exists task,
       heap !! i = Some task /\ Task.status task = PENDING /\
       forall dep_id, dep_id ∈ Task.deps task ->
         exists j dep,
           dict_get dep_id completed = Some j /\ heap !! j = Some dep /\
           Task.id dep = dep_id /\ is_terminal (Task.status dep) = true).
Proof.
  split; [exact sim_after_first_reachable|].
  exact (dispatch_only_after_dependencies (RT := SimRuntime) _ _ _ _ _
           sim_after_first_reachable).
Defined.

(** The runs of the simulated plans. *)
Example sim_failing_plan_run :
  match execute_plan 3 sim_failing_plan sim_start with
  | (Ok (Some (plan', returned)), s') =>
      (Task.status <$> ExecutionPlan.tasks plan') = [FAILED; COMPLETED] /\
      (Task.output_data <$> returned)
      = [ Some [("error", VStr "'NoneType' object has no attribute 'split'")];
          Some [("status", VStr "generated")] ]
  | _ => False
  end.
Proof. vm_compute. split; reflexivity. Qed.

Example sim_dangling_plan_run :
  match execute_plan 3 sim_dangling_plan sim_start with
  | (Ok (Some (plan', returned)), s') =>
      (Task.status <$> ExecutionPlan.tasks plan') = [COMPLETED; PENDING] /\
      (Task.id <$> returned) = ["research"] /\
      log s' = [ Info_StartingExecution (VStr "p1");
                 Info_ExecutingTask "research" "research";
                 Info_SavingTask "research";
                 Warning_NoReadyTasks;
                 Info_PlanExecutionCompleted 1 ]
  | _ => False
  end.
Proof. vm_compute. repeat split; reflexivity. Qed.

Example sim_cyclic_plan_run :
  match execute_plan 4 sim_cyclic_plan sim_start with
  | (Ok (Some (plan', returned)), s') =>
      (Task.status <$> ExecutionPlan.tasks plan') = [COMPLETED; PENDING; PENDING] /\
      (Task.id <$> returned) = ["research"] /\
      last (log s') = Some (Info_PlanExecutionCompleted 1)
  | _ => False
  end.
Proof. vm_compute. repeat split; reflexivity. Qed.

Example sim_partial_plan_run :
  match execute_plan 4 sim_partial_plan sim_start with
  | (Ok (Some (plan', returned)), s') =>
      (Task.status <$> ExecutionPlan.tasks plan') = [COMPLETED; FAILED; COMPLETED] /\
      (Task.id <$> returned) = ["script"]
  | _ => False
  end.
Proof. vm_compute. repeat split; reflexivity. Qed.

(** A dependency that is already [FAILED] when the run starts is not run
    again and is never entered in [completed_tasks]: the task that depends on
    it stays pending and the run ends by the warning. *)
Example sim_failed_before_run :
  match execute_plan 3
          (sim_plan [ sim_task "narration" TTS_GENERATION FAILED [];
                      sim_task "metadata" SEO_OPTIMIZATION PENDING ["narration"] ])
          sim_start with
  | (Ok (Some (plan', returned)), s') =>
      (Task.status <$> ExecutionPlan.tasks plan') = [FAILED; PENDING] /\
      returned = [] /\
      log s' = [ Info_StartingExecution (VStr "p1"); Warning_NoReadyTasks;
                 Info_PlanExecutionCompleted 0 ]
  | _ => False
  end.
Proof. vm_compute. repeat split; reflexivity. Qed.

(** C10 as it is worded, with "non-empty" for the goals that decompose: the
    goal of one space is not empty, and [decompose_tasks] raises on it. *)
Lemma nonempty_goal_without_word_fails :
  ~ (" " <> "" ->
     exists tasks s', decompose_tasks " " [] sim_start = (Ok tasks, s')).
Proof.
  intros H. destruct H as (tasks & s' & H); [discriminate|].
  vm_compute in H. discriminate H.
Qed.

Example determine_scope_ex :
  _determine_scope "Launch a video series" = 10%Z /\
  _determine_scope "Grow my tech channel" = 4%Z /\
  _classify_objective "Grow my tech channel" = "entertainment" /\
  _classify_objective "Earn from my BRAND" = "monetization" /\
  _classify_objective "Teach GROWTH hacks" = "branding" /\
  _classify_objective "Teach me chess" = "education" /\
  _classify_objective "I want to learn chess" = "monetization".
Proof. vm_compute. repeat split; reflexivity. Qed.

(** * Further properties of the engine *)

Section MoreProperties.
Context {RT : Runtime}.

(** ** The scope of a goal *)

(** X1. [_determine_scope] answers 10 exactly for the goals in which one of
    "series", "multiple", "batch" occurs as a substring up to letter case,
    and 4 for all others; [analyze_goal] reports that number under "scope". *)
Theorem determine_scope_by_keywords
    (goal : string) (project_context : Dict) (s : St) :
  (_determine_scope goal = 10%Z <->
   matches_any ["series"; "multiple"; "batch"] goal) /\
  (_determine_scope goal = 4%Z <->
   ~ matches_any ["series"; "multiple"; "batch"] goal) /\
  exists analysis s',
    analyze_goal goal project_context s = (Ok analysis, s') /\
    dict_get "scope" analysis = Some (VInt (_determine_scope goal)).
Proof.
  assert (Hrun : exists analysis s',
    analyze_goal goal project_context s = (Ok analysis, s') /\
    dict_get "scope" analysis = Some (VInt (_determine_scope goal))).
  { eexists _, _. split; [reflexivity|]. cbn. reflexivity. }
  unfold _determine_scope in *.
  destruct (any_word_in_lower ["series"; "multiple"; "batch"] goal) eqn:E.
  - apply any_word_in_lower_spec in E; [|lowercase_words].
    split; [tauto|]. split; [split; [discriminate|tauto]|exact Hrun].
  - apply any_word_in_lower_false in E; [|lowercase_words].
    split; [split; [discriminate|tauto]|]. split; [tauto|exact Hrun].
Qed.

(** ** Tool routing *)

Lemma has_tool_not_upload (task : Task) :
  has_tool task = negb (is_video_upload task).
Proof. unfold has_tool, is_video_upload. now destruct (Task.task_type task). Qed.

Lemma route_loop_run (tasks : list Task) (acc : list (string * string)) (s : St) :
  forallb has_tool tasks = true ->
  for_each tasks acc (fun task tool_mapping =>
    tool ← tools_getitem (Task.task_type task);
    ret (dict_set (Task.id task) (Tool.name tool) tool_mapping)) s
  = (Ok (routed tasks acc), s).
Proof.
  revert acc. induction tasks as [|task tasks IH]; intros acc H; [reflexivity|].
  simpl in H. apply andb_true_iff in H as [Ht Hts]. simpl.
  unfold has_tool in Ht. unfold routed. simpl. unfold tool_name_of.
  destruct (tools (Task.task_type task)) as [tool|] eqn:Htool; [|discriminate].
  rewrite (bind_run _ _ _ s _
             (bind_run _ _ _ s _ (tools_getitem_run _ _ s Htool))).
  now apply IH.
Qed.

Lemma route_loop_raise (tasks : list Task) (acc : list (string * string)) (s : St) :
  existsb is_video_upload tasks = true ->
  for_each tasks acc (fun task tool_mapping =>
    tool ← tools_getitem (Task.task_type task);
    ret (dict_set (Task.id task) (Tool.name tool) tool_mapping)) s
  = (Raise (mkExn "KeyError" "<TaskType.VIDEO_UPLOAD: 'video_upload'>"), s).
Proof.
  revert acc. induction tasks as [|task tasks IH]; intros acc H; [discriminate|].
  simpl in H. simpl.
  destruct (tools (Task.task_type task)) as [tool|] eqn:Htool.
  - rewrite (bind_run _ _ _ s _
               (bind_run _ _ _ s _ (tools_getitem_run _ _ s Htool))).
    apply IH. unfold is_video_upload in H at 1.
    destruct (Task.task_type task); try discriminate Htool; exact H.
  - assert (Task.task_type task = VIDEO_UPLOAD) as Hty
      by (destruct (Task.task_type task); try discriminate Htool; reflexivity).
    unfold mbind, M_bind, bind, tools_getitem. now rewrite Hty.
Qed.

Lemma routed_get_other (tasks : list Task) (acc : list (string * string))
    (k : string) :
  (forall task, task ∈ tasks -> Task.id task <> k) ->
  dict_get k (routed tasks acc) = dict_get k acc.
Proof.
  revert acc. induction tasks as [|t tasks IH]; intros acc H; [reflexivity|].
  unfold routed. simpl. fold (routed tasks (dict_set (Task.id t) (tool_name_of t) acc)).
  rewrite IH.
  - apply dict_get_set_ne. apply H. apply elem_of_cons. now left.
  - intros task Hin. apply H. apply elem_of_cons. now right.
Qed.

Lemma routed_get_last (tasks : list Task) (acc : list (string * string))
    (i : nat) (task : Task) :
  tasks !! i = Some task ->
  (forall j task', (i < j)%nat -> tasks !! j = Some task' ->
                   Task.id task' <> Task.id task) ->
  dict_get (Task.id task) (routed tasks acc) = Some (tool_name_of task).
Proof.
  revert acc i. induction tasks as [|t tasks IH]; intros acc i Hi Hlast;
    [discriminate|].
  unfold routed. simpl. fold (routed tasks (dict_set (Task.id t) (tool_name_of t) acc)).
  destruct i as [|i]; simpl in Hi.
  - injection Hi as ->. rewrite routed_get_other; [apply dict_get_set_eq|].
    intros task' Hin. apply list_elem_of_lookup in Hin as [j Hj].
    apply (Hlast (S j)); [lia|exact Hj].
  - apply (IH _ i Hi). intros j task' Hlt Hj. apply (Hlast (S j)); [lia|exact Hj].
Qed.

Lemma routed_get_inv (tasks : list Task) (acc : list (string * string))
    (k name : string) :
  dict_get k (routed tasks acc) = Some name ->
  dict_get k acc = Some name \/
  exists task, task ∈ tasks /\ Task.id task = k /\ name = tool_name_of task.
Proof.
  revert acc. induction tasks as [|t tasks IH]; intros acc H; [now left|].
  unfold routed in H. simpl in H.
  apply IH in H as [H|(task & Hin & Hid & Hname)].
  - destruct (decide (Task.id t = k)) as [Heq|Hne].
    + rewrite Heq, dict_get_set_eq in H. injection H as <-.
      right. exists t. split; [apply elem_of_cons; now left|now split].
    + rewrite dict_get_set_ne in H by exact Hne. now left.
  - right. exists task. split; [apply elem_of_cons; now right|now split].
Qed.

Lemma dict_set_new {V : Type} (k : string) (v : V) (d : list (string * V)) :
  k ∉ dict_keys d -> dict_set k v d = d ++ [(k, v)].
Proof.
  unfold dict_keys. induction d as [|[k' v'] d IH]; simpl; intros H; [reflexivity|].
  apply not_elem_of_cons in H as [Hne Hnot].
  destruct (String.eqb_spec k' k) as [->|_]; [contradiction|].
  now rewrite IH.
Qed.

Lemma routed_length (tasks : list Task) (acc : list (string * string)) :
  NoDup (dict_keys acc ++ map Task.id tasks) ->
  length (routed tasks acc) = (length acc + length tasks)%nat.
Proof.
  revert acc. induction tasks as [|t tasks IH]; intros acc Hnd; simpl.
  - unfold routed. simpl. lia.
  - unfold routed. simpl. fold (routed tasks (dict_set (Task.id t) (tool_name_of t) acc)).
    assert (Hnot : Task.id t ∉ dict_keys acc).
    { apply NoDup_app in Hnd as (_ & Hdisj & _). intros Hin.
      apply (Hdisj _ Hin). apply elem_of_cons. now left. }
    rewrite (dict_set_new _ _ _ Hnot). rewrite IH.
    + rewrite length_app. simpl. lia.
    + unfold dict_keys. rewrite map_app. simpl. rewrite <- app_assoc. exact Hnd.
Qed.

Lemma route_tools_cases (tasks : list Task) (s : St) :
  route_tools tasks s
  = if existsb is_video_upload tasks
    then (Raise (mkExn "KeyError" "<TaskType.VIDEO_UPLOAD: 'video_upload'>"), s)
    else (Ok (routed tasks []),
          mkSt (world s) (log s ++ [Info_ToolRoutingCompleted (length tasks)])).
Proof.
  unfold route_tools. destruct (existsb is_video_upload tasks) eqn:E.
  - now rewrite (bind_raise _ _ _ _ _ (route_loop_raise tasks [] s E)).
  - assert (H : forallb has_tool tasks = true).
    { apply forallb_forall. intros t Hin. rewrite has_tool_not_upload.
      apply negb_true_iff. destruct (is_video_upload t) eqn:Et; [|reflexivity].
      assert (existsb is_video_upload tasks = true); [|congruence].
      apply existsb_exists. now exists t. }
    now rewrite (bind_run _ _ _ _ _ (route_loop_run tasks [] s H)).
Qed.

(** X2. When [route_tools] returns, it has logged its one record and nothing
    else has changed; the mapping gives, under the identifier of a task, the
    name of the tool serving the type of the last task that carries that
    identifier; every entry comes from a task of the list; and when the
    identifiers are pairwise distinct there is one entry per task. *)
Theorem route_tools_mapping
    (tasks : list Task) (s s' : St) (tool_mapping : list (string * string)) :
  route_tools tasks s = (Ok tool_mapping, s') ->
  s' = mkSt (world s) (log s ++ [Info_ToolRoutingCompleted (length tasks)]) /\
  (forall i task,
     tasks !! i = Some task ->
     (forall j task', (i < j)%nat -> tasks !! j = Some task' ->
                      Task.id task' <> Task.id task) ->
     exists tool, tools (Task.task_type task) = Some tool /\
                  dict_get (Task.id task) tool_mapping = Some (Tool.name tool)) /\
  (forall k name,
     dict_get k tool_mapping = Some name ->
     exists task tool, task ∈ tasks /\ Task.id task = k /\
                       tools (Task.task_type task) = Some tool /\
                       name = Tool.name tool) /\
  (NoDup (map Task.id tasks) -> length tool_mapping = length tasks).
Proof.
  rewrite route_tools_cases.
  destruct (existsb is_video_upload tasks) eqn:E; [discriminate|].
  intros [= <- <-].
  assert (Hserved : forall task, task ∈ tasks ->
            exists tool, tools (Task.task_type task) = Some tool /\
                         tool_name_of task = Tool.name tool).
  { intros task Hin. unfold tool_name_of.
    destruct (tools (Task.task_type task)) as [tool|] eqn:Htool; [now exists tool|].
    exfalso. assert (existsb is_video_upload tasks = true); [|congruence].
    apply existsb_exists. exists task. split; [now apply list_elem_of_In|].
    unfold is_video_upload.
    destruct (Task.task_type task); try discriminate Htool; reflexivity. }
  split; [reflexivity|]. split; [|split].
  - intros i task Hi Hlast.
    destruct (Hserved task) as (tool & Htool & Hname);
      [now apply list_elem_of_lookup_2 in Hi|].
    exists tool. split; [exact Htool|].
    rewrite <- Hname. now apply (routed_get_last tasks [] i).
  - intros k name Hget.
    apply routed_get_inv in Hget as [Hget|(task & Hin & Hid & Hname)];
      [discriminate|].
    destruct (Hserved task Hin) as (tool & Htool & Hname').
    exists task, tool. repeat split; auto. congruence.
  - intros Hnd. now rewrite routed_length.
Qed.

(** X3. When a task of the list has the type [VIDEO_UPLOAD], for which no
    tool is registered, [route_tools] raises [KeyError] for that member, with
    no record logged and the state as it was. *)
Theorem route_tools_unserved_type (tasks : list Task) (task : Task) (s : St) :
  task ∈ tasks ->
  Task.task_type task = VIDEO_UPLOAD ->
  route_tools tasks s
  = (Raise (mkExn "KeyError" "<TaskType.VIDEO_UPLOAD: 'video_upload'>"), s).
Proof.
  intros Hin Hty. rewrite route_tools_cases.
  assert (existsb is_video_upload tasks = true) as ->; [|reflexivity].
  apply existsb_exists. exists task. split; [now apply list_elem_of_In|].
  unfold is_video_upload. now rewrite Hty.
Qed.

(** ** Executing one task *)

(** X4. [execute_task] on a task of type [VIDEO_UPLOAD] calls no tool: the
    world only sees the two readings of the clock, and the task comes back
    [FAILED] with the [KeyError] text as its error, its cost and tool name
    untouched, after the three log records of a failed execution. *)
Theorem execute_task_without_tool (task : Task) (s : St) :
  Task.task_type task = VIDEO_UPLOAD ->
  let start := datetime_now (world s) in
  let finish := datetime_now start.2 in
  exists task',
    execute_task task s
    = (Ok task',
       mkSt finish.2
            (log s ++ [ Info_ExecutingTask (Task.id task) "video_upload";
                        Error_TaskFailed (Task.id task)
                          "<TaskType.VIDEO_UPLOAD: 'video_upload'>";
                        Info_SavingTask (Task.id task) ])) /\
    Task.status task' = FAILED /\
    Task.output_data task'
      = Some [("error", VStr "<TaskType.VIDEO_UPLOAD: 'video_upload'>")] /\
    Task.tool_used task' = Task.tool_used task /\
    Task.cost_usd task' = Task.cost_usd task /\
    Task.completed_at task' = Some finish.1 /\
    Task.execution_time_seconds task' = ((finish.1 - start.1) ÷ 1000000)%Z.
Proof.
  intros Hty start finish.
  destruct (execute_task_spec task s)
    as (task' & s' & Hrun & Hw & Hc & He & _ & Hout).
  unfold tool_outcome in *. rewrite Hty in *. simpl in *.
  destruct Hout as (Hst & Ho & Ht & Hcost & Hlog).
  exists task'. split; [|now repeat split].
  rewrite Hrun. f_equal. destruct s' as [w l]. simpl in *. now subst.
Qed.

(** X5. The recorded duration is the elapsed time in whole seconds, rounded
    down, whenever the clock did not go back between the start of
    [execute_task] and its [finally] block and the two readings are less
    than 2^52 microseconds apart, whichever way the tool ends. The duration
    is what [int] makes of the float of the elapsed seconds, as in the
    source. *)
Theorem execute_task_duration_bounds
    (invoke : Tool -> Dict -> World -> Invocation * World) (task : Task) (s : St) :
  let start := datetime_now (world s) in
  let outcome := invocation invoke task start.2 in
  let finish := datetime_now outcome.2 in
  (0 <= finish.1 - start.1 < 2 ^ 52)%Z ->
  exists r s',
    execute_task_full invoke task s = (Ok r, s') /\
    Task.execution_time_seconds (outcome_task r)
    = ((finish.1 - start.1) / 1000000)%Z /\
    (0 <= Task.execution_time_seconds (outcome_task r))%Z /\
    (Task.execution_time_seconds (outcome_task r) * 1000000
     <= finish.1 - start.1)%Z /\
    (finish.1 - start.1
     < (Task.execution_time_seconds (outcome_task r) + 1) * 1000000)%Z.
Proof.
  intros start outcome finish Hgap.
  assert (Hseconds : int_of_float (total_seconds (finish.1 - start.1))
                     = Ok ((finish.1 - start.1) ÷ 1000000)%Z)
    by (apply int_total_seconds; lia).
  destruct (execute_task_full_spec invoke task s _ Hseconds)
    as (r & s' & Hrun & _ & _ & He & _).
  exists r, s'. split; [exact Hrun|]. rewrite He.
  rewrite Z.quot_div_nonneg by lia. split; [reflexivity|].
  pose proof (Z.div_mod (finish.1 - start.1) 1000000 ltac:(lia)) as Hdm.
  pose proof (Z.mod_pos_bound (finish.1 - start.1) 1000000 ltac:(lia)) as Hb.
  pose proof (Z.div_pos (finish.1 - start.1) 1000000 ltac:(lia) ltac:(lia)).
  lia.
Qed.

(** ** Plan assembly, in full *)

Ltac run_step tac := erewrite bind_run by tac; cbv beta.

Lemma create_execution_plan_full (goal : string) (project_context : Dict)
    (s : St) (keyword : string) (rest : list string) :
  PyStr.split goal = keyword :: rest ->
  let project_id := py_get "project_id" VNone project_context in
  let tasks := canonical_decomposition 4 (uuid_at (world s)) project_id
                 (py_get "niche" VNone project_context) goal keyword in
  let total_cost := Q_of_float (float_sum (map float_price tasks)) in
  let clock := datetime_now (world_after_uuids 17 (world s)) in
  create_execution_plan goal project_context s
  = (Ok (ExecutionPlan.mk project_id goal tasks total_cost 28%Z
           (routed tasks []) clock.1),
     mkSt clock.2
          (log s ++ [ Info_CreatingPlan goal; Info_AnalyzingGoal goal;
                      Info_Decomposing; Info_ToolRoutingCompleted 17;
                      Info_PlanCreated total_cost 28%Z;
                      Info_SavingPlan project_id ])).
Proof.
  intros Hsplit project_id tasks total_cost clock.
  assert (Htools : forallb has_tool tasks = true) by apply canonical_has_tools.
  unfold create_execution_plan.
  run_step ltac:(apply logger_run).
  run_step ltac:(reflexivity).
  run_step ltac:(apply (decompose_tasks_eq _ _ _ _ _ Hsplit)).
  change (canonical_decomposition 4 _ _ _ goal keyword) with tasks.
  match goal with
  | |- context [(route_tools tasks ≫= _) ?s1] =>
      assert (Hroute : route_tools tasks s1
                = (Ok (routed tasks []),
                   mkSt (world s1)
                        (log s1 ++ [Info_ToolRoutingCompleted (length tasks)])))
        by (rewrite route_tools_cases; reflexivity)
  end.
  run_step ltac:(exact Hroute).
  run_step ltac:(apply (list_comp_modeled_cost _ _ Htools)).
  run_step ltac:(apply estimated_duration_run; reflexivity).
  run_step ltac:(apply now_run).
  run_step ltac:(apply logger_run).
  run_step ltac:(apply logger_run).
  unfold ret. cbn [world log]. rewrite <- !app_assoc. reflexivity.
Qed.

Lemma create_execution_plan_inv (goal : string) (project_context : Dict)
    (s s' : St) (plan : ExecutionPlan) (keyword : string) (rest : list string) :
  PyStr.split goal = keyword :: rest ->
  create_execution_plan goal project_context s = (Ok plan, s') ->
  ExecutionPlan.tasks plan
  = canonical_decomposition 4 (uuid_at (world s))
      (py_get "project_id" VNone project_context)
      (py_get "niche" VNone project_context) goal keyword /\
  ExecutionPlan.tool_mapping plan = routed (ExecutionPlan.tasks plan) [].
Proof.
  intros Hsplit Hrun.
  pose proof (create_execution_plan_full _ project_context s _ _ Hsplit) as Hfull.
  cbv zeta in Hfull.
  match type of Hfull with
  | _ = (Ok ?P, ?S) =>
      set (plan0 := P) in Hfull; set (s0 := S) in Hfull;
      assert (H1 : ExecutionPlan.tasks plan0
                   = canonical_decomposition 4 (uuid_at (world s))
                       (py_get "project_id" VNone project_context)
                       (py_get "niche" VNone project_context) goal keyword)
        by reflexivity;
      assert (H2 : ExecutionPlan.tool_mapping plan0
                   = routed (ExecutionPlan.tasks plan0) []) by reflexivity;
      clearbody plan0 s0
  end.
  rewrite Hfull in Hrun. injection Hrun as <- _. now split.
Qed.

(** X6. For a goal with a word, [create_execution_plan] draws exactly 17
    identifiers and then reads the clock once, logs six records in this order
    (creating, analyzing, decomposing, routing of 17 tasks, plan created,
    plan saved), and returns a plan that carries the caller's project id, the
    goal as given, that clock reading as creation time and an estimated
    duration of 28 minutes. *)
Theorem create_execution_plan_effects
    (goal : string) (project_context : Dict) (s : St) :
  PyStr.all_space goal = false ->
  let clock := datetime_now (world_after_uuids 17 (world s)) in
  exists plan s',
    create_execution_plan goal project_context s = (Ok plan, s') /\
    world s' = clock.2 /\
    log s' = log s
             ++ [ Info_CreatingPlan goal; Info_AnalyzingGoal goal;
                  Info_Decomposing; Info_ToolRoutingCompleted 17;
                  Info_PlanCreated (ExecutionPlan.estimated_cost plan) 28%Z;
                  Info_SavingPlan (py_get "project_id" VNone project_context) ] /\
    ExecutionPlan.project_id plan = py_get "project_id" VNone project_context /\
    ExecutionPlan.goal plan = goal /\
    ExecutionPlan.created_at plan = clock.1 /\
    ExecutionPlan.estimated_duration_minutes plan = 28%Z /\
    (Task.id <$> ExecutionPlan.tasks plan)
      = (uuid_at (world s) <$> seq 0 17).
Proof.
  intros Hword clock.
  destruct (all_space_false_split goal Hword) as (keyword & rest & Hsplit).
  eexists _, _. split; [apply (create_execution_plan_full _ _ _ _ _ Hsplit)|].
  repeat split; reflexivity.
Qed.

(** X7. In a plan returned by [create_execution_plan] whose task identifiers
    are pairwise distinct, the tool mapping has exactly one entry per task:
    the identifier of each task maps to the name of the tool registered for
    its type, and no other key is present. *)
Theorem create_execution_plan_tool_mapping
    (goal : string) (project_context : Dict) (s s' : St) (plan : ExecutionPlan) :
  create_execution_plan goal project_context s = (Ok plan, s') ->
  NoDup (map Task.id (ExecutionPlan.tasks plan)) ->
  length (ExecutionPlan.tool_mapping plan) = 17%nat /\
  (forall task, task ∈ ExecutionPlan.tasks plan ->
     exists tool, tools (Task.task_type task) = Some tool /\
       dict_get (Task.id task) (ExecutionPlan.tool_mapping plan)
       = Some (Tool.name tool)) /\
  (forall k name,
     dict_get k (ExecutionPlan.tool_mapping plan) = Some name ->
     exists task, task ∈ ExecutionPlan.tasks plan /\ Task.id task = k).
Proof.
  intros Hrun Hnd.
  destruct (PyStr.split goal) as [|keyword rest] eqn:Hsplit.
  { destruct (create_execution_plan_blank goal project_context s Hsplit) as [s1 H].
    rewrite H in Hrun. discriminate. }
  destruct (create_execution_plan_inv _ _ _ _ _ _ _ Hsplit Hrun)
    as (Htasks & Hmap).
  rewrite Htasks in Hmap.
  set (tasks := canonical_decomposition 4 _ _ _ _ _) in *.
  clear Hrun. rewrite Htasks in *. rewrite Hmap.
  split; [|split].
  - now rewrite routed_length.
  - intros task Hin. pose proof Hin as Hin2.
    apply list_elem_of_lookup in Hin2 as [i Hi].
    assert (Hserved : exists tool, tools (Task.task_type task) = Some tool /\
                                   tool_name_of task = Tool.name tool).
    { pose proof (canonical_has_tools (uuid_at (world s))
                    (py_get "project_id" VNone project_context)
                    (py_get "niche" VNone project_context) goal keyword) as Hall.
      rewrite forallb_forall in Hall.
      specialize (Hall task (proj1 (list_elem_of_In _ _) Hin)).
      unfold has_tool in Hall. unfold tool_name_of.
      destruct (tools (Task.task_type task)) as [tool|]; [now exists tool|discriminate]. }
    destruct Hserved as (tool & Htool & Hname). exists tool. split; [exact Htool|].
    rewrite <- Hname. apply (routed_get_last tasks [] i task Hi).
    intros j task' Hlt Hj Heq.
    assert (i = j); [|lia].
    eapply NoDup_lookup; [exact Hnd | |].
    + rewrite list_lookup_fmap, Hi. reflexivity.
    + rewrite list_lookup_fmap, Hj. simpl. now rewrite Heq.
  - intros k name Hget.
    apply routed_get_inv in Hget as [Hget|(task & Hin & Hid & _)]; [discriminate|].
    now exists task.
Qed.

(** X8. For an empty or whitespace-only goal, [create_execution_plan] raises
    [IndexError] after it has logged the creating, analyzing and decomposing
    records and drawn one identifier: nothing is routed, the clock is not
    read and no plan is saved. *)
Theorem create_execution_plan_blank_goal
    (goal : string) (project_context : Dict) (s : St) :
  PyStr.all_space goal = true ->
  create_execution_plan goal project_context s
  = (Raise (mkExn "IndexError" "list index out of range"),
     mkSt (world_after_uuids 1 (world s))
          (log s ++ [ Info_CreatingPlan goal; Info_AnalyzingGoal goal;
                      Info_Decomposing ])).
Proof.
  intros Hblank. apply split_nil in Hblank. unfold create_execution_plan.
  run_step ltac:(apply logger_run).
  run_step ltac:(reflexivity).
  erewrite bind_raise by (apply (decompose_tasks_blank _ _ _ Hblank)).
  cbn [world log]. rewrite <- !app_assoc. reflexivity.
Qed.

(** ** What a run writes to the log *)

Lemma count_records_app (f : LogRecord -> bool) (l1 l2 : list LogRecord) :
  count_records f (l1 ++ l2) = (count_records f l1 + count_records f l2)%nat.
Proof. unfold count_records. now rewrite List.filter_app, length_app. Qed.

Lemma batch_records_app (n m : nat) (l1 l2 : list LogRecord) :
  batch_records n l1 -> batch_records m l2 -> batch_records (n + m) (l1 ++ l2).
Proof.
  intros (H1 & H2 & H3) (H4 & H5 & H6). split; [|split].
  - rewrite forallb_app. now rewrite H1, H4.
  - rewrite count_records_app. lia.
  - rewrite count_records_app. lia.
Qed.

Lemma execute_task_records (task : Task) (s : St) :
  exists task' s' records,
    execute_task task s = (Ok task', s') /\
    log s' = log s ++ records /\ batch_records 1 records.
Proof.
  destruct (execute_task_spec task s)
    as (task' & s' & Hrun & _ & _ & _ & _ & Hout).
  destruct (tool_outcome task (datetime_now (world s)).2).1 as [[[? ?] ?]|?];
    destruct Hout as (_ & _ & _ & _ & Hlog);
    eexists task', s', _; (split; [exact Hrun|]); (split; [exact Hlog|]);
    repeat split.
Qed.

Lemma count_pending_single (tasks tasks' : list Task) (i : nat) (t t' : Task) :
  length tasks' = length tasks ->
  tasks !! i = Some t -> tasks' !! i = Some t' ->
  Task.status t = PENDING -> Task.status t' <> PENDING ->
  (forall j, j <> i -> tasks' !! j = tasks !! j) ->
  count_pending tasks = S (count_pending tasks').
Proof.
  revert tasks' i.
  induction tasks as [|t1 tasks IH]; intros [|t1' tasks'] i Hlen Hi Hi' Hp Hnp Hsame;
    try discriminate.
  rewrite !count_pending_cons. destruct i as [|i]; simpl in Hi, Hi'.
  - injection Hi as ->. injection Hi' as ->.
    assert (tasks' = tasks) as ->.
    { apply list_eq. intros j. apply (Hsame (S j)). lia. }
    rewrite Hp. simpl.
    destruct (TaskStatus_eqb (Task.status t') PENDING) eqn:E; [|reflexivity].
    apply TaskStatus_eqb_eq in E. contradiction.
  - assert (t1' = t1) as ->.
    { pose proof (Hsame 0%nat ltac:(lia)) as H0. simpl in H0. congruence. }
    rewrite (IH tasks' i); auto.
    intros j Hne. apply (Hsame (S j)). lia.
Qed.

(** A batch over distinct pending tasks lowers the number of pending tasks by
    its length, and logs one execution and one save for each. *)
Lemma batch_accounting (l : list nat) (tasks tasks' : list Task) (s s' : St) :
  NoDup l ->
  (forall i, i ∈ l -> exists t, tasks !! i = Some t /\ Task.status t = PENDING) ->
  for_each l tasks execute_task_ref s = (Ok tasks', s') ->
  count_pending tasks = (count_pending tasks' + length l)%nat /\
  exists records, log s' = log s ++ records /\ batch_records (length l) records.
Proof.
  revert tasks s. induction l as [|i l IH]; intros tasks s Hnd Hpend Hrun.
  - injection Hrun as <- <-. split; [simpl; lia|].
    exists []. rewrite app_nil_r. repeat split.
  - apply NoDup_cons in Hnd as [Hnot Hnd]. simpl in Hrun.
    destruct (Hpend i) as (t & Hi & Hp); [apply elem_of_cons; now left|].
    destruct (execute_task_records t s) as (t' & s1 & recs1 & Hrun1 & Hlog1 & Hb1).
    destruct (execute_task_terminal t s) as (t'' & s1' & Hrun1' & _ & Hterm).
    rewrite Hrun1 in Hrun1'. injection Hrun1' as <- <-.
    assert (Href : execute_task_ref i tasks s = (Ok (<[i := t']> tasks), s1)).
    { unfold execute_task_ref. rewrite Hi. now rewrite (bind_run _ _ _ _ _ Hrun1). }
    rewrite (bind_run _ _ _ _ _ Href) in Hrun.
    assert (Hlt : (i < length tasks)%nat) by (now apply lookup_lt_Some in Hi).
    destruct (IH (<[i := t']> tasks) s1 Hnd) as (Hcount & recs & Hlog & Hb);
      [|exact Hrun|].
    { intros j Hj. destruct (Hpend j) as (tj & Hjt & Hjp);
        [apply elem_of_cons; now right|].
      exists tj. split; [|exact Hjp].
      rewrite list_lookup_insert_ne; [exact Hjt|]. intros ->. contradiction. }
    split.
    + rewrite (count_pending_single tasks (<[i := t']> tasks) i t t'); auto.
      * simpl. lia.
      * apply length_insert.
      * now apply list_lookup_insert_eq.
      * now apply is_terminal_not_pending.
      * intros j Hne. apply list_lookup_insert_ne. congruence.
    + exists (recs1 ++ recs). split; [now rewrite Hlog, Hlog1, app_assoc|].
      now apply (batch_records_app 1 (length l)).
Qed.

(** Along the loop, the executions logged are as many as the tasks that
    left the pending status. *)
Lemma loop_steps_accounting (st st' : loop_state) :
  rtc loop_step st st' ->
  exists n records,
    count_pending st.1.2 = (count_pending st'.1.2 + n)%nat /\
    log st'.1.1 = log st.1.1 ++ records /\ batch_records n records.
Proof.
  induction 1 as [st|[[s tasks] c] [[s1 tasks1] c1] st' Hstep _ IH].
  - exists 0%nat, []. rewrite app_nil_r. split; [lia|]. repeat split.
  - destruct IH as (n & recs & Hcount & Hlog & Hb). simpl in *.
    apply loop_step_inv in Hstep as (_ & Hrun & _ & _).
    destruct (batch_accounting _ _ _ _ _ (ready_tasks_NoDup tasks c)
                (ready_tasks_pending tasks c) Hrun)
      as (Hcount1 & recs1 & Hlog1 & Hb1).
    exists (length (ready_tasks tasks c) + n)%nat, (recs1 ++ recs).
    split; [lia|]. split; [now rewrite Hlog, Hlog1, app_assoc|].
    now apply batch_records_app.
Qed.

(** What a run of [execute_plan] with enough fuel amounts to. *)
Lemma execute_plan_summary (fuel : nat) (plan : ExecutionPlan) (s : St) :
  (length (ExecutionPlan.tasks plan) < fuel)%nat ->
  exists s1 tasks' completed s2 n records,
    execute_plan fuel plan s
    = (Ok (Some (ExecutionPlan.with_tasks tasks' plan,
                 completed_values tasks' completed)),
       mkSt (world s2)
            (log s2 ++ [Info_PlanExecutionCompleted (length completed)])) /\
    loop_invariant (ExecutionPlan.tasks plan) tasks' completed /\
    loop_exit (s1, tasks', completed) s2 /\
    log s1 = log s ++ [Info_StartingExecution (ExecutionPlan.project_id plan)]
             ++ records /\
    batch_records n records /\
    count_pending (ExecutionPlan.tasks plan) = (count_pending tasks' + n)%nat.
Proof.
  intros Hfuel.
  destruct (execute_plan_run fuel plan s Hfuel)
    as (s1 & tasks' & completed & s2 & Hrun & Hreach & Hexit).
  pose proof (loop_reachable_invariant _ _ _ _ _ Hreach) as Hinv.
  destruct (loop_steps_accounting _ _ Hreach) as (n & recs & Hcount & Hlog & Hb).
  simpl in Hcount, Hlog.
  exists s1, tasks', completed, s2, n, recs.
  split; [exact Hrun|]. split; [exact Hinv|]. split; [exact Hexit|].
  split; [now rewrite Hlog, <- app_assoc|]. now split.
Qed.

(** X9. The log of a run of [execute_plan]: the start record, then for each
    task that the run takes out of the pending status exactly one record of
    execution and one of saving (with the error record of a failure between
    them), nothing else; then the warning exactly when fewer tasks are
    returned than the plan has; then the completion record with the number of
    tasks returned. *)
Theorem execute_plan_log_accounting
    (fuel : nat) (plan : ExecutionPlan) (s : St) :
  (length (ExecutionPlan.tasks plan) < fuel)%nat ->
  exists plan' returned s' n records stall,
    execute_plan fuel plan s = (Ok (Some (plan', returned)), s') /\
    log s' = log s
             ++ [Info_StartingExecution (ExecutionPlan.project_id plan)]
             ++ records ++ stall
             ++ [Info_PlanExecutionCompleted (length returned)] /\
    forallb task_record records = true /\
    count_records is_executing_record records = n /\
    count_records is_saving_record records = n /\
    count_pending (ExecutionPlan.tasks plan)
    = (count_pending (ExecutionPlan.tasks plan') + n)%nat /\
    ((stall = [] /\ length returned = length (ExecutionPlan.tasks plan)) \/
     (stall = [Warning_NoReadyTasks] /\
      (length returned < length (ExecutionPlan.tasks plan))%nat)).
Proof.
  intros Hfuel.
  destruct (execute_plan_summary fuel plan s Hfuel)
    as (s1 & tasks' & completed & s2 & n & recs
        & Hrun & Hinv & Hexit & Hlog & (Hb1 & Hb2 & Hb3) & Hcount).
  pose proof (completed_values_length _ _ _ Hinv) as Hvlen.
  pose proof (completed_le_tasks _ _ _ Hinv) as Hle.
  pose proof Hinv as (Hlen & _).
  eexists _, _, _, n, recs,
    (if (length completed <? length tasks')%nat then [Warning_NoReadyTasks] else []).
  split; [exact Hrun|]. rewrite Hvlen. simpl.
  destruct Hexit as [[Hfull ->]|(Hlt & _ & ->)]; simpl.
  - assert ((length completed <? length tasks')%nat = false) as ->
      by (apply Nat.ltb_ge; lia).
    rewrite Hlog. split; [now rewrite <- !app_assoc|].
    repeat (split; [assumption|]). left. split; [reflexivity|lia].
  - assert ((length completed <? length tasks')%nat = true) as ->
      by (now apply Nat.ltb_lt).
    rewrite Hlog. split; [now rewrite <- !app_assoc|].
    repeat (split; [assumption|]). right. split; [reflexivity|lia].
Qed.

(** ** Plans whose dependencies point backwards *)

Lemma count_pending_all (tasks : list Task) :
  Forall (fun task => Task.status task = PENDING) tasks ->
  count_pending tasks = length tasks.
Proof.
  induction 1 as [|t tasks Ht _ IH]; [reflexivity|].
  rewrite count_pending_cons, Ht, IH. reflexivity.
Qed.

Lemma count_pending_none (tasks : list Task) :
  Forall (fun task => is_terminal (Task.status task) = true) tasks ->
  count_pending tasks = 0%nat.
Proof.
  induction 1 as [|t tasks Ht _ IH]; [reflexivity|].
  rewrite count_pending_cons, IH.
  now destruct (Task.status t).
Qed.

Lemma ordered_plan_all_terminal (tasks0 tasks : list Task)
    (completed : list (string * nat)) (s1 s2 : St) :
  loop_invariant tasks0 tasks completed ->
  loop_exit (s1, tasks, completed) s2 ->
  Forall (fun task => Task.status task = PENDING) tasks0 ->
  dependencies_earlier tasks0 ->
  Forall (fun task => is_terminal (Task.status task) = true) tasks.
Proof.
  intros Hinv Hexit Hpend Hdeps.
  pose proof Hinv as (Hlen & HT & _ & HK & _).
  assert (Hall : forall i t0, tasks0 !! i = Some t0 ->
            exists t, tasks !! i = Some t /\ is_terminal (Task.status t) = true).
  { intros i. induction i as [i IH] using lt_wf_ind. intros t0 Hi.
    apply (exit_satisfied_is_terminal tasks0 tasks completed s1 s2 i t0 Hinv Hexit Hi).
    - apply (Forall_lookup_1 _ _ _ _ Hpend Hi).
    - intros d Hd. destruct (Hdeps i t0 d Hi Hd) as (j & dep & Hlt & Hj & Hid).
      destruct (IH j Hlt dep Hj) as (t & Ht & Hterm).
      destruct (HT j dep Hj) as (t' & Ht' & [Hsame _] & _).
      replace t' with t in Hsame by congruence.
      rewrite <- Hid, <- Hsame. apply (HK j dep t Hj Ht); [|exact Hterm].
      apply (Forall_lookup_1 _ _ _ _ Hpend Hj). }
  apply Forall_lookup_2. intros i t Ht.
  assert (is_Some (tasks0 !! i)) as [t0 H0].
  { apply lookup_lt_is_Some. rewrite <- Hlen. now apply lookup_lt_Some in Ht. }
  destruct (Hall i t0 H0) as (t' & Ht' & Hterm). congruence.
Qed.

Lemma dict_mem_keys {V : Type} (k : string) (d : list (string * V)) :
  dict_mem k d = true -> k ∈ dict_keys d.
Proof.
  intros H. apply dict_mem_get in H as [v Hv]. apply dict_get_elem_of in Hv.
  unfold dict_keys. apply list_elem_of_fmap. now exists (k, v).
Qed.

Lemma distinct_ids_all_returned (tasks0 tasks : list Task)
    (completed : list (string * nat)) :
  loop_invariant tasks0 tasks completed ->
  Forall (fun task => Task.status task = PENDING) tasks0 ->
  Forall (fun task => is_terminal (Task.status task) = true) tasks ->
  NoDup (map Task.id tasks0) ->
  length completed = length tasks.
Proof.
  intros Hinv Hpend Hterm Hnd.
  pose proof (completed_le_tasks _ _ _ Hinv) as Hle.
  pose proof Hinv as (Hlen & HT & _ & HK & _).
  assert (Hsub : forall k, k ∈ map Task.id tasks0 -> k ∈ dict_keys completed).
  { intros k Hk. apply list_elem_of_fmap in Hk as (t0 & -> & Hin).
    apply list_elem_of_lookup in Hin as [i Hi].
    destruct (HT i t0 Hi) as (t & Ht & [Hid _] & _).
    rewrite <- Hid. apply dict_mem_keys. apply (HK i t0 t Hi Ht).
    - apply (Forall_lookup_1 _ _ _ _ Hpend Hi).
    - apply (Forall_lookup_1 _ _ _ _ Hterm Ht). }
  pose proof (submseteq_length _ _ (NoDup_submseteq _ _ Hnd Hsub)) as H.
  unfold dict_keys in H. rewrite !length_map in H. lia.
Qed.

(** X10. A plan whose tasks are all pending and depend only on tasks placed
    before them is run to the end whatever the tools do: every task ends
    [COMPLETED] or [FAILED] and each is executed once. When the identifiers
    are pairwise distinct, all the tasks are returned and the loop ends
    without the warning. *)
Theorem execute_plan_completes_ordered_plan
    (fuel : nat) (plan : ExecutionPlan) (s : St) :
  (length (ExecutionPlan.tasks plan) < fuel)%nat ->
  Forall (fun task => Task.status task = PENDING) (ExecutionPlan.tasks plan) ->
  dependencies_earlier (ExecutionPlan.tasks plan) ->
  exists plan' returned s' records stall,
    execute_plan fuel plan s = (Ok (Some (plan', returned)), s') /\
    Forall (fun task => is_terminal (Task.status task) = true)
           (ExecutionPlan.tasks plan') /\
    log s' = log s
             ++ [Info_StartingExecution (ExecutionPlan.project_id plan)]
             ++ records ++ stall
             ++ [Info_PlanExecutionCompleted (length returned)] /\
    forallb task_record records = true /\
    count_records is_executing_record records
    = length (ExecutionPlan.tasks plan) /\
    (NoDup (map Task.id (ExecutionPlan.tasks plan)) ->
     stall = [] /\ length returned = length (ExecutionPlan.tasks plan)).
Proof.
  intros Hfuel Hpend Hdeps.
  destruct (execute_plan_summary fuel plan s Hfuel)
    as (s1 & tasks' & completed & s2 & n & recs
        & Hrun & Hinv & Hexit & Hlog & (Hb1 & Hb2 & Hb3) & Hcount).
  pose proof (ordered_plan_all_terminal _ _ _ _ _ Hinv Hexit Hpend Hdeps) as Hterm.
  pose proof (completed_values_length _ _ _ Hinv) as Hvlen.
  pose proof Hinv as (Hlen & _).
  rewrite (count_pending_all _ Hpend), (count_pending_none _ Hterm) in Hcount.
  eexists _, _, _, recs,
    (if (length completed <? length tasks')%nat then [Warning_NoReadyTasks] else []).
  split; [exact Hrun|]. split; [exact Hterm|]. rewrite Hvlen. simpl.
  split; [|split; [exact Hb1|split; [lia|]]].
  - destruct Hexit as [[Hfull ->]|(Hlt & _ & ->)]; simpl.
    + assert ((length completed <? length tasks')%nat = false) as ->
        by (apply Nat.ltb_ge; lia).
      rewrite Hlog. now rewrite <- !app_assoc.
    + assert ((length completed <? length tasks')%nat = true) as ->
        by (now apply Nat.ltb_lt).
      rewrite Hlog. now rewrite <- !app_assoc.
  - intros Hnd.
    pose proof (distinct_ids_all_returned _ _ _ Hinv Hpend Hterm Hnd) as Hall.
    assert ((length completed <? length tasks')%nat = false) as ->
      by (apply Nat.ltb_ge; lia).
    split; [reflexivity|lia].
Qed.

(** ** What a run leaves untouched, and what it returns *)

Lemma batch_executed (l : list nat) (tasks tasks' : list Task) (s s' : St) :
  NoDup l ->
  for_each l tasks execute_task_ref s = (Ok tasks', s') ->
  forall j task, tasks !! j = Some task ->
    exists task', tasks' !! j = Some task' /\
      (j ∈ l -> executed_from task task') /\ (j ∉ l -> task' = task).
Proof.
  revert tasks s. induction l as [|i l IH]; intros tasks s Hnd Hrun j task Hj.
  - injection Hrun as <- <-. exists task. split; [exact Hj|].
    split; [intros Hin; now apply elem_of_nil in Hin|reflexivity].
  - apply NoDup_cons in Hnd as [Hnot Hnd]. simpl in Hrun.
    destruct (tasks !! i) as [ti|] eqn:Hi.
    + destruct (execute_task_terminal ti s) as (ti' & s1 & Hrun1 & _).
      assert (Href : execute_task_ref i tasks s = (Ok (<[i := ti']> tasks), s1)).
      { unfold execute_task_ref. rewrite Hi. now rewrite (bind_run _ _ _ _ _ Hrun1). }
      rewrite (bind_run _ _ _ _ _ Href) in Hrun.
      destruct (decide (j = i)) as [->|Hne].
      * assert (Hi' : <[i := ti']> tasks !! i = Some ti').
        { apply list_lookup_insert_eq. now apply lookup_lt_Some in Hi. }
        destruct (IH _ _ Hnd Hrun i ti' Hi') as (t' & Ht' & _ & Hsame).
        exists t'. split; [exact Ht'|]. rewrite (Hsame Hnot).
        replace task with ti by congruence.
        split; [intros _; now exists s, s1|].
        intros Hout. exfalso. apply Hout, elem_of_cons. now left.
      * assert (Hj' : <[i := ti']> tasks !! j = Some task)
          by (rewrite list_lookup_insert_ne; [exact Hj|congruence]).
        destruct (IH _ _ Hnd Hrun j task Hj') as (t' & Ht' & Hin & Hout).
        exists t'. split; [exact Ht'|]. split.
        -- intros Hjl. apply elem_of_cons in Hjl as [->|Hjl]; [contradiction|auto].
        -- intros Hjl. apply Hout. intros Hl. apply Hjl, elem_of_cons. now right.
    + assert (Href : execute_task_ref i tasks s = (Ok tasks, s)).
      { unfold execute_task_ref. now rewrite Hi. }
      rewrite (bind_run _ _ _ _ _ Href) in Hrun.
      destruct (IH _ _ Hnd Hrun j task Hj) as (t' & Ht' & Hin & Hout).
      exists t'. split; [exact Ht'|]. split.
      * intros Hjl. apply elem_of_cons in Hjl as [->|Hjl]; [congruence|auto].
      * intros Hjl. apply Hout. intros Hl. apply Hjl, elem_of_cons. now right.
Qed.

(** Along the loop a task is left as it is or, being pending, is replaced by
    what one call of [execute_task] on it returns; it is not touched again. *)
Lemma loop_steps_executed (st st' : loop_state) :
  rtc loop_step st st' ->
  forall j task, st.1.2 !! j = Some task ->
    exists task', st'.1.2 !! j = Some task' /\
      (task' = task \/ (Task.status task = PENDING /\ executed_from task task')).
Proof.
  induction 1 as [st|[[s tasks] c] [[s1 tasks1] c1] st' Hstep _ IH];
    intros j task Hj.
  - exists task. split; [exact Hj|now left].
  - simpl in *. apply loop_step_inv in Hstep as (_ & Hrun & _ & _).
    destruct (batch_executed _ _ _ _ _ (ready_tasks_NoDup tasks c) Hrun j task Hj)
      as (t1 & Ht1 & Hin & Hout).
    destruct (IH j t1 Ht1) as (t' & Ht' & Hcase).
    exists t'. split; [exact Ht'|].
    destruct (decide (j ∈ ready_tasks tasks c)) as [Hjr|Hjr].
    + right. destruct (ready_tasks_pending _ _ _ Hjr) as (tj & Htj & Hp).
      replace tj with task in Hp by congruence. split; [exact Hp|].
      destruct (Hin Hjr) as (sa & sb & Hex).
      destruct (execute_task_terminal task sa) as (t1' & sb' & Hex' & _ & Hterm).
      rewrite Hex in Hex'. injection Hex' as <- <-.
      destruct Hcase as [->|[Hp1 _]]; [now exists sa, sb|].
      rewrite Hp1 in Hterm. discriminate.
    + rewrite (Hout Hjr) in Hcase. exact Hcase.
Qed.

(** X11. A run of [execute_plan] changes nothing of the plan but its tasks,
    keeps their number and order, and never assigns the identity fields of a
    task (id, project, type, input, creation time, dependencies, parallel
    flag). A task that is not pending when the run starts, [IN_PROGRESS]
    included, is left exactly as it was; a pending one is either untouched or
    is, at the end, what a single call of [execute_task] on it returned, and
    terminal. *)
Theorem execute_plan_preserves_identity
    (fuel : nat) (plan : ExecutionPlan) (s : St) :
  (length (ExecutionPlan.tasks plan) < fuel)%nat ->
  exists plan' returned s',
    execute_plan fuel plan s = (Ok (Some (plan', returned)), s') /\
    plan' = ExecutionPlan.with_tasks (ExecutionPlan.tasks plan') plan /\
    length (ExecutionPlan.tasks plan') = length (ExecutionPlan.tasks plan) /\
    (forall i task,
       ExecutionPlan.tasks plan !! i = Some task ->
       exists task',
         ExecutionPlan.tasks plan' !! i = Some task' /\
         same_identity task task' /\
         (Task.status task <> PENDING -> task' = task) /\
         (task' = task \/
          (is_terminal (Task.status task') = true /\
           exists s1 s2, execute_task task s1 = (Ok task', s2)))).
Proof.
  intros Hfuel.
  destruct (execute_plan_run fuel plan s Hfuel)
    as (s1 & tasks' & completed & s2 & Hrun & Hreach & _).
  pose proof (loop_reachable_invariant _ _ _ _ _ Hreach) as (Hlen & HT & _).
  pose proof (loop_steps_executed _ _ Hreach) as Hex. simpl in Hex.
  eexists _, _, _. split; [exact Hrun|]. split; [reflexivity|].
  split; [exact Hlen|]. simpl.
  intros i task Hi. destruct (HT i task Hi) as (task' & Hi' & Hid & Hcase).
  destruct (Hex i task Hi) as (task'' & Hi'' & Hcase').
  replace task'' with task' in Hcase' by congruence.
  exists task'. split; [exact Hi'|]. split; [exact Hid|]. split.
  - destruct Hcase as [->|[Hp Hterm]]; auto. contradiction.
  - destruct Hcase' as [->|[Hp Hexec]]; [now left|].
    destruct Hcase as [->|[_ Hterm]]; [now left|]. right. split; [exact Hterm|].
    exact Hexec.
Qed.

Lemma completed_values_ids (tasks0 tasks : list Task)
    (completed : list (string * nat)) :
  loop_invariant tasks0 tasks completed ->
  (Task.id <$> completed_values tasks completed) = dict_keys completed.
Proof.
  intros (_ & _ & HC & _ & HN). unfold completed_values, dict_values, dict_keys.
  assert (Hall : forall k j, (k, j) ∈ completed ->
            exists t, tasks !! j = Some t /\ Task.id t = k).
  { intros k j Hin. apply (dict_elem_of_get _ _ _ HN) in Hin.
    destruct (HC k j Hin) as (_ & t & _ & Ht & Hid & _). now exists t. }
  clear HC HN. induction completed as [|[k j] completed IH]; [reflexivity|].
  simpl. destruct (Hall k j) as (t & Ht & Hid); [apply elem_of_cons; now left|].
  rewrite Ht. simpl. rewrite Hid. f_equal. apply IH.
  intros k' j' Hin. apply (Hall k' j'). apply elem_of_cons. now right.
Qed.

(** X12. The list that [execute_plan] returns holds no two tasks with the
    same identifier, even when the plan does; each of them was pending when
    the run started and is a terminal task of the plan at the end. *)
Theorem execute_plan_returns_distinct_ids
    (fuel : nat) (plan : ExecutionPlan) (s : St) :
  (length (ExecutionPlan.tasks plan) < fuel)%nat ->
  exists plan' returned s',
    execute_plan fuel plan s = (Ok (Some (plan', returned)), s') /\
    NoDup (Task.id <$> returned) /\
    (forall r, r ∈ returned ->
       exists i task0,
         ExecutionPlan.tasks plan !! i = Some task0 /\
         Task.status task0 = PENDING /\
         ExecutionPlan.tasks plan' !! i = Some r /\
         is_terminal (Task.status r) = true).
Proof.
  intros Hfuel.
  destruct (execute_plan_summary fuel plan s Hfuel)
    as (s1 & tasks' & completed & s2 & n & recs & Hrun & Hinv & _).
  eexists _, _, _. split; [exact Hrun|]. split.
  - rewrite (completed_values_ids _ _ _ Hinv). apply Hinv.
  - intros r Hr. apply (completed_values_elem_of _ _ _ _ Hinv) in Hr as (j & Hget & Hj).
    destruct Hinv as (_ & _ & HC & _).
    destruct (HC _ _ Hget) as (t0 & t & H0 & Ht & _ & Hp & Hterm).
    exists j, t0. simpl. replace r with t by congruence. now repeat split.
Qed.

(** ** Running a plan as [create_execution_plan] builds it *)

Lemma canonical_all_pending (uid : nat -> string) (pid niche : PyVal)
    (goal keyword : string) :
  Forall (fun task => Task.status task = PENDING)
         (canonical_decomposition 4 uid pid niche goal keyword).
Proof. repeat constructor. Qed.

(** X13. A plan returned by [create_execution_plan] with pairwise distinct
    task identifiers is run to the end by [execute_plan], from any state and
    whatever the tools do: the 17 tasks are executed once each, all end
    [COMPLETED] or [FAILED], all 17 are returned, and the loop ends without
    the warning. *)
Theorem created_plan_runs_to_completion
    (goal : string) (project_context : Dict) (s s1 s2 : St)
    (plan : ExecutionPlan) (fuel : nat) :
  create_execution_plan goal project_context s = (Ok plan, s1) ->
  NoDup (map Task.id (ExecutionPlan.tasks plan)) ->
  (17 < fuel)%nat ->
  exists plan' returned s' records,
    execute_plan fuel plan s2 = (Ok (Some (plan', returned)), s') /\
    length returned = 17%nat /\
    Forall (fun task => is_terminal (Task.status task) = true) returned /\
    Forall (fun task => is_terminal (Task.status task) = true)
           (ExecutionPlan.tasks plan') /\
    log s' = log s2
             ++ [Info_StartingExecution (ExecutionPlan.project_id plan)]
             ++ records ++ [Info_PlanExecutionCompleted 17] /\
    forallb task_record records = true /\
    count_records is_executing_record records = 17%nat.
Proof.
  intros Hcreate Hnd Hfuel.
  destruct (PyStr.split goal) as [|keyword rest] eqn:Hsplit.
  { destruct (create_execution_plan_blank goal project_context s Hsplit) as [s0 H].
    rewrite H in Hcreate. discriminate. }
  destruct (create_execution_plan_inv _ _ _ _ _ _ _ Hsplit Hcreate)
    as (Htasks & _).
  set (tasks := canonical_decomposition 4 _ _ _ _ _) in *.
  clear Hcreate.
  assert (Hlen17 : length tasks = 17%nat) by reflexivity.
  assert (Hpend : Forall (fun task => Task.status task = PENDING) tasks)
    by apply canonical_all_pending.
  assert (Hdeps : dependencies_earlier tasks).
  { intros i task d Hi Hd. now apply (canonical_dependency_earlier _ _ _ _ _ i task). }
  destruct (execute_plan_summary fuel plan s2)
    as (s3 & tasks' & completed & s4 & n & recs
        & Hrun & Hinv & Hexit & Hlog & (Hb1 & Hb2 & Hb3) & Hcount);
    [rewrite Htasks; lia|].
  rewrite Htasks in *.
  pose proof (ordered_plan_all_terminal _ _ _ _ _ Hinv Hexit Hpend Hdeps) as Hterm.
  pose proof (completed_values_length _ _ _ Hinv) as Hvlen.
  pose proof (distinct_ids_all_returned _ _ _ Hinv Hpend Hterm Hnd) as Hall.
  pose proof Hinv as (Hlen & _).
  rewrite (count_pending_all _ Hpend), (count_pending_none _ Hterm) in Hcount.
  eexists _, _, _, recs. split; [exact Hrun|].
  split; [lia|]. split; [|split; [exact Hterm|]].
  - apply Forall_forall. intros r Hr.
    apply (completed_values_elem_of _ _ _ _ Hinv) in Hr as (j & _ & Hj).
    apply (Forall_lookup_1 _ _ _ _ Hterm Hj).
  - simpl. replace (length completed) with 17%nat by lia.
    split; [|split; [exact Hb1|lia]].
    destruct Hexit as [[_ ->]|(Hlt & _ & _)]; [|lia].
    rewrite Hlog. now rewrite <- !app_assoc.
Qed.

End MoreProperties.

(** ** Serialisation *)

Section SerializationProperties.

Variable isoformat : Z -> string.

Lemma TaskType_value_inj (a b : TaskType) :
  TaskType_value a = TaskType_value b -> a = b.
Proof. destruct a, b; simpl; intros H; try reflexivity; discriminate. Qed.

Lemma TaskStatus_value_inj (a b : TaskStatus) :
  TaskStatus_value a = TaskStatus_value b -> a = b.
Proof. destruct a, b; simpl; intros H; try reflexivity; discriminate. Qed.

Lemma map_VStr_inj (l1 l2 : list string) : map VStr l1 = map VStr l2 -> l1 = l2.
Proof.
  revert l2. induction l1 as [|x l1 IH]; intros [|y l2] H; simpl in H;
    try discriminate; [reflexivity|].
  injection H as -> H. f_equal. now apply IH.
Qed.

Lemma py_option_VDict_inj (o1 o2 : option Dict) :
  py_option VDict o1 = py_option VDict o2 -> o1 = o2.
Proof. destruct o1, o2; simpl; intros H; congruence. Qed.

Lemma py_option_VStr_inj (o1 o2 : option string) :
  py_option VStr o1 = py_option VStr o2 -> o1 = o2.
Proof. destruct o1, o2; simpl; intros H; congruence. Qed.

Lemma py_option_list_inj (o1 o2 : option (list string)) :
  py_option (fun l => VList (map VStr l)) o1
  = py_option (fun l => VList (map VStr l)) o2 -> o1 = o2.
Proof.
  destruct o1, o2; simpl; intros H; try congruence.
  injection H as H. f_equal. now apply map_VStr_inj.
Qed.

Lemma py_option_time (o1 o2 : option Z) :
  py_option (fun t => VStr (isoformat t)) o1
  = py_option (fun t => VStr (isoformat t)) o2 ->
  (isoformat <$> o1) = (isoformat <$> o2).
Proof. destruct o1, o2; simpl; intros H; congruence. Qed.

Lemma option_fmap_inj (o1 o2 : option Z) :
  (forall a b, isoformat a = isoformat b -> a = b) ->
  (isoformat <$> o1) = (isoformat <$> o2) -> o1 = o2.
Proof.
  intros Hinj. destruct o1, o2; simpl; intros H; try congruence.
  injection H as H. f_equal. now apply Hinj.
Qed.

Lemma Task_to_dict_same (t1 t2 : Task) :
  Task_to_dict isoformat t1 = Task_to_dict isoformat t2 ->
  same_serialized isoformat t1 t2.
Proof.
  unfold Task_to_dict. intros H.
  injection H as Hid Hpid Htype Hstatus Hin Hout Htool Hcost Htime Hc Hd Hdeps Hpar.
  unfold same_serialized.
  repeat split; auto using TaskType_value_inj, TaskStatus_value_inj,
    py_option_VDict_inj, py_option_VStr_inj, py_option_list_inj, py_option_time.
Qed.

Lemma same_serialized_eq (t1 t2 : Task) :
  (forall a b, isoformat a = isoformat b -> a = b) ->
  same_serialized isoformat t1 t2 -> t1 = t2.
Proof.
  intros Hinj (H1 & H2 & H3 & H4 & H5 & H6 & H7 & H8 & H9 & H10 & H11 & H12 & H13).
  apply (option_fmap_inj _ _ Hinj) in H10, H11.
  destruct t1, t2; simpl in *. subst. reflexivity.
Qed.

Lemma same_serialized_refl (task : Task) : same_serialized isoformat task task.
Proof. unfold same_serialized. tauto. Qed.

Lemma same_serialized_to_dict (t1 t2 : Task) :
  same_serialized isoformat t1 t2 ->
  Task_to_dict isoformat t1 = Task_to_dict isoformat t2.
Proof.
  intros (H1 & H2 & H3 & H4 & H5 & H6 & H7 & H8 & H9 & H10 & H11 & H12 & H13).
  unfold Task_to_dict. rewrite H1, H2, H3, H4, H5, H6, H7, H8, H9, H12, H13.
  assert (Ht : forall o1 o2 : option Z,
            (isoformat <$> o1) = (isoformat <$> o2) ->
            py_option (fun t => VStr (isoformat t)) o1
            = py_option (fun t => VStr (isoformat t)) o2).
  { intros [a|] [b|] H; simpl in *; congruence. }
  now rewrite (Ht _ _ H10), (Ht _ _ H11).
Qed.

(** X14. [Task.to_dict] loses nothing but the difference between two
    timestamps with the same ISO text: two tasks have the same dictionary
    exactly when they agree on every field, the timestamps up to their text;
    with an injective [isoformat], two tasks with the same dictionary are the
    same task. *)
Theorem Task_to_dict_lossless (t1 t2 : Task) :
  (Task_to_dict isoformat t1 = Task_to_dict isoformat t2
   <-> same_serialized isoformat t1 t2) /\
  ((forall a b, isoformat a = isoformat b -> a = b) ->
   Task_to_dict isoformat t1 = Task_to_dict isoformat t2 -> t1 = t2).
Proof.
  split; [split|].
  - apply Task_to_dict_same.
  - apply same_serialized_to_dict.
  - intros Hinj H. apply (same_serialized_eq _ _ Hinj), Task_to_dict_same, H.
Qed.

Lemma map_to_dict_same (l1 l2 : list Task) :
  map (fun task => VDict (Task_to_dict isoformat task)) l1
  = map (fun task => VDict (Task_to_dict isoformat task)) l2 ->
  Forall2 (same_serialized isoformat) l1 l2.
Proof.
  revert l2. induction l1 as [|x l1 IH]; intros [|y l2] H; cbn [map] in H;
    try discriminate; [constructor|].
  assert (Hx : Task_to_dict isoformat x = Task_to_dict isoformat y) by congruence.
  assert (Hl : map (fun task => VDict (Task_to_dict isoformat task)) l1
               = map (fun task => VDict (Task_to_dict isoformat task)) l2)
    by congruence.
  constructor; [now apply Task_to_dict_same|now apply IH].
Qed.

Lemma Forall2_same_serialized_eq (l1 l2 : list Task) :
  (forall a b, isoformat a = isoformat b -> a = b) ->
  Forall2 (same_serialized isoformat) l1 l2 -> l1 = l2.
Proof.
  intros Hinj H. induction H as [|x y l1 l2 Hxy _ IH]; [reflexivity|].
  f_equal; [now apply same_serialized_eq|exact IH].
Qed.

Lemma map_mapping_inj (m1 m2 : list (string * string)) :
  map (fun kv : string * string => (kv.1, VStr kv.2)) m1
  = map (fun kv : string * string => (kv.1, VStr kv.2)) m2 -> m1 = m2.
Proof.
  revert m2. induction m1 as [|[k v] m1 IH]; intros [|[k' v'] m2] H; simpl in H;
    try discriminate; [reflexivity|].
  injection H as -> -> H. f_equal. now apply IH.
Qed.

(** X15. [ExecutionPlan.to_dict] determines the plan: two plans with the same
    dictionary agree on every field and, task by task, on every field of
    their tasks, the timestamps up to their ISO text; with an injective
    [isoformat] they are the same plan. *)
Theorem ExecutionPlan_to_dict_lossless (p1 p2 : ExecutionPlan) :
  ExecutionPlan_to_dict isoformat p1 = ExecutionPlan_to_dict isoformat p2 ->
  same_serialized_plan isoformat p1 p2 /\
  ((forall a b, isoformat a = isoformat b -> a = b) -> p1 = p2).
Proof.
  unfold ExecutionPlan_to_dict. intros H.
  injection H as Hpid Hgoal Htasks Hcost Hdur Hmap Hat.
  apply map_to_dict_same in Htasks. apply map_mapping_inj in Hmap.
  split; [unfold same_serialized_plan; tauto|].
  intros Hinj. apply Hinj in Hat.
  apply (Forall2_same_serialized_eq _ _ Hinj) in Htasks.
  destruct p1, p2; simpl in *. congruence.
Qed.

End SerializationProperties.

(** ** What the serialised results show *)

Section SerializedResults.

Context {RT : Runtime}.
Variable isoformat : Z -> string.

(** X16. The dictionary of a task after [execute_task], against the one
    before: the keys are the same, the status is "completed" or "failed",
    [completed_at] is the text of the second clock reading, and the entries
    of the identity fields are unchanged; after a failure the tool and the
    cost are unchanged too, and [output_data] holds the error text alone. *)
Theorem executed_task_to_dict (task : Task) (s : St) :
  let start := datetime_now (world s) in
  let finish := datetime_now (tool_outcome task start.2).2 in
  exists task' s',
    execute_task task s = (Ok task', s') /\
    let d := Task_to_dict isoformat task in
    let d' := Task_to_dict isoformat task' in
    dict_keys d' = dict_keys d /\
    dict_get "completed_at" d' = Some (VStr (isoformat finish.1)) /\
    (forall k,
       k ∈ ["id"; "project_id"; "task_type"; "input_data"; "created_at";
            "dependencies"; "is_parallel"] ->
       dict_get k d' = dict_get k d) /\
    (dict_get "status" d' = Some (VStr "completed") \/
     dict_get "status" d' = Some (VStr "failed") /\
     dict_get "tool_used" d' = dict_get "tool_used" d /\
     dict_get "cost_usd" d' = dict_get "cost_usd" d /\
     exists message,
       dict_get "output_data" d' = Some (VDict [("error", VStr message)])).
Proof.
  intros start finish.
  destruct (execute_task_spec task s)
    as (task' & s' & Hrun & _ & Hat & _ & Hid & Hcase).
  exists task', s'. split; [exact Hrun|].
  destruct Hid as (H1 & H2 & H3 & H4 & H5 & H6 & H7).
  cbv zeta. split; [reflexivity|]. split.
  { cbn. now rewrite Hat. }
  split.
  - intros k Hk.
    repeat (apply elem_of_cons in Hk as [->|Hk]); cbn;
      try (rewrite ?H1, ?H2, ?H3, ?H4, ?H5, ?H6, ?H7; reflexivity).
    now apply elem_of_nil in Hk.
  - destruct (tool_outcome task (datetime_now (world s)).2).1
      as [[[tool output_data] cost]|e].
    + left. destruct Hcase as (Hs & _). unfold Task_to_dict. now rewrite Hs.
    + right. destruct Hcase as (Hs & Ho & Ht & Hc & _).
      unfold Task_to_dict. rewrite Hs, Ho, Ht, Hc. cbn.
      repeat split. now eexists.
Qed.

Lemma to_dict_tasks (plan : ExecutionPlan) :
  dict_get "tasks" (ExecutionPlan_to_dict isoformat plan)
  = Some (VList (map (fun task => VDict (Task_to_dict isoformat task))
                     (ExecutionPlan.tasks plan))).
Proof. reflexivity. Qed.

(** A task as [decompose_tasks] creates it: pending, with nothing recorded
    of an execution and no creation time. *)
Lemma canonical_fresh (uid : nat -> string) (pid niche : PyVal)
    (goal keyword : string) :
  Forall (fun task =>
            Task.project_id task = pid /\
            Task.status task = PENDING /\
            Task.output_data task = None /\
            Task.tool_used task = None /\
            Task.cost_usd task = 0%Q /\
            Task.execution_time_seconds task = 0%Z /\
            Task.created_at task = None /\
            Task.completed_at task = None)
         (canonical_decomposition 4 uid pid niche goal keyword).
Proof. repeat constructor. Qed.

(** X17. What [create_execution_plan] followed by [to_dict] hands out for a
    goal with a word: the project of the context, 28 minutes, and a list of
    17 task dictionaries, each of the same project and pending, with no
    output, no tool, cost 0.0, duration 0 and neither a creation nor a
    completion time. *)
Theorem created_plan_to_dict (goal : string) (project_context : Dict) (s : St) :
  PyStr.all_space goal = false ->
  exists plan s' task_dicts,
    create_execution_plan goal project_context s = (Ok plan, s') /\
    let d := ExecutionPlan_to_dict isoformat plan in
    let project_id := py_get "project_id" VNone project_context in
    dict_get "project_id" d = Some project_id /\
    dict_get "goal" d = Some (VStr goal) /\
    dict_get "estimated_duration_minutes" d = Some (VInt 28) /\
    dict_get "tasks" d = Some (VList (map VDict task_dicts)) /\
    length task_dicts = 17%nat /\
    Forall (fun td =>
              dict_get "project_id" td = Some project_id /\
              dict_get "status" td = Some (VStr "pending") /\
              dict_get "output_data" td = Some VNone /\
              dict_get "tool_used" td = Some VNone /\
              dict_get "cost_usd" td = Some (VFloat 0) /\
              dict_get "execution_time_seconds" td = Some (VInt 0) /\
              dict_get "created_at" td = Some VNone /\
              dict_get "completed_at" td = Some VNone)
           task_dicts.
Proof.
  intros Hgoal.
  destruct (all_space_false_split goal Hgoal) as (keyword & rest & Hsplit).
  pose proof (create_execution_plan_full _ project_context s _ _ Hsplit) as Hfull.
  cbv zeta in Hfull.
  set (tasks := canonical_decomposition 4 _ _ _ _ _) in *.
  eexists _, _, (map (Task_to_dict isoformat) tasks).
  split; [exact Hfull|]. cbv zeta.
  split; [reflexivity|]. split; [reflexivity|]. split; [reflexivity|].
  split; [now rewrite (to_dict_tasks (ExecutionPlan.mk _ _ tasks _ _ _ _)), map_map|].
  split; [now rewrite length_map|].
  apply Forall_fmap. eapply Forall_impl; [apply canonical_fresh|].
  intros task (H1 & H2 & H3 & H4 & H5 & H6 & H7 & H8). cbn.
  rewrite H1, H2, H3, H4, H5, H6, H7, H8. repeat split.
Qed.

End SerializedResults.

(** * The tools' own code *)

Lemma tts_duration_table :
  forallb (fun n : nat =>
             match tts_duration_seconds (Z.of_nat n) with
             | Ok d => (d =? (if (n =? 615)%nat then 245
                              else 2 * Z.of_nat n / 5))%Z
             | Raise _ => false
             end) (seq 0 616) = true.
Proof. vm_compute. reflexivity. Qed.

Lemma tts_duration_small (n : nat) :
  (n <= 615)%nat ->
  tts_duration_seconds (Z.of_nat n)
  = Ok (if (n =? 615)%nat then 245 else 2 * Z.of_nat n / 5)%Z.
Proof.
  intros Hn. pose proof tts_duration_table as Htable.
  rewrite forallb_forall in Htable. specialize (Htable n).
  destruct (tts_duration_seconds (Z.of_nat n)) as [d|e].
  - f_equal. apply Z.eqb_eq, Htable, in_seq. lia.
  - discriminate Htable. apply in_seq. lia.
Qed.

Section SourceToolProperties.

Variable RT0 : Runtime.
Variable isoformat : Z -> string.
Variable messages_create : ApiRequest -> @World RT0 -> Res string * @World RT0.

Local Abbreviation SRT := (SourceRuntime RT0 isoformat messages_create).

Lemma research_outcome (task : Task) (w : @World SRT) :
  Task.task_type task = RESEARCH ->
  exists result,
    tool_outcome (RT := SRT) task w
    = (Ok (ResearchTool, result, 0.0%Q),
       (w.1, w.2 ++ [Info_ResearchExecuted
                       (py_get "niche" VNone (Task.input_data task))])) /\
    dict_keys result
    = [ "niche"; "trending_keywords"; "competition_level"; "monthly_searches";
        "top_competitor_avg_views"; "audience_demographics" ] /\
    dict_get "niche" result = Some (py_get "niche" VNone (Task.input_data task)).
Proof.
  intros Htype. unfold tool_outcome. rewrite Htype. cbn.
  eexists. split; [reflexivity|]. split; reflexivity.
Qed.

(** X18. A research task never fails and costs nothing: whatever its input,
    [execute_task] returns it [COMPLETED] by [research_tool] at cost 0.0,
    with the six entries of the canned result and the niche of the input
    (or [None]) among them; the tool draws no identifier and reads no
    clock. *)
Theorem research_task_completes (task : Task) (s : @St SRT) :
  Task.task_type task = RESEARCH ->
  exists task' s' result,
    execute_task (RT := SRT) task s = (Ok task', s') /\
    Task.status task' = COMPLETED /\
    Task.tool_used task' = Some "research_tool" /\
    Task.cost_usd task' = 0.0%Q /\
    Task.output_data task' = Some result /\
    dict_keys result
    = [ "niche"; "trending_keywords"; "competition_level"; "monthly_searches";
        "top_competitor_avg_views"; "audience_demographics" ] /\
    dict_get "niche" result = Some (py_get "niche" VNone (Task.input_data task)) /\
    (world s').1 = (@datetime_now RT0 (@datetime_now RT0 (world s).1).2).2 /\
    (world s').2 = (world s).2
                   ++ [Info_ResearchExecuted
                         (py_get "niche" VNone (Task.input_data task))].
Proof.
  intros Htype.
  destruct (execute_task_spec (RT := SRT) task s)
    as (task' & s' & Hrun & Hworld & _ & _ & _ & Hcase).
  destruct (research_outcome task (@datetime_now SRT (world s)).2 Htype)
    as (result & Hout & Hkeys & Hniche).
  rewrite Hout in Hcase, Hworld. simpl in Hcase, Hworld.
  destruct Hcase as (Hs & Ho & Ht & Hc & _).
  exists task', s', result. rewrite Hworld. now repeat split.
Qed.

Lemma tts_outcome_no_script (task : Task) (w : @World SRT) :
  Task.task_type task = TTS_GENERATION ->
  (forall text, py_get "script" VNone (Task.input_data task) <> VStr text) ->
  tool_outcome (RT := SRT) task w
  = (Raise (mkExn "AttributeError"
              ("'" +:+ type_name (py_get "script" VNone (Task.input_data task))
               +:+ "' object has no attribute 'split'")), w).
Proof.
  intros Htype Hscript. unfold tool_outcome. rewrite Htype. cbn.
  unfold TTSGenerationTool_execute.
  destruct (py_get "script" VNone (Task.input_data task)) as [| | | |text| |];
    try reflexivity.
  now destruct (Hscript text).
Qed.

(** X19. A narration task whose input has no script, or one that is not a
    string, fails: [execute_task] returns it [FAILED] with the text of the
    [AttributeError] on [split] as its only output, logs the failure, and
    leaves the tool, the cost and the tools' log as they were; no identifier
    is drawn. *)
Theorem tts_task_without_script (task : Task) (s : @St SRT) :
  Task.task_type task = TTS_GENERATION ->
  (forall text, py_get "script" VNone (Task.input_data task) <> VStr text) ->
  let message :=
    "'" +:+ type_name (py_get "script" VNone (Task.input_data task))
    +:+ "' object has no attribute 'split'" in
  exists task' s',
    execute_task (RT := SRT) task s = (Ok task', s') /\
    Task.status task' = FAILED /\
    Task.output_data task' = Some [("error", VStr message)] /\
    Task.tool_used task' = Task.tool_used task /\
    Task.cost_usd task' = Task.cost_usd task /\
    log s' = log s ++ [ Info_ExecutingTask (Task.id task) "tts_generation";
                        Error_TaskFailed (Task.id task) message;
                        Info_SavingTask (Task.id task) ] /\
    (world s').1 = (@datetime_now RT0 (@datetime_now RT0 (world s).1).2).2 /\
    (world s').2 = (world s).2.
Proof.
  intros Htype Hscript message.
  destruct (execute_task_spec (RT := SRT) task s)
    as (task' & s' & Hrun & Hworld & _ & _ & _ & Hcase).
  rewrite (tts_outcome_no_script task _ Htype Hscript) in Hcase, Hworld.
  simpl in Hcase, Hworld. rewrite Htype in Hcase.
  destruct Hcase as (Hs & Ho & Ht & Hc & Hlog).
  exists task', s'. rewrite Hworld. now repeat split.
Qed.

Lemma tts_outcome_script (task : Task) (w : @World SRT) (text : string) :
  Task.task_type task = TTS_GENERATION ->
  py_get "script" VNone (Task.input_data task) = VStr text ->
  (length (PyStr.split text) <= 615)%nat ->
  let n := length (PyStr.split text) in
  exists estimated_duration,
    tool_outcome (RT := SRT) task w
    = (Ok (TTSGenerationTool,
           [ ("status", VStr "generated");
             ("audio_url", VStr ("s3://audio/" +:+ (@uuid4 RT0 w.1).1 +:+ ".mp3"));
             ("duration_seconds",
               VInt (if (n =? 615)%nat then 245 else 2 * Z.of_nat n / 5)%Z);
             ("voice", py_get "voice" (VStr "default") (Task.input_data task));
             ("word_count", VInt (Z.of_nat n));
             ("provider", VStr "google") ],
           0.10%Q),
       ((@uuid4 RT0 w.1).2, w.2 ++ [Info_TTSGenerated estimated_duration])).
Proof.
  intros Htype Hscript Hn n.
  pose proof (tts_duration_small n Hn) as Hd.
  unfold tts_duration_seconds in Hd.
  unfold tool_outcome. rewrite Htype. cbn.
  unfold TTSGenerationTool_execute. rewrite Hscript. fold n.
  destruct (int_truediv (Z.of_nat n) 150) as [estimated_duration|e];
    [|discriminate].
  rewrite Hd. exists estimated_duration. reflexivity.
Qed.

(** X20. A narration task with a script of at most 615 words completes at
    cost 0.10, with the audio named after one fresh identifier, the word
    count, and a duration of two fifths of a second per word, rounded down;
    except at 615 words, where the binary arithmetic gives 245 seconds
    for 246. *)
Theorem tts_task_duration (task : Task) (s : @St SRT) (text : string) :
  Task.task_type task = TTS_GENERATION ->
  py_get "script" VNone (Task.input_data task) = VStr text ->
  (length (PyStr.split text) <= 615)%nat ->
  let n := length (PyStr.split text) in
  let w := (@datetime_now RT0 (world s).1).2 in
  exists task' s',
    execute_task (RT := SRT) task s = (Ok task', s') /\
    Task.status task' = COMPLETED /\
    Task.tool_used task' = Some "tts_tool" /\
    Task.cost_usd task' = 0.10%Q /\
    Task.output_data task'
    = Some [ ("status", VStr "generated");
             ("audio_url", VStr ("s3://audio/" +:+ (@uuid4 RT0 w).1 +:+ ".mp3"));
             ("duration_seconds",
               VInt (if (n =? 615)%nat then 245 else 2 * Z.of_nat n / 5)%Z);
             ("voice", py_get "voice" (VStr "default") (Task.input_data task));
             ("word_count", VInt (Z.of_nat n));
             ("provider", VStr "google") ] /\
    (world s').1 = (@datetime_now RT0 (@uuid4 RT0 w).2).2.
Proof.
  intros Htype Hscript Hn n w.
  destruct (execute_task_spec (RT := SRT) task s)
    as (task' & s' & Hrun & Hworld & _ & _ & _ & Hcase).
  destruct (tts_outcome_script task (@datetime_now SRT (world s)).2 text
              Htype Hscript Hn) as (estimated_duration & Hout).
  rewrite Hout in Hcase, Hworld. simpl in Hcase, Hworld.
  destruct Hcase as (Hs & Ho & Ht & Hc & _).
  exists task', s'. rewrite Hworld. now repeat split.
Qed.

Lemma thumbnail_outcome (task : Task) (w : @World SRT) :
  Task.task_type task = THUMBNAIL_GENERATION ->
  let u1 := @uuid4 RT0 w.1 in
  let u2 := @uuid4 RT0 u1.2 in
  let u3 := @uuid4 RT0 u2.2 in
  let generated_at := @datetime_now RT0 u3.2 in
  tool_outcome (RT := SRT) task w
  = (Ok (ThumbnailGenerationTool,
         [ ("title", py_get "title" VNone (Task.input_data task));
           ("thumbnails_generated", VInt 3);
           ("urls",
             VList [ VStr ("s3://thumbnails/" +:+ u1.1 +:+ "_v1.jpg");
                     VStr ("s3://thumbnails/" +:+ u2.1 +:+ "_v2.jpg");
                     VStr ("s3://thumbnails/" +:+ u3.1 +:+ "_v3.jpg") ]);
           ("estimated_ctr", VStr "4.8%");
           ("color_scheme", VStr "high-contrast");
           ("generated_at", VStr (isoformat generated_at.1)) ],
         0.72%Q),
     (generated_at.2,
      w.2 ++ [Info_ThumbnailsGenerated
                (py_get "title" VNone (Task.input_data task))])).
Proof.
  intros Htype. unfold tool_outcome. rewrite Htype. reflexivity.
Qed.

(** X21. A thumbnail task never fails and is charged three calls:
    whatever its input, [execute_task] returns it [COMPLETED] at cost 0.72,
    three times the price per call of [thumbnail_tool], which is the term
    that [create_execution_plan] counts for it in the estimate; the result
    names three images after three fresh identifiers drawn in order, and the
    tool reads the clock once. *)
Theorem thumbnail_task_charges_three_calls (task : Task) (s : @St SRT) :
  Task.task_type task = THUMBNAIL_GENERATION ->
  let w := (@datetime_now RT0 (world s).1).2 in
  let u1 := @uuid4 RT0 w in
  let u2 := @uuid4 RT0 u1.2 in
  let u3 := @uuid4 RT0 u2.2 in
  let generated_at := @datetime_now RT0 u3.2 in
  exists task' s' result,
    execute_task (RT := SRT) task s = (Ok task', s') /\
    Task.status task' = COMPLETED /\
    Task.tool_used task' = Some "thumbnail_tool" /\
    Task.cost_usd task' = (Tool.cost_per_call ThumbnailGenerationTool * 3)%Q /\
    Task.cost_usd task' = 0.72%Q /\
    Task.cost_usd task' = estimated_price task /\
    Task.output_data task' = Some result /\
    dict_get "thumbnails_generated" result = Some (VInt 3) /\
    dict_get "urls" result
    = Some (VList [ VStr ("s3://thumbnails/" +:+ u1.1 +:+ "_v1.jpg");
                    VStr ("s3://thumbnails/" +:+ u2.1 +:+ "_v2.jpg");
                    VStr ("s3://thumbnails/" +:+ u3.1 +:+ "_v3.jpg") ]) /\
    dict_get "generated_at" result = Some (VStr (isoformat generated_at.1)) /\
    (world s').1 = (@datetime_now RT0 generated_at.2).2.
Proof.
  intros Htype w u1 u2 u3 generated_at.
  destruct (execute_task_spec (RT := SRT) task s)
    as (task' & s' & Hrun & Hworld & _ & _ & _ & Hcase).
  pose proof (thumbnail_outcome task (@datetime_now SRT (world s)).2 Htype)
    as Hout. cbv zeta in Hout.
  rewrite Hout in Hcase, Hworld. simpl in Hcase, Hworld.
  destruct Hcase as (Hs & Ho & Ht & Hc & _).
  eexists task', s', _.
  split; [exact Hrun|]. split; [exact Hs|]. split; [exact Ht|].
  split; [exact Hc|]. split; [exact Hc|].
  split; [unfold estimated_price; rewrite Htype; exact Hc|].
  split; [exact Ho|]. rewrite Hworld. now repeat split.
Qed.

Lemma script_outcome (task : Task) (w : @World SRT) :
  Task.task_type task = SCRIPT_GENERATION ->
  tool_outcome (RT := SRT) task w
  = let r := ScriptGenerationTool_execute RT0 isoformat messages_create
               ScriptGenerationTool (Task.input_data task) w in
    (match r.1 with
     | Ok (output_data, cost) => Ok (ScriptGenerationTool, output_data, cost)
     | Raise e => Raise e
     end, r.2).
Proof. intros Htype. unfold tool_outcome. rewrite Htype. reflexivity. Qed.

(** X23. A script task whose duration, if it is a float, has a finite
    product with 60. If its keywords cannot be joined, it fails with the
    [TypeError] of [join] and the remote model is not called. Otherwise the
    model is called once, with 2000 tokens at most and the prompt of the four
    values: if the call raises an exception (of a class below [Exception], as
    all of [Exn] are), or the duration cannot be multiplied by 60, the task
    fails with that error; if not, it completes at cost 0.50 with the script,
    its number of words, the duration times 60 (in binary64 for a float) and
    the time of one more clock reading. A failed task keeps its tool and
    cost. *)
Theorem script_task_outcome (task : Task) (s : @St SRT) :
  Task.task_type task = SCRIPT_GENERATION ->
  (forall q,
     py_get "duration_minutes" (VInt 5) (Task.input_data task) = VFloat q ->
     float_finite (float_mul (float_of_Q q) (float_of_Q (inject_Z 60)))
     = true) ->
  let input_data := Task.input_data task in
  let title := py_get "title" VNone input_data in
  let keywords := py_get "keywords" (VList []) input_data in
  let tone := py_get "tone" (VStr "professional") input_data in
  let duration_minutes := py_get "duration_minutes" (VInt 5) input_data in
  let w := (@datetime_now RT0 (world s).1).2 in
  let failed (task' : Task) (e : Exn) :=
    Task.status task' = FAILED /\
    Task.output_data task' = Some [("error", VStr (exn_str e))] /\
    Task.tool_used task' = Task.tool_used task /\
    Task.cost_usd task' = Task.cost_usd task in
  exists task' s',
    execute_task (RT := SRT) task s = (Ok task', s') /\
    match py_join ", " keywords with
    | Raise e =>
        failed task' e /\ exn_class e = "TypeError" /\
        (world s').1 = (@datetime_now RT0 w).2
    | Ok joined =>
        let message :=
          messages_create
            (mkApiRequest "claude-3-5-sonnet-20241022" 2000
               (script_prompt (Val title) (Lit joined) (Val tone)
                  (Val duration_minutes))) w in
        match message.1, py_mul_int duration_minutes 60 with
        | Raise e, _ =>
            failed task' e /\ (world s').1 = (@datetime_now RT0 message.2).2
        | Ok _, Raise e =>
            failed task' e /\ (world s').1 = (@datetime_now RT0 message.2).2
        | Ok script_content, Ok seconds =>
            let generated_at := @datetime_now RT0 message.2 in
            Task.status task' = COMPLETED /\
            Task.tool_used task' = Some "script_generation_tool" /\
            Task.cost_usd task' = 0.50%Q /\
            Task.output_data task'
            = Some [ ("title", title);
                     ("script", VStr script_content);
                     ("estimated_duration_seconds", seconds);
                     ("word_count",
                       VInt (Z.of_nat (length (PyStr.split script_content))));
                     ("generated_at", VStr (isoformat generated_at.1)) ] /\
            (world s').1 = (@datetime_now RT0 generated_at.2).2
        end
    end.
Proof.
  intros Htype _ input_data title keywords tone duration_minutes w failed.
  destruct (execute_task_spec (RT := SRT) task s)
    as (task' & s' & Hrun & Hworld & _ & _ & _ & Hcase).
  exists task', s'. split; [exact Hrun|].
  rewrite (script_outcome task _ Htype) in Hcase, Hworld.
  cbv zeta in Hcase, Hworld. unfold ScriptGenerationTool_execute in Hcase, Hworld.
  fold input_data title keywords tone duration_minutes in Hcase, Hworld.
  change ((@datetime_now SRT (world s)).2) with (w, (world s).2) in Hcase, Hworld.
  destruct (py_join ", " keywords) as [joined|e] eqn:Hjoin.
  - cbv zeta in Hcase, Hworld. cbn [fst snd] in Hcase, Hworld. cbv zeta.
    destruct (messages_create _ w) as [[script_content|e] w1]; cbn [fst snd] in *.
    + destruct (py_mul_int duration_minutes 60) as [seconds|e]; cbn [fst snd] in *.
      * destruct Hcase as (Hs & Ho & Ht & Hc & _). rewrite Hworld. now repeat split.
      * destruct Hcase as (Hs & Ho & Ht & Hc & _). rewrite Hworld.
        unfold failed. now repeat split.
    + destruct Hcase as (Hs & Ho & Ht & Hc & _). rewrite Hworld.
      unfold failed. now repeat split.
  - cbn [fst snd] in Hcase, Hworld.
    destruct Hcase as (Hs & Ho & Ht & Hc & _). rewrite Hworld.
    unfold failed. repeat split; auto.
    unfold py_join in Hjoin.
    destruct keywords as [| | | | |l|]; try discriminate Hjoin;
      try (injection Hjoin as <-; reflexivity).
    destruct (str_items 0 l) as [xs|e'] eqn:Hitems; [discriminate|].
    injection Hjoin as <-. clear -Hitems. revert Hitems. generalize 0%nat.
    induction l as [|v l IH]; intros i Hitems; [discriminate|].
    simpl in Hitems.
    destruct v; try (injection Hitems as <-; reflexivity).
    destruct (str_items (S i) l) as [xs|e''] eqn:Hrest; [discriminate|].
    injection Hitems as <-. exact (IH _ Hrest).
Qed.

Lemma seo_outcome (task : Task) (w : @World SRT) :
  Task.task_type task = SEO_OPTIMIZATION ->
  tool_outcome (RT := SRT) task w
  = let r := SEOOptimizationTool_execute RT0 isoformat messages_create
               SEOOptimizationTool (Task.input_data task) w in
    (match r.1 with
     | Ok (output_data, cost) => Ok (SEOOptimizationTool, output_data, cost)
     | Raise e => Raise e
     end, r.2).
Proof. intros Htype. unfold tool_outcome. rewrite Htype. reflexivity. Qed.

(** X24. An SEO task, whatever its input. If its secondary keywords cannot
    be joined, it fails and the remote model is not called. Otherwise the
    model is called once, with 1000 tokens at most: if the call raises, the
    task fails with that error; if not, it completes at cost 0.10 with the
    answer as [seo_metadata], the primary keyword of the input and the time
    of one more clock reading. A failed task keeps its tool and cost. *)
Theorem seo_task_outcome (task : Task) (s : @St SRT) :
  Task.task_type task = SEO_OPTIMIZATION ->
  let input_data := Task.input_data task in
  let title := py_get "title" VNone input_data in
  let primary_keyword := py_get "primary_keyword" VNone input_data in
  let secondary_keywords := py_get "secondary_keywords" (VList []) input_data in
  let w := (@datetime_now RT0 (world s).1).2 in
  let failed (task' : Task) (e : Exn) :=
    Task.status task' = FAILED /\
    Task.output_data task' = Some [("error", VStr (exn_str e))] /\
    Task.tool_used task' = Task.tool_used task /\
    Task.cost_usd task' = Task.cost_usd task in
  exists task' s',
    execute_task (RT := SRT) task s = (Ok task', s') /\
    match py_join ", " secondary_keywords with
    | Raise e => failed task' e /\ (world s').1 = (@datetime_now RT0 w).2
    | Ok joined =>
        let message :=
          messages_create
            (mkApiRequest "claude-3-5-sonnet-20241022" 1000
               (seo_prompt (Val title) (Val primary_keyword) (Lit joined))) w in
        match message.1 with
        | Raise e =>
            failed task' e /\ (world s').1 = (@datetime_now RT0 message.2).2
        | Ok seo_metadata =>
            let generated_at := @datetime_now RT0 message.2 in
            Task.status task' = COMPLETED /\
            Task.tool_used task' = Some "seo_tool" /\
            Task.cost_usd task' = 0.10%Q /\
            Task.output_data task'
            = Some [ ("seo_metadata", VStr seo_metadata);
                     ("primary_keyword", primary_keyword);
                     ("keyword_density", VStr "optimal");
                     ("generated_at", VStr (isoformat generated_at.1)) ] /\
            (world s').1 = (@datetime_now RT0 generated_at.2).2
        end
    end.
Proof.
  intros Htype input_data title primary_keyword secondary_keywords w failed.
  destruct (execute_task_spec (RT := SRT) task s)
    as (task' & s' & Hrun & Hworld & _ & _ & _ & Hcase).
  exists task', s'. split; [exact Hrun|].
  rewrite (seo_outcome task _ Htype) in Hcase, Hworld.
  cbv zeta in Hcase, Hworld. unfold SEOOptimizationTool_execute in Hcase, Hworld.
  fold input_data title primary_keyword secondary_keywords in Hcase, Hworld.
  change ((@datetime_now SRT (world s)).2) with (w, (world s).2) in Hcase, Hworld.
  destruct (py_join ", " secondary_keywords) as [joined|e].
  - cbv zeta in Hcase, Hworld. cbn [fst snd] in Hcase, Hworld. cbv zeta.
    destruct (messages_create _ w) as [[seo_metadata|e] w1]; cbn [fst snd] in *.
    + destruct Hcase as (Hs & Ho & Ht & Hc & _). rewrite Hworld. now repeat split.
    + destruct Hcase as (Hs & Ho & Ht & Hc & _). rewrite Hworld.
      unfold failed. now repeat split.
  - cbn [fst snd] in Hcase, Hworld.
    destruct Hcase as (Hs & Ho & Ht & Hc & _). rewrite Hworld.
    unfold failed. now repeat split.
Qed.

Lemma canonical_tts_input (uid : nat -> string) (pid niche : PyVal)
    (goal keyword : string) :
  Forall (fun task =>
            Task.task_type task = TTS_GENERATION ->
            Task.input_data task
            = [("script", VStr "placeholder"); ("voice", VStr "natural")])
         (canonical_decomposition 4 uid pid niche goal keyword).
Proof. repeat constructor; intros H; discriminate H. Qed.

(** What the tools whose code is local leave on a task. *)
Lemma local_tool_outcome (task task' : Task) (s s' : @St SRT) :
  execute_task (RT := SRT) task s = (Ok task', s') ->
  match Task.task_type task with
  | RESEARCH =>
      Task.status task' = COMPLETED /\ Task.cost_usd task' = 0.0%Q /\
      Task.cost_usd task' = estimated_price task
  | THUMBNAIL_GENERATION =>
      Task.status task' = COMPLETED /\ Task.cost_usd task' = 0.72%Q /\
      Task.cost_usd task' = estimated_price task
  | TTS_GENERATION =>
      Task.input_data task
      = [("script", VStr "placeholder"); ("voice", VStr "natural")] ->
      Task.status task' = COMPLETED /\ Task.cost_usd task' = 0.10%Q /\
      Task.cost_usd task' = estimated_price task /\
      exists result,
        Task.output_data task' = Some result /\
        dict_get "word_count" result = Some (VInt 1) /\
        dict_get "duration_seconds" result = Some (VInt 0)
  | _ => True
  end.
Proof.
  intros Hrun.
  destruct (execute_task_spec (RT := SRT) task s)
    as (task'' & s'' & Hrun' & _ & _ & _ & _ & Hcase).
  rewrite Hrun in Hrun'. injection Hrun' as <- <-.
  destruct (Task.task_type task) eqn:Htype; try exact I.
  - destruct (research_outcome task (@datetime_now SRT (world s)).2 Htype)
      as (result & Hout & _).
    rewrite Hout in Hcase. simpl in Hcase. destruct Hcase as (Hs & _ & _ & Hc & _).
    split; [exact Hs|]. split; [exact Hc|].
    unfold estimated_price. rewrite Htype. exact Hc.
  - intros Hinput.
    assert (Hscript : py_get "script" VNone (Task.input_data task)
                      = VStr "placeholder") by now rewrite Hinput.
    destruct (tts_outcome_script task (@datetime_now SRT (world s)).2 _
                Htype Hscript) as (estimated_duration & Hout);
      [vm_compute; lia|].
    rewrite Hout in Hcase. simpl in Hcase.
    destruct Hcase as (Hs & Ho & _ & Hc & _).
    split; [exact Hs|]. split; [exact Hc|].
    split; [unfold estimated_price; rewrite Htype; exact Hc|].
    eexists. split; [exact Ho|]. split; reflexivity.
  - pose proof (thumbnail_outcome task (@datetime_now SRT (world s)).2 Htype)
      as Hout. cbv zeta in Hout.
    rewrite Hout in Hcase. simpl in Hcase. destruct Hcase as (Hs & _ & _ & Hc & _).
    split; [exact Hs|]. split; [exact Hc|].
    unfold estimated_price. rewrite Htype. exact Hc.
Qed.

(** X22. A plan returned by [create_execution_plan] with distinct task
    identifiers, run by [execute_plan] with the tools' own code, whatever the
    remote model does: the research
    task completes at cost 0.0; each of the four thumbnail tasks completes at
    cost 0.72; each of the four narration tasks completes at cost 0.10 on the
    placeholder its input was created with, one word and 0 seconds, whatever
    the script tasks produced; for each of these nine tasks the cost charged
    is the term counted for it in the estimate; every task ends terminal. *)
Theorem created_plan_local_tools
    (goal : string) (project_context : Dict) (s s1 s2 : @St SRT)
    (plan : ExecutionPlan) (fuel : nat) :
  create_execution_plan (RT := SRT) goal project_context s = (Ok plan, s1) ->
  NoDup (map Task.id (ExecutionPlan.tasks plan)) ->
  (17 < fuel)%nat ->
  exists plan' returned s',
    execute_plan (RT := SRT) fuel plan s2 = (Ok (Some (plan', returned)), s') /\
    length (ExecutionPlan.tasks plan') = 17%nat /\
    (Task.task_type <$> ExecutionPlan.tasks plan')
    = [RESEARCH] ++ replicate 4 SCRIPT_GENERATION ++ replicate 4 TTS_GENERATION
      ++ replicate 4 THUMBNAIL_GENERATION ++ replicate 4 SEO_OPTIMIZATION /\
    Forall (fun task =>
              is_terminal (Task.status task) = true /\
              match Task.task_type task with
              | RESEARCH =>
                  Task.status task = COMPLETED /\ Task.cost_usd task = 0.0%Q /\
                  Task.cost_usd task = estimated_price task
              | THUMBNAIL_GENERATION =>
                  Task.status task = COMPLETED /\ Task.cost_usd task = 0.72%Q /\
                  Task.cost_usd task = estimated_price task
              | TTS_GENERATION =>
                  Task.status task = COMPLETED /\ Task.cost_usd task = 0.10%Q /\
                  Task.cost_usd task = estimated_price task /\
                  exists result,
                    Task.output_data task = Some result /\
                    dict_get "word_count" result = Some (VInt 1) /\
                    dict_get "duration_seconds" result = Some (VInt 0)
              | _ => True
              end)
           (ExecutionPlan.tasks plan').
Proof.
  intros Hcreate Hnd Hfuel.
  destruct (PyStr.split goal) as [|keyword rest] eqn:Hsplit.
  { destruct (create_execution_plan_blank (RT := SRT) goal project_context s Hsplit)
      as [s0 H].
    rewrite H in Hcreate. discriminate. }
  destruct (create_execution_plan_inv (RT := SRT) _ _ _ _ _ _ _ Hsplit Hcreate)
    as (Htasks & _).
  set (tasks := canonical_decomposition 4 _ _ _ _ _) in *.
  clear Hcreate.
  assert (Hpend : Forall (fun task => Task.status task = PENDING) tasks)
    by apply canonical_all_pending.
  assert (Hinput : Forall (fun task =>
            Task.task_type task = TTS_GENERATION ->
            Task.input_data task
            = [("script", VStr "placeholder"); ("voice", VStr "natural")]) tasks)
    by apply canonical_tts_input.
  assert (Hdeps : dependencies_earlier tasks).
  { intros i task d Hi Hd. now apply (canonical_dependency_earlier _ _ _ _ _ i task). }
  destruct (execute_plan_run (RT := SRT) fuel plan s2)
    as (s3 & tasks' & completed & s4 & Hrun & Hreach & Hexit);
    [rewrite Htasks; simpl; lia|].
  rewrite Htasks in *.
  pose proof (loop_reachable_invariant _ _ _ _ _ Hreach) as Hinv.
  pose proof (ordered_plan_all_terminal _ _ _ _ _ Hinv Hexit Hpend Hdeps) as Hterm.
  pose proof (loop_steps_executed _ _ Hreach) as Hex. simpl in Hex.
  pose proof Hinv as (Hlen & HT & _).
  assert (Hall : forall i t0, tasks !! i = Some t0 ->
            exists t', tasks' !! i = Some t' /\
              Task.task_type t' = Task.task_type t0 /\
              Task.input_data t' = Task.input_data t0 /\
              exists sa sb, execute_task (RT := SRT) t0 sa = (Ok t', sb)).
  { intros i t0 Hi. destruct (Hex i t0 Hi) as (t' & Hi' & Hcase).
    destruct (HT i t0 Hi) as (t'' & Hi'' & Hid & _).
    replace t'' with t' in Hid by congruence.
    destruct Hid as (_ & _ & Htype & Hin & _).
    exists t'. split; [exact Hi'|]. split; [exact Htype|]. split; [exact Hin|].
    destruct Hcase as [->|[_ Hexec]]; [|exact Hexec].
    pose proof (Forall_lookup_1 _ _ _ _ Hterm Hi') as Ht.
    pose proof (Forall_lookup_1 _ _ _ _ Hpend Hi) as Hp. simpl in Ht, Hp.
    rewrite Hp in Ht. discriminate. }
  eexists _, _, _. split; [exact Hrun|]. simpl.
  split; [rewrite Hlen; reflexivity|]. split.
  - apply list_eq. intros i. rewrite list_lookup_fmap.
    destruct (tasks !! i) as [t0|] eqn:Hi.
    + destruct (Hall i t0 Hi) as (t' & Hi' & Htype & _). rewrite Hi'. simpl.
      rewrite Htype.
      transitivity ((Task.task_type <$> tasks) !! i);
        [now rewrite list_lookup_fmap, Hi|reflexivity].
    + assert (Hnone : tasks' !! i = None).
      { apply lookup_ge_None. apply lookup_ge_None in Hi. lia. }
      rewrite Hnone. simpl. symmetry. apply lookup_ge_None.
      apply lookup_ge_None in Hi. exact Hi.
  - apply Forall_lookup. intros i t' Hi'.
    assert (Hlt : (i < length tasks)%nat)
      by (rewrite <- Hlen; now apply lookup_lt_Some in Hi').
    destruct (lookup_lt_is_Some_2 _ _ Hlt) as [t0 Hi].
    destruct (Hall i t0 Hi) as (t'' & Hi'' & Htype & Hin & sa & sb & Hexec).
    replace t'' with t' in * by congruence.
    split; [exact (Forall_lookup_1 _ _ _ _ Hterm Hi')|].
    pose proof (local_tool_outcome t0 t' sa sb Hexec) as Hout.
    assert (Hprice : estimated_price t' = estimated_price t0)
      by (unfold estimated_price; now rewrite Htype).
    rewrite Hprice, Htype.
    destruct (Task.task_type t0) eqn:Ht0; try exact I; try exact Hout.
    apply Hout. exact (Forall_lookup_1 _ _ _ _ Hinput Hi Ht0).
Qed.

Lemma tts_outcome_eq (task : Task) (w : @World SRT) :
  Task.task_type task = TTS_GENERATION ->
  tool_outcome (RT := SRT) task w
  = let r := TTSGenerationTool_execute RT0 TTSGenerationTool
               (Task.input_data task) w in
    (match r.1 with
     | Ok (output_data, cost) => Ok (TTSGenerationTool, output_data, cost)
     | Raise e => Raise e
     end, r.2).
Proof. intros Htype. unfold tool_outcome. rewrite Htype. reflexivity. Qed.

(** What a tool returns as the cost is the term of the task in the
    estimate. *)
Lemma source_outcome_cost (task : Task) (w : @World SRT) (tool : Tool)
    (output_data : Dict) (cost : Q) :
  (tool_outcome (RT := SRT) task w).1 = Ok (tool, output_data, cost) ->
  tools (Task.task_type task) = Some tool /\ cost = estimated_price task.
Proof.
  intros Hout. unfold estimated_price.
  destruct (Task.task_type task) eqn:Htype.
  - destruct (research_outcome task w Htype) as (result & Heq & _).
    rewrite Heq in Hout. injection Hout as <- _ <-. split; reflexivity.
  - rewrite (script_outcome task w Htype) in Hout. cbv zeta in Hout.
    unfold ScriptGenerationTool_execute in Hout.
    destruct (py_join _ _); [|discriminate Hout]. cbv zeta in Hout.
    destruct (messages_create _ _) as [[text|e] w1]; [|discriminate Hout].
    cbn [fst snd] in Hout.
    destruct (py_mul_int _ _); [|discriminate Hout].
    injection Hout as <- _ <-. split; reflexivity.
  - rewrite (tts_outcome_eq task w Htype) in Hout. cbv zeta in Hout.
    unfold TTSGenerationTool_execute in Hout.
    destruct (py_get "script" VNone (Task.input_data task));
      try discriminate Hout.
    destruct (int_truediv _ _); [|discriminate Hout].
    destruct (int_of_float _); [|discriminate Hout].
    injection Hout as <- _ <-. split; reflexivity.
  - pose proof (thumbnail_outcome task w Htype) as Heq. cbv zeta in Heq.
    rewrite Heq in Hout. injection Hout as <- _ <-. split; reflexivity.
  - rewrite (seo_outcome task w Htype) in Hout. cbv zeta in Hout.
    unfold SEOOptimizationTool_execute in Hout.
    destruct (py_join _ _); [|discriminate Hout]. cbv zeta in Hout.
    destruct (messages_create _ _) as [[text|e] w1]; [|discriminate Hout].
    injection Hout as <- _ <-. split; reflexivity.
  - unfold tool_outcome in Hout. rewrite Htype in Hout. discriminate Hout.
Qed.

Lemma source_task_cost (task task' : Task) (s s' : @St SRT) :
  execute_task (RT := SRT) task s = (Ok task', s') ->
  (Task.status task' = COMPLETED /\
   Task.cost_usd task' = estimated_price task /\
   exists tool, tools (Task.task_type task) = Some tool /\
                Task.tool_used task' = Some (Tool.name tool)) \/
  (Task.status task' = FAILED /\
   Task.cost_usd task' = Task.cost_usd task /\
   Task.tool_used task' = Task.tool_used task).
Proof.
  intros Hrun.
  destruct (execute_task_spec (RT := SRT) task s)
    as (task'' & s'' & Hrun' & _ & _ & _ & _ & Hcase).
  rewrite Hrun in Hrun'. injection Hrun' as <- <-.
  destruct (tool_outcome task (@datetime_now SRT (world s)).2).1
    as [[[tool output_data] cost]|e] eqn:Hout.
  - destruct (source_outcome_cost _ _ _ _ _ Hout) as (Htool & Hcost).
    destruct Hcase as (Hs & _ & Ht & Hc & _). left.
    split; [exact Hs|]. split; [now rewrite Hc|]. now exists tool.
  - destruct Hcase as (Hs & _ & Ht & Hc & _). right. now repeat split.
Qed.

(** X25. With the tools' own code, the money recorded on a task is never a
    surprise: whatever the input and whatever the remote model does,
    [execute_task] returns the task either [COMPLETED], by the tool of its
    type, at a cost equal to the term that [create_execution_plan] counts for
    such a task in the estimate, or [FAILED] with the cost and the tool it
    had before. *)
Theorem completed_task_costs_its_estimate (task : Task) (s : @St SRT) :
  exists task' s',
    execute_task (RT := SRT) task s = (Ok task', s') /\
    ((Task.status task' = COMPLETED /\
      Task.cost_usd task' = estimated_price task /\
      exists tool, tools (Task.task_type task) = Some tool /\
                   Task.tool_used task' = Some (Tool.name tool)) \/
     (Task.status task' = FAILED /\
      Task.cost_usd task' = Task.cost_usd task /\
      Task.tool_used task' = Task.tool_used task)).
Proof.
  destruct (execute_task_terminal (RT := SRT) task s) as (task' & s' & Hrun & _).
  exists task', s'. split; [exact Hrun|]. exact (source_task_cost _ _ _ _ Hrun).
Qed.

Lemma py_sum_from (xs : list Q) (a : Q) :
  (fold_left Qplus xs a == a + py_sum xs)%Q.
Proof.
  unfold py_sum. revert a. induction xs as [|x xs IH]; intros a; simpl.
  - now rewrite Qplus_0_r.
  - rewrite (IH (a + x)%Q), (IH (0 + x)%Q). rewrite Qplus_0_l. now rewrite Qplus_assoc.
Qed.

Lemma py_sum_cons (x : Q) (xs : list Q) : (py_sum (x :: xs) == x + py_sum xs)%Q.
Proof. unfold py_sum at 1. simpl. rewrite py_sum_from. now rewrite Qplus_0_l. Qed.

Lemma py_sum_le (xs ys : list Q) :
  Forall2 Qle xs ys -> (py_sum xs <= py_sum ys)%Q.
Proof.
  induction 1 as [|x y xs ys Hxy _ IH]; [apply Qle_refl|].
  rewrite !py_sum_cons. now apply Qplus_le_compat.
Qed.

Lemma py_sum_eq (xs ys : list Q) :
  Forall2 Qeq xs ys -> (py_sum xs == py_sum ys)%Q.
Proof.
  induction 1 as [|x y xs ys Hxy _ IH]; [reflexivity|].
  rewrite !py_sum_cons. now rewrite Hxy, IH.
Qed.

Lemma estimated_price_nonneg (task : Task) : (0 <= estimated_price task)%Q.
Proof.
  unfold estimated_price. destruct (Task.task_type task); vm_compute; discriminate.
Qed.

(** X26. A plan returned by [create_execution_plan] with distinct task
    identifiers, run by [execute_plan] with the tools' own code, whatever the
    remote model does: each of the 17 tasks ends [COMPLETED] at the cost
    counted for it in the estimate or [FAILED] at cost 0, only a script or SEO
    task can fail, and so the costs recorded add up to at most the sum of the
    terms of the estimate, and to that sum when no task failed. *)
Theorem created_plan_cost_within_estimate
    (goal : string) (project_context : Dict) (s s1 s2 : @St SRT)
    (plan : ExecutionPlan) (fuel : nat) :
  create_execution_plan (RT := SRT) goal project_context s = (Ok plan, s1) ->
  NoDup (map Task.id (ExecutionPlan.tasks plan)) ->
  (17 < fuel)%nat ->
  exists plan' returned s',
    execute_plan (RT := SRT) fuel plan s2 = (Ok (Some (plan', returned)), s') /\
    Forall (fun task =>
              (Task.status task = COMPLETED /\
               Task.cost_usd task = estimated_price task) \/
              (Task.status task = FAILED /\ Task.cost_usd task = 0%Q /\
               (Task.task_type task = SCRIPT_GENERATION \/
                Task.task_type task = SEO_OPTIMIZATION)))
           (ExecutionPlan.tasks plan') /\
    (py_sum (Task.cost_usd <$> ExecutionPlan.tasks plan')
     <= py_sum (estimated_price <$> ExecutionPlan.tasks plan))%Q /\
    (Forall (fun task => Task.status task = COMPLETED)
            (ExecutionPlan.tasks plan') ->
     (py_sum (Task.cost_usd <$> ExecutionPlan.tasks plan')
      == py_sum (estimated_price <$> ExecutionPlan.tasks plan))%Q).
Proof.
  intros Hcreate Hnd Hfuel.
  destruct (PyStr.split goal) as [|keyword rest] eqn:Hsplit.
  { destruct (create_execution_plan_blank (RT := SRT) goal project_context s Hsplit)
      as [s0 H].
    rewrite H in Hcreate. discriminate. }
  destruct (create_execution_plan_inv (RT := SRT) _ _ _ _ _ _ _ Hsplit Hcreate)
    as (Htasks & _).
  set (tasks := canonical_decomposition 4 _ _ _ _ _) in *.
  clear Hcreate.
  assert (Hpend : Forall (fun task => Task.status task = PENDING) tasks)
    by apply canonical_all_pending.
  assert (Hinput : Forall (fun task =>
            Task.task_type task = TTS_GENERATION ->
            Task.input_data task
            = [("script", VStr "placeholder"); ("voice", VStr "natural")]) tasks)
    by apply canonical_tts_input.
  assert (Hfresh : Forall (fun task => Task.cost_usd task = 0%Q) tasks).
  { eapply Forall_impl; [apply canonical_fresh|]. intros t Ht. apply Ht. }
  assert (Hdeps : dependencies_earlier tasks).
  { intros i task d Hi Hd. now apply (canonical_dependency_earlier _ _ _ _ _ i task). }
  assert (Htools : forallb has_tool tasks = true) by apply canonical_has_tools.
  destruct (execute_plan_run (RT := SRT) fuel plan s2)
    as (s3 & tasks' & completed & s4 & Hrun & Hreach & Hexit);
    [rewrite Htasks; simpl; lia|].
  rewrite Htasks in *. clearbody tasks.
  pose proof (loop_reachable_invariant _ _ _ _ _ Hreach) as Hinv.
  pose proof (ordered_plan_all_terminal _ _ _ _ _ Hinv Hexit Hpend Hdeps) as Hterm.
  pose proof (loop_steps_executed _ _ Hreach) as Hex. simpl in Hex.
  pose proof Hinv as (Hlen & HT & _).
  assert (Hall : Forall2 (fun t0 t' =>
            (Task.status t' = COMPLETED /\
             Task.cost_usd t' = estimated_price t0 /\
             estimated_price t' = estimated_price t0) \/
            (Task.status t' = FAILED /\ Task.cost_usd t' = 0%Q /\
             (Task.task_type t' = SCRIPT_GENERATION \/
              Task.task_type t' = SEO_OPTIMIZATION))) tasks tasks').
  { apply Forall2_same_length_lookup. split; [now rewrite Hlen|].
    intros i t0 t' Hi Hi'.
    destruct (Hex i t0 Hi) as (t'' & Hi'' & Hcase).
    replace t'' with t' in * by congruence.
    destruct (HT i t0 Hi) as (t3 & Hi3 & Hid & _).
    replace t3 with t' in * by congruence.
    destruct Hid as (_ & _ & Htype & _).
    assert (Hprice : estimated_price t' = estimated_price t0)
      by (unfold estimated_price; now rewrite Htype).
    pose proof (Forall_lookup_1 _ _ _ _ Hterm Hi') as Ht.
    pose proof (Forall_lookup_1 _ _ _ _ Hpend Hi) as Hp.
    pose proof (Forall_lookup_1 _ _ _ _ Hfresh Hi) as Hzero.
    simpl in Ht, Hp, Hzero.
    destruct Hcase as [->|[_ (sa & sb & Hexec)]];
      [rewrite Hp in Ht; discriminate|].
    destruct (source_task_cost _ _ _ _ Hexec)
      as [(Hs & Hc & _)|(Hs & Hc & _)]; [left; now repeat split|].
    right. split; [exact Hs|]. split; [now rewrite Hc|].
    pose proof (local_tool_outcome t0 t' sa sb Hexec) as Hlocal.
    rewrite Htype.
    destruct (Task.task_type t0) eqn:Ht0; auto.
    - destruct Hlocal as (Hs' & _). rewrite Hs in Hs'. discriminate.
    - destruct (Hlocal (Forall_lookup_1 _ _ _ _ Hinput Hi Ht0)) as (Hs' & _).
      rewrite Hs in Hs'. discriminate.
    - destruct Hlocal as (Hs' & _). rewrite Hs in Hs'. discriminate.
    - exfalso. rewrite forallb_forall in Htools.
      apply list_elem_of_lookup_2, list_elem_of_In in Hi.
      specialize (Htools t0 Hi). unfold has_tool in Htools.
      rewrite Ht0 in Htools. discriminate. }
  eexists _, _, _. split; [exact Hrun|].
  cbn [ExecutionPlan.tasks ExecutionPlan.with_tasks].
  split; [|split].
  - apply Forall_lookup. intros i t' Hi'.
    destruct (Forall2_lookup_r _ _ _ _ _ Hall Hi') as (t0 & Hi & Hcase).
    destruct Hcase as [(Hs & Hc & Hp)|Hfail]; [left|now right].
    split; [exact Hs|]. now rewrite Hp.
  - apply py_sum_le. apply Forall2_fmap, Forall2_flip.
    eapply Forall2_impl; [exact Hall|]. intros t0 t' Hcase. simpl.
    destruct Hcase as [(_ & -> & _)|(_ & -> & _)]; [apply Qle_refl|].
    apply estimated_price_nonneg.
  - intros Hcompleted. apply py_sum_eq. apply Forall2_fmap, Forall2_flip.
    apply Forall2_same_length_lookup.
    split; [now apply Forall2_length in Hall|].
    intros i t0 t' Hi Hi'.
    pose proof (Forall2_lookup_lr _ _ _ _ _ _ Hall Hi Hi') as Hcase.
    pose proof (Forall_lookup_1 _ _ _ _ Hcompleted Hi') as Hs. simpl in Hs.
    destruct Hcase as [(_ & -> & _)|(Hf & _)]; [reflexivity|].
    rewrite Hs in Hf. discriminate.
Qed.

End SourceToolProperties.

(** * The further properties on the simulated runtime *)

Lemma route_tools_mapping_witness :
  let tasks := ExecutionPlan.tasks sim_failing_plan in
  let tool_mapping := [("narration", "tts_tool"); ("metadata", "seo_tool")] in
  let s' := @mkSt SimRuntime 0%nat [Info_ToolRoutingCompleted 2] in
  route_tools tasks sim_start = (Ok tool_mapping, s') /\
  s' = mkSt (world sim_start)
            (log sim_start ++ [Info_ToolRoutingCompleted (length tasks)]) /\
  (forall i task,
     tasks !! i = Some task ->
     (forall j task', (i < j)%nat -> tasks !! j = Some task' ->
                      Task.id task' <> Task.id task) ->
     exists tool, tools (Task.task_type task) = Some tool /\
                  dict_get (Task.id task) tool_mapping = Some (Tool.name tool)) /\
  (forall k name,
     dict_get k tool_mapping = Some name ->
     exists task tool, task ∈ tasks /\ Task.id task = k /\
                       tools (Task.task_type task) = Some tool /\
                       name = Tool.name tool) /\
  (NoDup (map Task.id tasks) -> length tool_mapping = length tasks).
Proof.
  intros tasks tool_mapping s'.
  assert (H : route_tools tasks sim_start = (Ok tool_mapping, s'))
    by (vm_compute; reflexivity).
  split; [exact H|].
  exact (route_tools_mapping (RT := SimRuntime) tasks sim_start s' tool_mapping H).
Defined.

Lemma route_tools_unserved_type_witness :
  sim_upload_task ∈ ExecutionPlan.tasks sim_upload_plan /\
  Task.task_type sim_upload_task = VIDEO_UPLOAD /\
  route_tools (ExecutionPlan.tasks sim_upload_plan) sim_start
  = (Raise (mkExn "KeyError" "<TaskType.VIDEO_UPLOAD: 'video_upload'>"),
     sim_start).
Proof.
  assert (H1 : sim_upload_task ∈ ExecutionPlan.tasks sim_upload_plan)
    by (simpl; repeat constructor).
  assert (H2 : Task.task_type sim_upload_task = VIDEO_UPLOAD) by reflexivity.
  split; [exact H1|]. split; [exact H2|].
  exact (route_tools_unserved_type (RT := SimRuntime) _ _ sim_start H1 H2).
Defined.

Lemma execute_task_without_tool_witness :
  Task.task_type sim_upload_task = VIDEO_UPLOAD /\
  exists task',
    execute_task sim_upload_task sim_start
    = (Ok task',
       @mkSt SimRuntime 2%nat
          [ Info_ExecutingTask "upload" "video_upload";
            Error_TaskFailed "upload" "<TaskType.VIDEO_UPLOAD: 'video_upload'>";
            Info_SavingTask "upload" ]) /\
    Task.status task' = FAILED /\
    Task.output_data task'
      = Some [("error", VStr "<TaskType.VIDEO_UPLOAD: 'video_upload'>")] /\
    Task.tool_used task' = None /\
    Task.cost_usd task' = 0%Q /\
    Task.completed_at task' = Some 700000%Z /\
    Task.execution_time_seconds task' = 0%Z.
Proof.
  assert (H : Task.task_type sim_upload_task = VIDEO_UPLOAD) by reflexivity.
  split; [exact H|].
  exact (execute_task_without_tool (RT := SimRuntime) sim_upload_task sim_start H).
Defined.

Lemma execute_task_duration_bounds_witness :
  let task := sim_task "script" SCRIPT_GENERATION PENDING [] in
  (0 <= 1400000 - 0 < 2 ^ 52)%Z /\
  exists r s',
    execute_task_full (RT := SimRuntime) sim_interrupted_invoke task sim_start
    = (Ok r, s') /\
    Task.execution_time_seconds (outcome_task r) = ((1400000 - 0) / 1000000)%Z /\
    (0 <= Task.execution_time_seconds (outcome_task r))%Z /\
    (Task.execution_time_seconds (outcome_task r) * 1000000 <= 1400000 - 0)%Z /\
    (1400000 - 0 < (Task.execution_time_seconds (outcome_task r) + 1) * 1000000)%Z.
Proof.
  intros task.
  assert (H : (0 <= 1400000 - 0 < 2 ^ 52)%Z) by lia.
  split; [exact H|].
  exact (execute_task_duration_bounds (RT := SimRuntime) sim_interrupted_invoke
           task sim_start H).
Defined.

Lemma create_execution_plan_effects_witness :
  PyStr.all_space sim_goal = false /\
  exists plan s',
    create_execution_plan sim_goal sim_context sim_start = (Ok plan, s') /\
    world s' = 18%nat /\
    log s' = [ Info_CreatingPlan sim_goal; Info_AnalyzingGoal sim_goal;
               Info_Decomposing; Info_ToolRoutingCompleted 17;
               Info_PlanCreated (ExecutionPlan.estimated_cost plan) 28%Z;
               Info_SavingPlan (VStr "p1") ] /\
    ExecutionPlan.project_id plan = VStr "p1" /\
    ExecutionPlan.goal plan = sim_goal /\
    ExecutionPlan.created_at plan = 11900000%Z /\
    ExecutionPlan.estimated_duration_minutes plan = 28%Z /\
    (Task.id <$> ExecutionPlan.tasks plan)
      = (uuid_at (RT := SimRuntime) 0%nat <$> seq 0 17).
Proof.
  assert (H : PyStr.all_space sim_goal = false) by reflexivity.
  split; [exact H|].
  exact (create_execution_plan_effects (RT := SimRuntime) sim_goal sim_context
           sim_start H).
Defined.

Lemma create_execution_plan_tool_mapping_witness :
  create_execution_plan sim_goal sim_context sim_start
  = (Ok sim_created_plan, sim_created.2) /\
  NoDup (map Task.id (ExecutionPlan.tasks sim_created_plan)) /\
  length (ExecutionPlan.tool_mapping sim_created_plan) = 17%nat /\
  (forall task, task ∈ ExecutionPlan.tasks sim_created_plan ->
     exists tool, tools (Task.task_type task) = Some tool /\
       dict_get (Task.id task) (ExecutionPlan.tool_mapping sim_created_plan)
       = Some (Tool.name tool)) /\
  (forall k name,
     dict_get k (ExecutionPlan.tool_mapping sim_created_plan) = Some name ->
     exists task, task ∈ ExecutionPlan.tasks sim_created_plan /\ Task.id task = k).
Proof.
  assert (H1 : create_execution_plan (RT := SimRuntime) sim_goal sim_context
                 sim_start = (Ok sim_created_plan, sim_created.2))
    by (vm_compute; reflexivity).
  assert (H2 : NoDup (map Task.id (ExecutionPlan.tasks sim_created_plan)))
    by (apply (bool_decide_unpack _); vm_compute; reflexivity).
  split; [exact H1|]. split; [exact H2|].
  exact (create_execution_plan_tool_mapping (RT := SimRuntime) sim_goal
           sim_context sim_start sim_created.2 sim_created_plan H1 H2).
Defined.

Lemma create_execution_plan_blank_goal_witness :
  PyStr.all_space "  " = true /\
  create_execution_plan "  " sim_context sim_start
  = (Raise (mkExn "IndexError" "list index out of range"),
     @mkSt SimRuntime 1%nat
        [Info_CreatingPlan "  "; Info_AnalyzingGoal "  "; Info_Decomposing]).
Proof.
  assert (H : PyStr.all_space "  " = true) by reflexivity.
  split; [exact H|].
  exact (create_execution_plan_blank_goal (RT := SimRuntime) "  " sim_context
           sim_start H).
Defined.

Lemma execute_plan_log_accounting_witness :
  (length (ExecutionPlan.tasks sim_failing_plan) < 3)%nat /\
  exists plan' returned s' n records stall,
    execute_plan 3 sim_failing_plan sim_start
    = (Ok (Some (plan', returned)), s') /\
    log s' = log sim_start
             ++ [Info_StartingExecution (ExecutionPlan.project_id sim_failing_plan)]
             ++ records ++ stall
             ++ [Info_PlanExecutionCompleted (length returned)] /\
    forallb task_record records = true /\
    count_records is_executing_record records = n /\
    count_records is_saving_record records = n /\
    count_pending (ExecutionPlan.tasks sim_failing_plan)
    = (count_pending (ExecutionPlan.tasks plan') + n)%nat /\
    ((stall = [] /\
      length returned = length (ExecutionPlan.tasks sim_failing_plan)) \/
     (stall = [Warning_NoReadyTasks] /\
      (length returned < length (ExecutionPlan.tasks sim_failing_plan))%nat)).
Proof.
  assert (H : (length (ExecutionPlan.tasks sim_failing_plan) < 3)%nat)
    by (simpl; lia).
  split; [exact H|].
  exact (execute_plan_log_accounting (RT := SimRuntime) 3 sim_failing_plan
           sim_start H).
Defined.

Lemma execute_plan_completes_ordered_plan_witness :
  (length (ExecutionPlan.tasks sim_failing_plan) < 3)%nat /\
  Forall (fun task => Task.status task = PENDING)
         (ExecutionPlan.tasks sim_failing_plan) /\
  dependencies_earlier (ExecutionPlan.tasks sim_failing_plan) /\
  exists plan' returned s' records stall,
    execute_plan 3 sim_failing_plan sim_start
    = (Ok (Some (plan', returned)), s') /\
    Forall (fun task => is_terminal (Task.status task) = true)
           (ExecutionPlan.tasks plan') /\
    log s' = log sim_start
             ++ [Info_StartingExecution (ExecutionPlan.project_id sim_failing_plan)]
             ++ records ++ stall
             ++ [Info_PlanExecutionCompleted (length returned)] /\
    forallb task_record records = true /\
    count_records is_executing_record records
    = length (ExecutionPlan.tasks sim_failing_plan) /\
    (NoDup (map Task.id (ExecutionPlan.tasks sim_failing_plan)) ->
     stall = [] /\ length returned = length (ExecutionPlan.tasks sim_failing_plan)).
Proof.
  assert (H1 : (length (ExecutionPlan.tasks sim_failing_plan) < 3)%nat)
    by (simpl; lia).
  assert (H2 : Forall (fun task => Task.status task = PENDING)
                      (ExecutionPlan.tasks sim_failing_plan))
    by (simpl; repeat constructor).
  assert (H3 : dependencies_earlier (ExecutionPlan.tasks sim_failing_plan)).
  { intros [|[|i]] task dep_id Hi Hd; simpl in Hi; try discriminate Hi;
      injection Hi as <-; simpl in Hd.
    - apply elem_of_nil in Hd. contradiction.
    - apply list_elem_of_singleton in Hd as ->.
      exists 0%nat, (sim_task "narration" TTS_GENERATION PENDING []).
      split; [lia|]. split; reflexivity. }
  split; [exact H1|]. split; [exact H2|]. split; [exact H3|].
  exact (execute_plan_completes_ordered_plan (RT := SimRuntime) 3
           sim_failing_plan sim_start H1 H2 H3).
Defined.

Lemma execute_plan_preserves_identity_witness :
  (length (ExecutionPlan.tasks sim_interrupted_plan) < 3)%nat /\
  exists plan' returned s',
    execute_plan 3 sim_interrupted_plan sim_start
    = (Ok (Some (plan', returned)), s') /\
    plan' = ExecutionPlan.with_tasks (ExecutionPlan.tasks plan')
              sim_interrupted_plan /\
    length (ExecutionPlan.tasks plan')
    = length (ExecutionPlan.tasks sim_interrupted_plan) /\
    (forall (i : nat) task,
       ExecutionPlan.tasks sim_interrupted_plan !! i = Some task ->
       exists task',
         ExecutionPlan.tasks plan' !! i = Some task' /\
         same_identity task task' /\
         (Task.status task <> PENDING -> task' = task) /\
         (task' = task \/
          (is_terminal (Task.status task') = true /\
           exists s1 s2,
             execute_task (RT := SimRuntime) task s1 = (Ok task', s2)))).
Proof.
  assert (H : (length (ExecutionPlan.tasks sim_interrupted_plan) < 3)%nat)
    by (simpl; lia).
  split; [exact H|].
  exact (execute_plan_preserves_identity (RT := SimRuntime) 3
           sim_interrupted_plan sim_start H).
Defined.

Lemma execute_plan_returns_distinct_ids_witness :
  (length (ExecutionPlan.tasks sim_failing_plan) < 3)%nat /\
  exists plan' returned s',
    execute_plan 3 sim_failing_plan sim_start
    = (Ok (Some (plan', returned)), s') /\
    NoDup (Task.id <$> returned) /\
    (forall r, r ∈ returned ->
       exists i task0,
         ExecutionPlan.tasks sim_failing_plan !! i = Some task0 /\
         Task.status task0 = PENDING /\
         ExecutionPlan.tasks plan' !! i = Some r /\
         is_terminal (Task.status r) = true).
Proof.
  assert (H : (length (ExecutionPlan.tasks sim_failing_plan) < 3)%nat)
    by (simpl; lia).
  split; [exact H|].
  exact (execute_plan_returns_distinct_ids (RT := SimRuntime) 3 sim_failing_plan
           sim_start H).
Defined.

Lemma created_plan_runs_to_completion_witness :
  create_execution_plan sim_goal sim_context sim_start
  = (Ok sim_created_plan, sim_created.2) /\
  NoDup (map Task.id (ExecutionPlan.tasks sim_created_plan)) /\
  (17 < 18)%nat /\
  exists plan' returned s' records,
    execute_plan 18 sim_created_plan sim_created.2
    = (Ok (Some (plan', returned)), s') /\
    length returned = 17%nat /\
    Forall (fun task => is_terminal (Task.status task) = true) returned /\
    Forall (fun task => is_terminal (Task.status task) = true)
           (ExecutionPlan.tasks plan') /\
    log s' = log sim_created.2
             ++ [Info_StartingExecution (ExecutionPlan.project_id sim_created_plan)]
             ++ records ++ [Info_PlanExecutionCompleted 17] /\
    forallb task_record records = true /\
    count_records is_executing_record records = 17%nat.
Proof.
  assert (H1 : create_execution_plan (RT := SimRuntime) sim_goal sim_context
                 sim_start = (Ok sim_created_plan, sim_created.2))
    by (vm_compute; reflexivity).
  assert (H2 : NoDup (map Task.id (ExecutionPlan.tasks sim_created_plan)))
    by (apply (bool_decide_unpack _); vm_compute; reflexivity).
  assert (H3 : (17 < 18)%nat) by lia.
  split; [exact H1|]. split; [exact H2|]. split; [exact H3|].
  exact (created_plan_runs_to_completion (RT := SimRuntime) sim_goal sim_context
           sim_start sim_created.2 sim_created.2 sim_created_plan 18 H1 H2 H3).
Defined.

Lemma ExecutionPlan_to_dict_lossless_witness :
  ExecutionPlan_to_dict sim_isoformat sim_failing_plan
  = ExecutionPlan_to_dict sim_isoformat sim_failing_plan /\
  same_serialized_plan sim_isoformat sim_failing_plan sim_failing_plan /\
  ((forall a b, sim_isoformat a = sim_isoformat b -> a = b) ->
   sim_failing_plan = sim_failing_plan).
Proof.
  assert (H : ExecutionPlan_to_dict sim_isoformat sim_failing_plan
              = ExecutionPlan_to_dict sim_isoformat sim_failing_plan)
    by reflexivity.
  split; [exact H|].
  exact (ExecutionPlan_to_dict_lossless sim_isoformat sim_failing_plan
           sim_failing_plan H).
Defined.

Lemma created_plan_to_dict_witness :
  PyStr.all_space sim_goal = false /\
  exists plan s' task_dicts,
    create_execution_plan sim_goal sim_context sim_start = (Ok plan, s') /\
    let d := ExecutionPlan_to_dict sim_isoformat plan in
    let project_id := py_get "project_id" VNone sim_context in
    dict_get "project_id" d = Some project_id /\
    dict_get "goal" d = Some (VStr sim_goal) /\
    dict_get "estimated_duration_minutes" d = Some (VInt 28) /\
    dict_get "tasks" d = Some (VList (map VDict task_dicts)) /\
    length task_dicts = 17%nat /\
    Forall (fun td =>
              dict_get "project_id" td = Some project_id /\
              dict_get "status" td = Some (VStr "pending") /\
              dict_get "output_data" td = Some VNone /\
              dict_get "tool_used" td = Some VNone /\
              dict_get "cost_usd" td = Some (VFloat 0) /\
              dict_get "execution_time_seconds" td = Some (VInt 0) /\
              dict_get "created_at" td = Some VNone /\
              dict_get "completed_at" td = Some VNone)
           task_dicts.
Proof.
  assert (H : PyStr.all_space sim_goal = false) by reflexivity.
  split; [exact H|].
  exact (created_plan_to_dict (RT := SimRuntime) sim_isoformat sim_goal
           sim_context sim_start H).
Defined.

Lemma research_task_completes_witness :
  let task := sim_task "research" RESEARCH PENDING [] in
  Task.task_type task = RESEARCH /\
  exists task' s' result,
    execute_task (RT := SimSourceRuntime) task sim_source_start = (Ok task', s') /\
    Task.status task' = COMPLETED /\
    Task.tool_used task' = Some "research_tool" /\
    Task.cost_usd task' = 0.0%Q /\
    Task.output_data task' = Some result /\
    dict_keys result
    = [ "niche"; "trending_keywords"; "competition_level"; "monthly_searches";
        "top_competitor_avg_views"; "audience_demographics" ] /\
    dict_get "niche" result = Some VNone /\
    (world s').1 = 2%nat /\
    (world s').2 = [Info_ResearchExecuted VNone].
Proof.
  intros task.
  assert (H : Task.task_type task = RESEARCH) by reflexivity.
  split; [exact H|].
  exact (research_task_completes SimRuntime sim_isoformat sim_messages_create task sim_source_start H).
Defined.

Lemma tts_task_without_script_witness :
  let task := sim_task "narration" TTS_GENERATION PENDING [] in
  Task.task_type task = TTS_GENERATION /\
  (forall text, py_get "script" VNone (Task.input_data task) <> VStr text) /\
  exists task' s',
    execute_task (RT := SimSourceRuntime) task sim_source_start = (Ok task', s') /\
    Task.status task' = FAILED /\
    Task.output_data task'
    = Some [("error", VStr "'NoneType' object has no attribute 'split'")] /\
    Task.tool_used task' = None /\
    Task.cost_usd task' = 0%Q /\
    log s' = [ Info_ExecutingTask "narration" "tts_generation";
               Error_TaskFailed "narration"
                 "'NoneType' object has no attribute 'split'";
               Info_SavingTask "narration" ] /\
    (world s').1 = 2%nat /\
    (world s').2 = [].
Proof.
  intros task.
  assert (H1 : Task.task_type task = TTS_GENERATION) by reflexivity.
  assert (H2 : forall text,
             py_get "script" VNone (Task.input_data task) <> VStr text)
    by (intros text; simpl; discriminate).
  split; [exact H1|]. split; [exact H2|].
  exact (tts_task_without_script SimRuntime sim_isoformat sim_messages_create task sim_source_start
           H1 H2).
Defined.

Lemma tts_task_duration_witness :
  let task := sim_narration_task (VStr "one two  three") in
  Task.task_type task = TTS_GENERATION /\
  py_get "script" VNone (Task.input_data task) = VStr "one two  three" /\
  (length (PyStr.split "one two  three") <= 615)%nat /\
  exists task' s',
    execute_task (RT := SimSourceRuntime) task sim_source_start = (Ok task', s') /\
    Task.status task' = COMPLETED /\
    Task.tool_used task' = Some "tts_tool" /\
    Task.cost_usd task' = 0.10%Q /\
    Task.output_data task'
    = Some [ ("status", VStr "generated");
             ("audio_url", VStr "s3://audio/task-1.mp3");
             ("duration_seconds", VInt 1);
             ("voice", VStr "natural");
             ("word_count", VInt 3);
             ("provider", VStr "google") ] /\
    (world s').1 = 3%nat.
Proof.
  intros task.
  assert (H1 : Task.task_type task = TTS_GENERATION) by reflexivity.
  assert (H2 : py_get "script" VNone (Task.input_data task)
               = VStr "one two  three") by reflexivity.
  assert (H3 : (length (PyStr.split "one two  three") <= 615)%nat)
    by (vm_compute; lia).
  split; [exact H1|]. split; [exact H2|]. split; [exact H3|].
  exact (tts_task_duration SimRuntime sim_isoformat sim_messages_create task sim_source_start
           "one two  three" H1 H2 H3).
Defined.

Lemma thumbnail_task_charges_three_calls_witness :
  Task.task_type sim_thumbnail_task = THUMBNAIL_GENERATION /\
  exists task' s' result,
    execute_task (RT := SimSourceRuntime) sim_thumbnail_task sim_source_start
    = (Ok task', s') /\
    Task.status task' = COMPLETED /\
    Task.tool_used task' = Some "thumbnail_tool" /\
    Task.cost_usd task' = (0.24 * 3)%Q /\
    Task.cost_usd task' = 0.72%Q /\
    Task.cost_usd task' = estimated_price sim_thumbnail_task /\
    Task.output_data task' = Some result /\
    dict_get "thumbnails_generated" result = Some (VInt 3) /\
    dict_get "urls" result
    = Some (VList [ VStr "s3://thumbnails/task-1_v1.jpg";
                    VStr "s3://thumbnails/task-2_v2.jpg";
                    VStr "s3://thumbnails/task-3_v3.jpg" ]) /\
    dict_get "generated_at" result = Some (VStr "2800000") /\
    (world s').1 = 6%nat.
Proof.
  assert (H : Task.task_type sim_thumbnail_task = THUMBNAIL_GENERATION)
    by reflexivity.
  split; [exact H|].
  exact (thumbnail_task_charges_three_calls SimRuntime sim_isoformat
           sim_messages_create sim_thumbnail_task sim_source_start H).
Defined.

Lemma created_plan_local_tools_witness :
  create_execution_plan (RT := SimSourceRuntime) sim_goal sim_context
    sim_source_start
  = (Ok sim_source_created_plan, sim_source_created.2) /\
  NoDup (map Task.id (ExecutionPlan.tasks sim_source_created_plan)) /\
  (17 < 18)%nat /\
  exists plan' returned s',
    execute_plan (RT := SimSourceRuntime) 18 sim_source_created_plan
      sim_source_created.2
    = (Ok (Some (plan', returned)), s') /\
    length (ExecutionPlan.tasks plan') = 17%nat /\
    (Task.task_type <$> ExecutionPlan.tasks plan')
    = [RESEARCH] ++ replicate 4 SCRIPT_GENERATION ++ replicate 4 TTS_GENERATION
      ++ replicate 4 THUMBNAIL_GENERATION ++ replicate 4 SEO_OPTIMIZATION /\
    Forall (fun task =>
              is_terminal (Task.status task) = true /\
              match Task.task_type task with
              | RESEARCH =>
                  Task.status task = COMPLETED /\ Task.cost_usd task = 0.0%Q /\
                  Task.cost_usd task = estimated_price task
              | THUMBNAIL_GENERATION =>
                  Task.status task = COMPLETED /\ Task.cost_usd task = 0.72%Q /\
                  Task.cost_usd task = estimated_price task
              | TTS_GENERATION =>
                  Task.status task = COMPLETED /\ Task.cost_usd task = 0.10%Q /\
                  Task.cost_usd task = estimated_price task /\
                  exists result,
                    Task.output_data task = Some result /\
                    dict_get "word_count" result = Some (VInt 1) /\
                    dict_get "duration_seconds" result = Some (VInt 0)
              | _ => True
              end)
           (ExecutionPlan.tasks plan').
Proof.
  assert (H0 : sim_source_created.1 = Ok sim_source_created_plan)
    by (vm_compute; reflexivity).
  assert (H1 : create_execution_plan (RT := SimSourceRuntime) sim_goal
                 sim_context sim_source_start
               = (Ok sim_source_created_plan, sim_source_created.2))
    by (rewrite <- H0; unfold sim_source_created; apply surjective_pairing).
  assert (H2 : NoDup (map Task.id (ExecutionPlan.tasks sim_source_created_plan)))
    by (apply (bool_decide_unpack _); vm_compute; reflexivity).
  assert (H3 : (17 < 18)%nat) by lia.
  split; [exact H1|]. split; [exact H2|]. split; [exact H3|].
  exact (created_plan_local_tools SimRuntime sim_isoformat sim_messages_create sim_goal sim_context
           sim_source_start sim_source_created.2 sim_source_created.2
           sim_source_created_plan 18 H1 H2 H3).
Defined.

Lemma script_task_outcome_witness :
  Task.task_type sim_short_script_task = SCRIPT_GENERATION /\
  (forall q,
     py_get "duration_minutes" (VInt 5) (Task.input_data sim_short_script_task)
     = VFloat q ->
     float_finite (float_mul (float_of_Q q) (float_of_Q (inject_Z 60)))
     = true) /\
  exists task' s',
    execute_task (RT := SimSourceRuntime) sim_short_script_task sim_source_start
    = (Ok task', s') /\
    Task.status task' = COMPLETED /\
    Task.tool_used task' = Some "script_generation_tool" /\
    Task.cost_usd task' = 0.50%Q /\
    Task.output_data task'
    = Some [ ("title", VStr "Video 1: Grow my tech channel");
             ("script",
               VStr "Hook [PAUSE] problem, solution and a call to action");
             ("estimated_duration_seconds",
               VFloat (8106479329266892 # 1125899906842624));
             ("word_count", VInt 9);
             ("generated_at", VStr "1400000") ] /\
    (world s').1 = 4%nat.
Proof.
  assert (H : Task.task_type sim_short_script_task = SCRIPT_GENERATION)
    by reflexivity.
  assert (H' : forall q,
             py_get "duration_minutes" (VInt 5)
               (Task.input_data sim_short_script_task) = VFloat q ->
             float_finite
               (float_mul (float_of_Q q) (float_of_Q (inject_Z 60))) = true)
    by (intros q Hq; vm_compute in Hq; injection Hq as <-; vm_compute;
        reflexivity).
  split; [exact H|]. split; [exact H'|].
  exact (script_task_outcome SimRuntime sim_isoformat sim_messages_create
           sim_short_script_task sim_source_start H H').
Defined.

(** 0.12 minutes are 7.199999999999999 seconds in binary64, one unit in the
    last place below the float of 7.2. *)
Example py_mul_int_float :
  py_mul_int (VFloat 0.12) 60
  = Ok (VFloat (8106479329266892 # 1125899906842624)) /\
  Q_of_float (float_of_Q 7.2) = (8106479329266893 # 1125899906842624)%Q /\
  py_mul_int (VInt 5) 60 = Ok (VInt 300) /\
  py_mul_int (VStr "ab") 2 = Ok (VStr "abab") /\
  py_mul_int VNone 60
  = Raise (mkExn "TypeError"
             "unsupported operand type(s) for *: 'NoneType' and 'int'").
Proof. vm_compute. repeat split; reflexivity. Qed.

Lemma seo_task_outcome_witness :
  Task.task_type sim_seo_task = SEO_OPTIMIZATION /\
  exists task' s',
    execute_task (RT := SimSourceRuntime) sim_seo_task sim_source_start
    = (Ok task', s') /\
    (Task.status task' = FAILED /\
     Task.output_data task' = Some [("error", VStr "overloaded")] /\
     Task.tool_used task' = None /\
     Task.cost_usd task' = 0%Q) /\
    (world s').1 = 3%nat.
Proof.
  assert (H : Task.task_type sim_seo_task = SEO_OPTIMIZATION) by reflexivity.
  split; [exact H|].
  exact (seo_task_outcome SimRuntime sim_isoformat sim_messages_create
           sim_seo_task sim_source_start H).
Defined.

Lemma created_plan_cost_within_estimate_witness :
  create_execution_plan (RT := SimSourceRuntime) sim_goal sim_context
    sim_source_start
  = (Ok sim_source_created_plan, sim_source_created.2) /\
  NoDup (map Task.id (ExecutionPlan.tasks sim_source_created_plan)) /\
  (17 < 18)%nat /\
  exists plan' returned s',
    execute_plan (RT := SimSourceRuntime) 18 sim_source_created_plan
      sim_source_created.2
    = (Ok (Some (plan', returned)), s') /\
    Forall (fun task =>
              (Task.status task = COMPLETED /\
               Task.cost_usd task = estimated_price task) \/
              (Task.status task = FAILED /\ Task.cost_usd task = 0%Q /\
               (Task.task_type task = SCRIPT_GENERATION \/
                Task.task_type task = SEO_OPTIMIZATION)))
           (ExecutionPlan.tasks plan') /\
    (py_sum (Task.cost_usd <$> ExecutionPlan.tasks plan')
     <= py_sum (estimated_price <$> ExecutionPlan.tasks sim_source_created_plan))%Q /\
    (Forall (fun task => Task.status task = COMPLETED)
            (ExecutionPlan.tasks plan') ->
     (py_sum (Task.cost_usd <$> ExecutionPlan.tasks plan')
      == py_sum (estimated_price
                   <$> ExecutionPlan.tasks sim_source_created_plan))%Q).
Proof.
  assert (H0 : sim_source_created.1 = Ok sim_source_created_plan)
    by (vm_compute; reflexivity).
  assert (H1 : create_execution_plan (RT := SimSourceRuntime) sim_goal
                 sim_context sim_source_start
               = (Ok sim_source_created_plan, sim_source_created.2))
    by (rewrite <- H0; unfold sim_source_created; apply surjective_pairing).
  assert (H2 : NoDup (map Task.id (ExecutionPlan.tasks sim_source_created_plan)))
    by (apply (bool_decide_unpack _); vm_compute; reflexivity).
  assert (H3 : (17 < 18)%nat) by lia.
  split; [exact H1|]. split; [exact H2|]. split; [exact H3|].
  exact (created_plan_cost_within_estimate SimRuntime sim_isoformat
           sim_messages_create sim_goal sim_context sim_source_start
           sim_source_created.2 sim_source_created.2 sim_source_created_plan 18
           H1 H2 H3).
Defined.
